(** * presidents-economy: the chart rendering engine of [src/js/thing.js]

    A shallow embedding of the module that draws the economic indicator
    charts: its constants, the page it builds ([makeHTML]), the render pass
    ([render], [renderGraphic]) and the resize handler ([onResize]).

    Modelling conventions.
    - JavaScript numbers are exact rationals ([Q]); [NaN] is added where the
      code can produce it (a scale applied to [undefined]).
    - A [Date] built by [new Date(y, m, d)] is the number of its civil day
      counted from 1970-01-01, computed as ECMAScript's [MakeDay] does, with
      its 0-based month and its overflow into the following year; every
      date of the module is a local midnight, and the offset of local time
      is taken to be the same on all of them.
    - The DOM is the part of the document this module writes and the part
      its selectors read: the chart wrappers appended to [#charts], each
      with its id and the children of its chart container, a list that
      [html('')] empties and [append] extends, and the ids of the elements
      around [#charts]. The page is taken to have an element [#charts], and
      no element of class [chart] but the chart containers [makeHTML]
      makes.
    - [d3.select] of ['#' + key + ' .chart'] is [querySelector]: for a key
      that is a CSS identifier, the first chart container, in document
      order, inside an element of that id, which is the wrapper of that id,
      or any wrapper when the id is the one of [#charts] or of an element
      around it; for another key made of name characters the string is no
      selector and the call throws a [SyntaxError]. A key with any other
      character makes a selector of another shape, which is not read here:
      the model ends the call at the selection, and the statements on
      passes that depend on it take keys made of name characters.
    - A thrown [TypeError] or [SyntaxError] is a result of the computation;
      the state keeps every write made before the throw.
    - d3, lodash and jQuery are used through what their calls do here: a
      scale is its domain and range with linear interpolation, an axis is
      its configuration, a selection of no element ignores every write.
    - [renderGraphicWith] is [renderGraphic] with the table of terms as an
      argument; [renderGraphic] is its instance at [TERMS].
    - The state carries a trace of the calls of [renderGraphic] and of
      [fm.resize], which the code does not have, to speak of their order. *)

From Stdlib Require Import ZArith QArith List String Bool Lia DecimalString Sorted.
Import ListNotations.

Set Warnings "-register-all".
Open Scope Z_scope.

(** ** Dates *)

Module JsDate.

(** A date is the number of its day since 1970-01-01. *)
Definition date := Z.

Definition DayFromYear (y : Z) : Z :=
  365 * (y - 1970) + (y - 1969) / 4 - (y - 1901) / 100 + (y - 1601) / 400.

Definition InLeapYear (y : Z) : bool :=
  ((y mod 4 =? 0) && negb (y mod 100 =? 0)) || (y mod 400 =? 0).

(** Day within the year on which month [m] (0 = January) starts. *)
Definition month_start (leap : bool) (m : Z) : Z :=
  let l := if leap then 1 else 0 in
  match m with
  | 0 => 0
  | 1 => 31
  | 2 => 59 + l
  | 3 => 90 + l
  | 4 => 120 + l
  | 5 => 151 + l
  | 6 => 181 + l
  | 7 => 212 + l
  | 8 => 243 + l
  | 9 => 273 + l
  | 10 => 304 + l
  | _ => 334 + l
  end.

(** [MakeDay(year, month, date)]: months beyond 11 carry into the year. *)
Definition MakeDay (year month day : Z) : Z :=
  let ym := year + month / 12 in
  let mn := month mod 12 in
  DayFromYear ym + month_start (InLeapYear ym) mn + day - 1.

(** [new Date(year, month, day)]; a year from 0 to 99 means 1900 + year. *)
Definition Date (year month day : Z) : date :=
  let yr := if (0 <=? year) && (year <=? 99) then 1900 + year else year in
  MakeDay yr month day.

(** [YearFromTime]: the largest year that starts on or before the day. *)
Fixpoint year_search (fuel : nat) (y : Z) (d : date) : Z :=
  match fuel with
  | O => y
  | S fuel' => if DayFromYear y <=? d then y else year_search fuel' (y - 1) d
  end.

Definition getFullYear (d : date) : Z :=
  year_search (Z.to_nat (Z.abs d / 100000 + 4)) (1970 + d / 365 + 1) d.

(** [MonthFromTime]: 0 = January. *)
Definition getMonth (d : date) : Z :=
  let y := getFullYear d in
  let leap := InLeapYear y in
  let k := d - DayFromYear y in
  let fix find (n : nat) (m : Z) : Z :=
    match n with
    | O => m
    | S n' => if month_start leap m <=? k then m else find n' (m - 1)
    end in
  find 11%nat 11.

(** [DateFromTime]: the day of the month, from 1. *)
Definition getDate (d : date) : Z :=
  let y := getFullYear d in
  d - DayFromYear y - month_start (InLeapYear y) (getMonth d) + 1.

(** Calendar reading of a date: year, month (1 = January), day. *)
Definition civil (d : date) : Z * Z * Z :=
  (getFullYear d, getMonth d + 1, getDate d).

End JsDate.

Import JsDate.

(** ** Numbers and strings *)

Inductive number : Type :=
| Num (q : Q)
| NaN.

Definition string_of_Z (z : Z) : string :=
  NilZero.string_of_int (Z.to_int z).

(** Digits after the decimal point of [r / d], for [0 <= r < d]. *)
Fixpoint fraction_digits (fuel : nat) (r d : Z) : string :=
  match fuel with
  | O => EmptyString
  | S fuel' =>
      if r =? 0 then EmptyString
      else (string_of_Z (10 * r / d) ++ fraction_digits fuel' (10 * r mod d) d)%string
  end.

(** [String(q)] for a number with a short decimal expansion, which is the
    form a number of [data/metrics.json] has. *)
Definition NumberToString (q : Q) : string :=
  let r := Qred q in
  let n := Z.abs (Qnum r) in
  let d := Zpos (Qden r) in
  let sign := if Qnum r <? 0 then "-"%string else EmptyString in
  let frac := fraction_digits 17 (n mod d) d in
  let point := if n mod d =? 0 then EmptyString else "."%string in
  (sign ++ string_of_Z (n / d) ++ point ++ frac)%string.

(** ** Globals *)

Definition DEFAULT_WIDTH : Q := 940.
Definition MOBILE_BREAKPOINT : Q := 600.
Definition MIN_DATE : date := Date 2000 1 1.
Definition MAX_DATE : date := Date 2021 1 1.

Definition TICK_VALUES : list date :=
  [ MIN_DATE;
    Date 2004 1 1;
    Date 2008 1 1;
    Date 2012 1 1;
    Date 2016 1 1;
    Date 2020 1 1 ].

Definition DISPLAY_ORDER : list string :=
  [ "gdp"; "unemployment"; "labor"; "poverty"; "trade"; "stocks"; "wages";
    "budget"; "debt" ]%string.

Record Term : Type := mkTerm {
  president : string;
  start : date;
  end_ : date
}.

Definition TERMS : list Term :=
  [ mkTerm "Clinton" (Date 2000 1 1) (Date 2000 12 31);
    mkTerm "Bush" (Date 2001 1 1) (Date 2008 12 31);
    mkTerm "Obama" (Date 2009 1 1) (Date 2016 12 31);
    mkTerm "Trump" (Date 2017 1 1) (Date 2020 12 31) ].

(** ** The dataset *)

(** The [ticks] field of a metric: absent, [null], or an array of numbers. *)
Inductive ticks_field : Type :=
| TicksUndefined
| TicksNull
| TicksArray (a : list Q).

Record Point : Type := mkPoint {
  p_date : date;
  p_value : Q
}.

(** One metric of [graphicData], after [formatData]. *)
Record Metric : Type := mkMetric {
  m_metric : string;
  m_description : string;
  m_source : string;
  m_url : string;
  m_last_updated : string;
  m_data : list Point;
  m_min : Q;
  m_max : Q;
  m_ticks : ticks_field;
  m_show_plus : bool;
  m_label : string
}.

(** A JavaScript object used as a map: its own properties in enumeration
    order. *)
Definition object (V : Type) : Type := list (string * V).

(** [obj[key]]: [None] is [undefined]. *)
Fixpoint prop {V : Type} (obj : object V) (key : string) : option V :=
  match obj with
  | [] => None
  | (k, v) :: rest => if String.eqb k key then Some v else prop rest key
  end.

Definition keys {V : Type} (obj : object V) : list string := map fst obj.

(** [a[i]] on an array: [None] is [undefined]. *)
Definition index {A : Type} (a : list A) (i : nat) : option A := nth_error a i.

(** ** Scales *)

Record time_scale : Type := mkTimeScale {
  t_range : Q * Q;
  t_domain : date * date
}.

Record linear_scale : Type := mkLinearScale {
  l_range : Q * Q;
  l_domain : Q * Q
}.

(** Linear interpolation of d3's scales, without clamping; a domain of size
    zero sends every value to the start of the range. *)
Definition interpolate (d0 d1 r0 r1 x : Q) : Q :=
  if Qeq_bool d0 d1 then r0
  else
    let t := ((x - d0) / (d1 - d0))%Q in
    (r0 * (1 - t) + r1 * t)%Q.

Definition apply_time (s : time_scale) (d : date) : Q :=
  interpolate (inject_Z (fst (t_domain s))) (inject_Z (snd (t_domain s)))
    (fst (t_range s)) (snd (t_range s)) (inject_Z d).

(** A linear scale applied to a value that may be [undefined]. *)
Definition apply_linear (s : linear_scale) (v : option Q) : number :=
  match v with
  | Some x =>
      Num (interpolate (fst (l_domain s)) (snd (l_domain s))
             (fst (l_range s)) (snd (l_range s)) x)
  | None => NaN
  end.

(** ** Axes *)

(** A value an axis is asked to mark. *)
Inductive tick : Type :=
| TickDate (d : date)
| TickNum (q : Q)
| TickUndefined.

Definition tick_of (v : option Q) : tick :=
  match v with
  | Some q => TickNum q
  | None => TickUndefined
  end.

(** What a tick format returns: its argument unchanged, or a string. *)
Inductive formatted : Type :=
| AsIs (d : tick)
| Str (s : string).

(** The tick formats of this module, each one a function of the tick. *)
Inductive tick_format : Type :=
| FormatDefault
| FormatYear
| FormatSign (show_plus : bool)
| FormatEmpty.

Inductive axis_scale : Type :=
| OfTime (s : time_scale)
| OfLinear (s : linear_scale).

Record axis : Type := mkAxis {
  a_scale : axis_scale;
  a_orient : string;
  a_tickValues : option (list tick);
  a_tickFormat : tick_format;
  a_tickSize : option (Q * Q)
}.

Definition d3_svg_axis (s : axis_scale) : axis :=
  mkAxis s "bottom" None FormatDefault None.

Definition orient (o : string) (a : axis) : axis :=
  mkAxis (a_scale a) o (a_tickValues a) (a_tickFormat a) (a_tickSize a).

Definition tickValues (v : list tick) (a : axis) : axis :=
  mkAxis (a_scale a) (a_orient a) (Some v) (a_tickFormat a) (a_tickSize a).

Definition tickFormat (f : tick_format) (a : axis) : axis :=
  mkAxis (a_scale a) (a_orient a) (a_tickValues a) f (a_tickSize a).

Definition tickSize (inner outer : Q) (a : axis) : axis :=
  mkAxis (a_scale a) (a_orient a) (a_tickValues a) (a_tickFormat a)
    (Some (inner, outer)).

(** [String(d)] of a tick. *)
Definition tick_to_string (d : tick) : string :=
  match d with
  | TickDate t => string_of_Z t
  | TickNum q => NumberToString q
  | TickUndefined => "undefined"
  end.

(** [d <= 0] in JavaScript: false on [undefined], whose number is [NaN]. *)
Definition le_zero (d : tick) : bool :=
  match d with
  | TickDate t => t <=? 0
  | TickNum q => Qle_bool q 0
  | TickUndefined => false
  end.

(** The function given to [yAxis.tickFormat] in [renderGraphic]. *)
Definition sign_format (show_plus : bool) (d : tick) : formatted :=
  if le_zero d then AsIs d
  else if show_plus then Str ("+" ++ tick_to_string d)
  else AsIs d.

(** The function given to [xAxis.tickFormat]: [d.getFullYear()]. *)
Definition year_format (d : tick) : formatted :=
  match d with
  | TickDate t => Str (string_of_Z (getFullYear t))
  | _ => AsIs d
  end.

Definition apply_format (f : tick_format) (d : tick) : formatted :=
  match f with
  | FormatDefault => AsIs d
  | FormatYear => year_format d
  | FormatSign show_plus => sign_format show_plus d
  | FormatEmpty => Str ""
  end.

(** The labels an axis writes next to its explicit tick values. *)
Definition tick_labels (a : axis) : list formatted :=
  match a_tickValues a with
  | Some v => map (apply_format (a_tickFormat a)) v
  | None => []
  end.

(** ** The document *)

Inductive attr : Type :=
| ANum (n : number)
| AStr (s : string)
| APath (interpolation : string) (points : list (Q * number)).

Inductive node : Type :=
| Elem (tag : string) (attrs : list (string * attr)) (children : list node)
| TextNode (s : string)
| AxisMarks (a : axis).

(** What [renderGraphic] appends to a chart container: the wrapper [div],
    its [svg] and the translated group all drawing goes into. *)
Record graphic : Type := mkGraphic {
  svg_width : Q;
  svg_height : Q;
  g_transform : string;
  g_children : list node
}.

(** The children [makeHTML] gives a chart wrapper, [chart] being the
    children of its chart container; [Partial] is a wrapper left with an
    empty heading by a throw. *)
Inductive wrapper_body : Type :=
| Partial
| Full (heading description : string) (chart : list graphic) (source : string).

Record wrapper : Type := mkWrapper {
  w_id : string;
  w_body : wrapper_body
}.

(** The page around the charts: the ids of the elements of the host page
    that contain [#charts], and the children of [#charts] in document
    order. *)
Record document : Type := mkDocument {
  around : list string;
  wrappers : list wrapper
}.

(** The ids of the elements every chart wrapper is in. *)
Definition enclosing (d : document) : list string := "charts"%string :: around d.

(** The selector ['#' + key + ' .chart']. *)
Inductive selector : Type :=
| ChartOf (key : string).

(** Characters of a CSS name: letters, digits, [_], [-] and the bytes of
    characters outside ASCII; a name starts as an identifier does when it
    starts with a letter, [_] or such a byte, or with [-] before one of
    these or before another [-]. *)
Definition is_letter (c : Ascii.ascii) : bool :=
  let n := Ascii.nat_of_ascii c in
  ((65 <=? n) && (n <=? 90) || (97 <=? n) && (n <=? 122))%nat.

Definition is_digit (c : Ascii.ascii) : bool :=
  let n := Ascii.nat_of_ascii c in
  ((48 <=? n) && (n <=? 57))%nat.

Definition is_hyphen (c : Ascii.ascii) : bool :=
  (Ascii.nat_of_ascii c =? 45)%nat.

Definition name_start (c : Ascii.ascii) : bool :=
  let n := Ascii.nat_of_ascii c in
  is_letter c || (n =? 95)%nat || (128 <=? n)%nat.

Definition name_char (c : Ascii.ascii) : bool :=
  name_start c || is_digit c || is_hyphen c.

(** A key made of name characters only. *)
Fixpoint word (s : string) : bool :=
  match s with
  | EmptyString => true
  | String c rest => name_char c && word rest
  end.

(** A key for which ['#' + key] is an id selector. *)
Definition identifier (s : string) : bool :=
  word s
  && match s with
     | EmptyString => false
     | String c rest =>
         name_start c
         || is_hyphen c
            && match rest with
               | String c' _ => name_start c' || is_hyphen c'
               | EmptyString => false
               end
     end.

Definition holds_chart (w : wrapper) : bool :=
  match w_body w with
  | Full _ _ _ _ => true
  | Partial => false
  end.

(** The chart container of a wrapper matches ['#' + key + ' .chart'] when
    an element around it has the id: the wrapper, [#charts] or an element
    around [#charts]. *)
Definition matches (d : document) (sel : selector) (w : wrapper) : bool :=
  match sel with
  | ChartOf key =>
      holds_chart w
      && (String.eqb (w_id w) key || existsb (String.eqb key) (enclosing d))
  end.

Fixpoint first_index {A : Type} (p : A -> bool) (l : list A) : option nat :=
  match l with
  | [] => None
  | x :: rest => if p x then Some O else option_map S (first_index p rest)
  end.

(** What [querySelector] finds for a selector that is one: the first
    wrapper, in document order, whose chart container matches. *)
Definition target (sel : selector) (d : document) : option nat :=
  match sel with
  | ChartOf key =>
      if identifier key then first_index (matches d sel) (wrappers d) else None
  end.

(** Is there an element for the selector? *)
Definition exists_in (sel : selector) (d : document) : bool :=
  match target sel d with
  | Some _ => true
  | None => false
  end.

(** Writes on one element of a list. *)
Fixpoint update_nth {A : Type} (n : nat) (f : A -> A) (l : list A) : list A :=
  match l, n with
  | [], _ => []
  | x :: rest, O => f x :: rest
  | x :: rest, S n' => x :: update_nth n' f rest
  end.

Definition charts (w : wrapper) : list graphic :=
  match w_body w with
  | Full _ _ c _ => c
  | Partial => []
  end.

Definition with_charts (f : list graphic -> list graphic) (w : wrapper) : wrapper :=
  match w_body w with
  | Full h d c s => mkWrapper (w_id w) (Full h d (f c) s)
  | Partial => w
  end.

(** Rewrites the children of the chart container of the wrapper at a
    position. *)
Definition update_chart (i : nat) (f : list graphic -> list graphic)
    (d : document) : document :=
  mkDocument (around d) (update_nth i (with_charts f) (wrappers d)).

(** The children of the chart container of the wrapper at a position. *)
Definition charts_at (i : nat) (d : document) : list graphic :=
  match nth_error (wrappers d) i with
  | Some w => charts w
  | None => []
  end.

(** The children of the container a selector selects. *)
Definition charts_in (sel : selector) (d : document) : list graphic :=
  match target sel d with
  | Some i => charts_at i d
  | None => []
  end.

(** The graphic in the container a selector selects, when the container
    has this one child and no other. *)
Definition chart_of (sel : selector) (d : document) : option graphic :=
  match charts_in sel d with
  | [ g ] => Some g
  | _ => None
  end.

Definition set_attrs (new : list (string * attr)) (n : node) : node :=
  match n with
  | Elem tag attrs children => Elem tag (attrs ++ new) children
  | _ => n
  end.

Definition set_text (s : string) (n : node) : node :=
  match n with
  | Elem tag attrs _ => Elem tag attrs [TextNode s]
  | _ => n
  end.

Definition add_child (c : node) (n : node) : node :=
  match n with
  | Elem tag attrs children => Elem tag attrs (children ++ [c])
  | _ => n
  end.

(** Rewrites the children of the group of one graphic of a container. *)
Definition on_children (j : nat) (f : list node -> list node)
    (gs : list graphic) : list graphic :=
  update_nth j
    (fun gr =>
       mkGraphic (svg_width gr) (svg_height gr) (g_transform gr)
         (f (g_children gr)))
    gs.

(** ** State and exceptions *)

(** Calls recorded in the order they are made. *)
Inductive event : Type :=
| CallRenderGraphic (container : selector)
| CallFmResize.

Record state : Type := mkState {
  graphicData : object Metric;
  isMobile : bool;
  doc : document;
  trace : list event;
  resize_bound : bool
}.

(** Where this module can throw: a [TypeError] of its own code, or the
    [SyntaxError] of [d3.select] on a string that is no selector.
    [ForeignSelector] is no exception of the code: it ends the call for a
    key with a character that is no name character, which makes a selector
    of another shape that this model does not read. *)
Inductive exn : Type :=
| MetricUndefined      (* makeHTML: data['metric'] on undefined *)
| SyntaxError          (* renderGraphic: d3.select(config['container']) *)
| DataUndefined        (* renderGraphic: config['data']['min'] on undefined *)
| TicksNoLength        (* renderGraphic: config['data']['ticks'].length *)
| LabelNull            (* renderGraphic: label[0][0].getComputedTextLength() *)
| ForeignSelector.

Inductive result (A : Type) : Type :=
| Ok (a : A)
| Throw (e : exn).

Arguments Ok {A} a.
Arguments Throw {A} e.

Definition M (A : Type) : Type := state -> result A * state.

Definition ret {A : Type} (a : A) : M A := fun s => (Ok a, s).

Definition bind {A B : Type} (c : M A) (k : A -> M B) : M B :=
  fun s =>
    match c s with
    | (Ok a, s') => k a s'
    | (Throw e, s') => (Throw e, s')
    end.

Definition throw {A : Type} (e : exn) : M A := fun s => (Throw e, s).

Definition gets {A : Type} (f : state -> A) : M A := fun s => (Ok (f s), s).

Definition modify (f : state -> state) : M unit := fun s => (Ok tt, f s).

Declare Scope js_scope.
Delimit Scope js_scope with js.
Notation "x <- c ;; k" := (bind c (fun x => k))
  (at level 61, c at next level, right associativity) : js_scope.
Notation "c ;; k" := (bind c (fun _ => k))
  (at level 61, right associativity) : js_scope.
Open Scope js_scope.

(** [_.forEach(list, f)] and [_.forIn(obj, f)], with a callback that never
    returns [false]. *)
Fixpoint forEach {A : Type} (l : list A) (f : A -> M unit) : M unit :=
  match l with
  | [] => ret tt
  | x :: rest => f x ;; forEach rest f
  end.

Definition forIn {V : Type} (obj : object V) (f : V -> string -> M unit)
    : M unit :=
  forEach obj (fun kv => f (snd kv) (fst kv)).

Definition with_doc (s : state) (d : document) : state :=
  mkState (graphicData s) (isMobile s) d (trace s) (resize_bound s).

Definition set_doc (f : document -> document) : M unit :=
  modify (fun s => with_doc s (f (doc s))).

Definition set_isMobile (b : bool) : M unit :=
  modify (fun s =>
    mkState (graphicData s) b (doc s) (trace s) (resize_bound s)).

Definition set_graphicData (d : object Metric) : M unit :=
  modify (fun s =>
    mkState d (isMobile s) (doc s) (trace s) (resize_bound s)).

Definition record (e : event) : M unit :=
  modify (fun s =>
    mkState (graphicData s) (isMobile s) (doc s) (trace s ++ [e])
      (resize_bound s)).

(** [fm.resize()]: tells the parent frame that the height changed. *)
Definition fm_resize : M unit := record CallFmResize.

(** [$(window).resize(utils.throttle(onResize, 250))]. *)
Definition bind_resize : M unit :=
  modify (fun s =>
    mkState (graphicData s) (isMobile s) (doc s) (trace s) true).

(** [container.append('div')] on [#charts], with what the chain gives the
    wrapper. *)
Definition append_wrapper (w : wrapper) : M unit :=
  set_doc (fun d => mkDocument (around d) (wrappers d ++ [ w ])).

(** ** Selections *)

(** A selection of one element by its position: of a chart container among
    the wrappers, or of a child of a chart group among its children; [None]
    is the selection of no element. *)
Definition handle : Type := option nat.

(** The selection of the group of a graphic: the position of the container
    and the position of the graphic in it. *)
Definition group : Type := option (nat * nat).

(** [d3.select(selector)]. *)
Definition d3_select (sel : selector) : M handle :=
  fun s =>
    match sel with
    | ChartOf key =>
        if identifier key then (Ok (target sel (doc s)), s)
        else if word key then (Throw SyntaxError, s)
        else (Throw ForeignSelector, s)
    end.

(** [containerElement.html('')]. *)
Definition html_clear (c : handle) : M unit :=
  match c with
  | Some i => set_doc (update_chart i (fun _ => []))
  | None => ret tt
  end.

(** [containerElement.append('div')...append('svg')...append('g')]: a new
    last child of the container; the selection is of its group. *)
Definition append_root (c : handle) (w h : Q) (transform : string) : M group :=
  fun s =>
    match c with
    | Some i =>
        (Ok (Some (i, List.length (charts_at i (doc s)))),
         with_doc s
           (update_chart i (fun gs => gs ++ [ mkGraphic w h transform [] ]) (doc s)))
    | None => (Ok None, s)
    end.

(** [chartElement.append(...)] with the attributes set in the same chain. *)
Definition append (g : group) (n : node) : M handle :=
  fun s =>
    match g with
    | Some (i, j) =>
        match nth_error (charts_at i (doc s)) j with
        | Some gr =>
            (Ok (Some (List.length (g_children gr))),
             with_doc s
               (update_chart i (on_children j (fun c => c ++ [ n ])) (doc s)))
        | None => (Ok None, s)
        end
    | None => (Ok None, s)
    end.

(** A write on an element selected before. *)
Definition write (g : group) (h : handle) (f : node -> node) : M unit :=
  match g, h with
  | Some (i, j), Some k => set_doc (update_chart i (on_children j (update_nth k f)))
  | _, _ => ret tt
  end.

(** ** The module *)

Record Margins : Type := mkMargins {
  top : Q;
  right : Q;
  bottom : Q;
  left : Q
}.

Definition margins : Margins := mkMargins 10 20 30 50.

(** The key of a selector, and whether its string is a selector. *)
Definition key_of (sel : selector) : string :=
  match sel with
  | ChartOf key => key
  end.

Definition valid (sel : selector) : bool := identifier (key_of sel).

Record Config : Type := mkConfig {
  container : selector;
  width : Q;
  data : option Metric
}.

Definition quote : string := String (Ascii.ascii_of_nat 34) EmptyString.

(** The html of the source line of a chart wrapper. *)
Definition source_html (m : Metric) : string :=
  ("Data: <a href=" ++ quote ++ m_url m ++ quote ++ ">" ++ m_source m
   ++ "</a>.&nbsp;&nbsp;&nbsp;Last updated: " ++ m_last_updated m)%string.

(** The vertical tick values: the [ticks] array, thinned on mobile to its
    entries 0, 2 and 4. *)
Definition yTickValues (mobile : bool) (a : list Q) : list tick :=
  let tickValues := map Some a in
  if mobile then
    map tick_of
      [ index a 0;
        index a 2;
        index a 4 ]
  else map tick_of tickValues.

(** The [if (config['data']['ticks'])] block. *)
Definition with_ticks (mobile : bool) (m : Metric) (yAxis : axis) : axis :=
  match m_ticks m with
  | TicksArray a =>
      tickFormat (FormatSign (m_show_plus m))
        (tickValues (yTickValues mobile a) yAxis)
  | TicksUndefined | TicksNull => yAxis
  end.

(** [config['data']['ticks'][config['data']['ticks'].length - 1]]. *)
Definition last_tick (m : Metric) : M (option Q) :=
  match m_ticks m with
  | TicksArray a =>
      match List.length a with
      | O => ret None
      | S n => ret (index a n)
      end
  | TicksUndefined | TicksNull => throw TicksNoLength
  end.

Section Engine.

(** [utils.classify] and [utils.makeTranslate], of the module [./utils]. *)
Variable classify : string -> string.
Variable makeTranslate : Q -> Q -> string.

(** [getComputedTextLength()] of a rendered text, by its content. *)
Variable getComputedTextLength : string -> Q.

(** The rectangle that shades one term. *)
Definition shade (xScale : time_scale) (chartHeight : Q) (term : Term) : node :=
  Elem "rect"
    [ ("class", AStr ("president " ++ classify (president term)));
      ("x", ANum (Num (apply_time xScale (start term))));
      ("width",
       ANum (Num (apply_time xScale (end_ term)
                  - apply_time xScale (start term))%Q));
      ("y", ANum (Num 0));
      ("height", ANum (Num chartHeight)) ]%string
    [].

(** The shading loop, over a table of terms. *)
Definition shading (terms : list Term) (chartElement : group)
    (xScale : time_scale) (chartHeight : Q) : M unit :=
  forEach terms (fun term =>
    _ <- append chartElement (shade xScale chartHeight term) ;;
    ret tt).

(** [label[0][0].getComputedTextLength()]. *)
Definition measure (label : handle) (text : string) : M Q :=
  match label with
  | Some _ => ret (getComputedTextLength text)
  | None => throw LabelNull
  end.

(** Render the graphic, with the table of terms to shade. *)
Definition renderGraphicWith (terms : list Term) (config : Config) : M unit :=
  record (CallRenderGraphic (container config)) ;;
  (* Configuration *)
  mobile <- gets isMobile ;;
  let aspectRatio := if mobile then (2.5 / 1)%Q else (5 / 1)%Q in
  (* Calculate actual chart dimensions *)
  let width := width config in
  let height := (width / aspectRatio)%Q in
  let chartWidth := (width - (left margins + right margins))%Q in
  let chartHeight := (height - (top margins + bottom margins))%Q in
  (* Clear existing graphic (for redraw) *)
  containerElement <- d3_select (container config) ;;
  html_clear containerElement ;;
  (* Create the root SVG element *)
  chartElement <- append_root containerElement
    (chartWidth + left margins + right margins)%Q
    (chartHeight + top margins + bottom margins)%Q
    "translate(50,10)" ;;
  (* Create scales *)
  let xScale := mkTimeScale (0%Q, chartWidth) (MIN_DATE, MAX_DATE) in
  data <- match data config with
          | Some m => ret m
          | None => throw DataUndefined
          end ;;
  let yScale := mkLinearScale (chartHeight, 0%Q) (m_min data, m_max data) in
  (* Shading *)
  shading terms chartElement xScale chartHeight ;;
  (* Create axes *)
  let xAxis :=
    tickFormat FormatYear
      (tickValues (map TickDate TICK_VALUES)
         (orient "bottom" (d3_svg_axis (OfTime xScale)))) in
  let yAxis := orient "left" (d3_svg_axis (OfLinear yScale)) in
  let yAxis := with_ticks mobile data yAxis in
  (* Render axes *)
  xAxisElement <- append chartElement
    (Elem "g"
       [ ("class", AStr "x axis");
         ("transform", AStr (makeTranslate 0 chartHeight)) ]%string
       [ AxisMarks xAxis ]) ;;
  yAxisElement <- append chartElement
    (Elem "g" [ ("class", AStr "y axis") ]%string [ AxisMarks yAxis ]) ;;
  (* Render axes grids *)
  let xAxis := tickFormat FormatEmpty (tickSize (- chartHeight) 0 xAxis) in
  write chartElement xAxisElement
    (add_child (Elem "g" [ ("class", AStr "x grid") ]%string [ AxisMarks xAxis ])) ;;
  let yAxis := tickFormat FormatEmpty (tickSize (- chartWidth) 0 yAxis) in
  write chartElement yAxisElement
    (add_child (Elem "g" [ ("class", AStr "y grid") ]%string [ AxisMarks yAxis ])) ;;
  (* Render lines *)
  let line :=
    APath "monotone"
      (map (fun d => (apply_time xScale (p_date d),
                      apply_linear yScale (Some (p_value d))))
         (m_data data)) in
  _ <- append chartElement
    (Elem "g" [ ("class", AStr "lines") ]%string
       [ Elem "path" [ ("d", line) ]%string [] ]) ;;
  (* Label *)
  bubble <- append chartElement
    (Elem "rect"
       [ ("class", AStr "label-bubble");
         ("x", ANum (Num (apply_time xScale MIN_DATE - 9)%Q));
         ("y", ANum (Num (-10)));
         ("height", ANum (Num 20)) ]%string
       []) ;;
  label <- append chartElement
    (Elem "text"
       [ ("class", AStr "label");
         ("x", ANum (Num (apply_time xScale MIN_DATE - 9)%Q)) ]%string
       []) ;;
  last <- last_tick data ;;
  write chartElement label
    (set_attrs [ ("y", ANum (apply_linear yScale last));
                 ("dy", AStr ".32em") ]%string) ;;
  write chartElement label (set_text (m_label data)) ;;
  length <- measure label (m_label data) ;;
  write chartElement bubble
    (set_attrs [ ("width", ANum (Num (length + 10)%Q)) ]%string).

Definition renderGraphic (config : Config) : M unit :=
  renderGraphicWith TERMS config.

(** Create DOM elements for charts. *)
Definition makeHTML : M unit :=
  forEach DISPLAY_ORDER (fun key =>
    graphicData <- gets graphicData ;;
    match prop graphicData key with
    | Some data =>
        append_wrapper
          (mkWrapper key
             (Full (m_metric data) (m_description data) [] (source_html data)))
    | None =>
        append_wrapper (mkWrapper key Partial) ;;
        throw MetricUndefined
    end).

(** Figure out the current frame size and render the graphic; [width] is
    what [$('#interactive-content').width()] returns. *)
Definition render (width : Q) : M unit :=
  (if Qle_bool width MOBILE_BREAKPOINT then set_isMobile true
   else set_isMobile false) ;;
  graphicData <- gets graphicData ;;
  forIn graphicData (fun value key =>
    renderGraphic (mkConfig (ChartOf key) width (prop graphicData key))) ;;
  (* Inform parent frame of new height *)
  fm_resize.

(** Invoke on resize. By default simply rerenders the graphic. *)
Definition onResize (width : Q) : M unit := render width.

(** Initialize the graphic, with the formatted data of the request. *)
Definition init (data : object Metric) (width : Q) : M unit :=
  set_graphicData data ;;
  makeHTML ;;
  render width ;;
  bind_resize.

(** ** What one call draws

    The graphic [renderGraphic] leaves in a container that exists, as a
    function of the configuration and of [isMobile]. *)

Definition aspectRatio (mobile : bool) : Q :=
  if mobile then (2.5 / 1)%Q else (5 / 1)%Q.

Definition height_of (mobile : bool) (w : Q) : Q := (w / aspectRatio mobile)%Q.

Definition chartWidth_of (w : Q) : Q := (w - (left margins + right margins))%Q.

Definition chartHeight_of (mobile : bool) (w : Q) : Q :=
  (height_of mobile w - (top margins + bottom margins))%Q.

Definition xScale_of (w : Q) : time_scale :=
  mkTimeScale (0%Q, chartWidth_of w) (MIN_DATE, MAX_DATE).

Definition yScale_of (mobile : bool) (w : Q) (m : Metric) : linear_scale :=
  mkLinearScale (chartHeight_of mobile w, 0%Q) (m_min m, m_max m).

Definition xAxis_of (w : Q) : axis :=
  tickFormat FormatYear
    (tickValues (map TickDate TICK_VALUES)
       (orient "bottom" (d3_svg_axis (OfTime (xScale_of w))))).

Definition yAxis_of (mobile : bool) (w : Q) (m : Metric) : axis :=
  with_ticks mobile m (orient "left" (d3_svg_axis (OfLinear (yScale_of mobile w m)))).

Definition root_of (mobile : bool) (w : Q) (children : list node) : graphic :=
  mkGraphic
    (chartWidth_of w + left margins + right margins)%Q
    (chartHeight_of mobile w + top margins + bottom margins)%Q
    "translate(50,10)" children.

Definition rects_of (terms : list Term) (mobile : bool) (w : Q) : list node :=
  map (shade (xScale_of w) (chartHeight_of mobile w)) terms.

Definition x_group (mobile : bool) (w : Q) : node :=
  Elem "g"
    [ ("class", AStr "x axis");
      ("transform", AStr (makeTranslate 0 (chartHeight_of mobile w))) ]%string
    [ AxisMarks (xAxis_of w);
      Elem "g" [ ("class", AStr "x grid") ]%string
        [ AxisMarks
            (tickFormat FormatEmpty
               (tickSize (- chartHeight_of mobile w) 0 (xAxis_of w))) ] ].

Definition y_group (mobile : bool) (w : Q) (m : Metric) : node :=
  Elem "g" [ ("class", AStr "y axis") ]%string
    [ AxisMarks (yAxis_of mobile w m);
      Elem "g" [ ("class", AStr "y grid") ]%string
        [ AxisMarks
            (tickFormat FormatEmpty
               (tickSize (- chartWidth_of w) 0 (yAxis_of mobile w m))) ] ].

Definition lines_group (mobile : bool) (w : Q) (m : Metric) : node :=
  Elem "g" [ ("class", AStr "lines") ]%string
    [ Elem "path"
        [ ("d",
           APath "monotone"
             (map (fun d => (apply_time (xScale_of w) (p_date d),
                             apply_linear (yScale_of mobile w m) (Some (p_value d))))
                (m_data m))) ]%string
        [] ].

Definition bubble_of (w : Q) : node :=
  Elem "rect"
    [ ("class", AStr "label-bubble");
      ("x", ANum (Num (apply_time (xScale_of w) MIN_DATE - 9)%Q));
      ("y", ANum (Num (-10)));
      ("height", ANum (Num 20)) ]%string
    [].

Definition label_of (w : Q) : node :=
  Elem "text"
    [ ("class", AStr "label");
      ("x", ANum (Num (apply_time (xScale_of w) MIN_DATE - 9)%Q)) ]%string
    [].

(** [a[a.length - 1]]. *)
Definition last_of (a : list Q) : option Q :=
  match List.length a with
  | O => None
  | S n => index a n
  end.

(** The children of the chart group when the label position is read. *)
Definition children_before_label (terms : list Term) (mobile : bool) (w : Q)
    (m : Metric) : list node :=
  rects_of terms mobile w
  ++ [ x_group mobile w; y_group mobile w m; lines_group mobile w m;
       bubble_of w; label_of w ].

(** The children of the chart group of a finished chart. *)
Definition children_done (terms : list Term) (mobile : bool) (w : Q)
    (m : Metric) (a : list Q) : list node :=
  rects_of terms mobile w
  ++ [ x_group mobile w; y_group mobile w m; lines_group mobile w m;
       set_attrs
         [ ("width", ANum (Num (getComputedTextLength (m_label m) + 10)%Q)) ]%string
         (bubble_of w);
       set_text (m_label m)
         (set_attrs
            [ ("y", ANum (apply_linear (yScale_of mobile w m) (last_of a)));
              ("dy", AStr ".32em") ]%string
            (label_of w)) ].

(** Result and drawing of a call whose container exists. *)
Definition draw (terms : list Term) (mobile : bool) (config : Config)
    : result unit * graphic :=
  let w := width config in
  match data config with
  | None => (Throw DataUndefined, root_of mobile w [])
  | Some m =>
      match m_ticks m with
      | TicksArray a => (Ok tt, root_of mobile w (children_done terms mobile w m a))
      | TicksUndefined | TicksNull =>
          (Throw TicksNoLength,
           root_of mobile w (children_before_label terms mobile w m))
      end
  end.

(** The exception of a call whose selector selects no element. *)
Definition missing_exn (config : Config) : exn :=
  match data config with
  | None => DataUndefined
  | Some m =>
      match m_ticks m with
      | TicksArray _ => LabelNull
      | TicksUndefined | TicksNull => TicksNoLength
      end
  end.

(** The configuration [render] gives [renderGraphic] for a key. *)
Definition config_of (graphicData : object Metric) (w : Q) (key : string) : Config :=
  mkConfig (ChartOf key) w (prop graphicData key).

(** ** What one pass does

    The loop of [render] over the keys [l], on a document [d]: the result of
    a call, the document it leaves, the keys [renderGraphic] is called for
    and the result of the loop. *)

Definition call_result (graphicData : object Metric) (mobile : bool) (w : Q)
    (d : document) (key : string) : result unit :=
  if identifier key then
    match target (ChartOf key) d with
    | Some _ => fst (draw TERMS mobile (config_of graphicData w key))
    | None => Throw (missing_exn (config_of graphicData w key))
    end
  else if word key then Throw SyntaxError
  else Throw ForeignSelector.

Definition redraw (graphicData : object Metric) (mobile : bool) (w : Q)
    (d : document) (key : string) : document :=
  match target (ChartOf key) d with
  | Some i =>
      update_chart i
        (fun _ => [ snd (draw TERMS mobile (config_of graphicData w key)) ]) d
  | None => d
  end.

(** The last key of [l] whose selector selects the container at [j]. *)
Fixpoint last_for (d : document) (j : nat) (l : list string) : option string :=
  match l with
  | [] => None
  | k :: rest =>
      match last_for d j rest with
      | Some k' => Some k'
      | None =>
          match target (ChartOf k) d with
          | Some i => if Nat.eqb i j then Some k else None
          | None => None
          end
      end
  end.

Fixpoint calls (graphicData : object Metric) (mobile : bool) (w : Q)
    (l : list string) (d : document) : list string :=
  match l with
  | [] => []
  | key :: rest =>
      key ::
      match call_result graphicData mobile w d key with
      | Ok _ => calls graphicData mobile w rest (redraw graphicData mobile w d key)
      | Throw _ => []
      end
  end.

Fixpoint loop_result (graphicData : object Metric) (mobile : bool) (w : Q)
    (l : list string) (d : document) : result unit :=
  match l with
  | [] => Ok tt
  | key :: rest =>
      match call_result graphicData mobile w d key with
      | Ok _ => loop_result graphicData mobile w rest (redraw graphicData mobile w d key)
      | Throw e => Throw e
      end
  end.

End Engine.

(** ** Reading a drawing *)

Definition has_class (c : string) (n : node) : bool :=
  match n with
  | Elem _ attrs _ =>
      existsb
        (fun kv =>
           match kv with
           | (k, AStr v) => String.eqb k "class" && String.eqb v c
           | _ => false
           end)
        attrs
  | _ => false
  end.

(** The axis drawn in the group of class [c]. *)
Definition axis_drawn (c : string) (g : graphic) : option axis :=
  match find (has_class c) (g_children g) with
  | Some (Elem _ _ (AxisMarks a :: _)) => Some a
  | _ => None
  end.

(** An attribute of an element. *)
Definition attr_of (name : string) (n : node) : option attr :=
  match n with
  | Elem _ attrs _ =>
      match find (fun kv => String.eqb (fst kv) name) attrs with
      | Some kv => Some (snd kv)
      | None => None
      end
  | _ => None
  end.

(** What d3 writes as a tick label for the value a format returns. *)
Definition label_text (f : formatted) : string :=
  match f with
  | AsIs TickUndefined => EmptyString
  | AsIs d => tick_to_string d
  | Str s => s
  end.

(** The events a computation adds to the trace. *)
Definition added {A : Type} (c : M A) (s : state) : list event :=
  skipn (List.length (trace s)) (trace (snd (c s))).

(** The state when the script is loaded, in a page where the elements
    around [#charts] have the ids [ids] and [#charts] is empty. *)
Definition page (ids : list string) : state :=
  mkState [] false (mkDocument ids []) [] false.

(** ** Sample data

    Stand-ins for the helpers of [./utils] and for the text measure of the
    browser, and small datasets on which the statements below are run. *)

Definition sample_classify (s : string) : string := s.

Definition sample_translate (x y : Q) : string :=
  ("translate(" ++ NumberToString x ++ "," ++ NumberToString y ++ ")")%string.

Definition sample_length (s : string) : Q :=
  (7 * inject_Z (Z.of_nat (String.length s)))%Q.

Definition sample_metric (name : string) (ticks : ticks_field) : Metric :=
  mkMetric name "description" "source" "http://example.org" "2020-01-01"
    [ mkPoint (Date 2009 0 1) (-4.2); mkPoint (Date 2010 0 1) 2.1 ]
    (-5) 5 ticks true "Change since 2000".

Definition five_ticks : ticks_field := TicksArray [-4; -2; 0; 2; 4]%Q.

(** A dataset with the nine metrics of the page. *)
Definition sample_data : object Metric :=
  map (fun key => (key, sample_metric key five_ticks)) DISPLAY_ORDER.

(** The same metrics, enumerated from the last to the first. *)
Definition reversed_data : object Metric := rev sample_data.

(** The nine metrics and one more, which the page has no wrapper for. *)
Definition extended_data : object Metric :=
  sample_data ++ [ ("inflation"%string, sample_metric "inflation" five_ticks) ].

(** The nine metrics, [unemployment] without its [ticks] field. *)
Definition broken_data : object Metric :=
  map (fun key =>
         (key,
          sample_metric key
            (if String.eqb key "unemployment" then TicksUndefined else five_ticks)))
    DISPLAY_ORDER.

(** The nine metrics, [gdp] with two tick values only. *)
Definition short_data : object Metric :=
  map (fun key =>
         (key,
          sample_metric key
            (if String.eqb key "gdp" then TicksArray [1; 2]%Q else five_ticks)))
    DISPLAY_ORDER.

(** A page to load the script in: [#charts] inside
    [#interactive-content]. *)
Definition initial : state := page [ "interactive-content"%string ].

(** The page after [init], for a dataset and a measured width. *)
Definition loaded (data : object Metric) (w : Q) : state :=
  snd (init sample_classify sample_translate sample_length data w initial).

(** The page with its wrappers, before the first render pass. *)
Definition scaffolded (data : object Metric) : state :=
  snd ((set_graphicData data ;;
        makeHTML) initial).

(** The nine metrics and one under the key [charts]. *)
Definition aliased_data : object Metric :=
  sample_data ++ [ ("charts"%string, sample_metric "charts" (TicksArray [1; 2; 3]%Q)) ].

(** The nine metrics and one under a key that starts with a digit. *)
Definition numbered_data : object Metric :=
  sample_data ++ [ ("401k"%string, sample_metric "401k" five_ticks) ].

(** ** Reading more of a page *)

(** A wrapper without what is drawn in its chart container. *)
Definition chartless (w : wrapper) : wrapper :=
  match w_body w with
  | Full h d _ s => mkWrapper (w_id w) (Full h d [] s)
  | Partial => w
  end.

(** The first child of the chart group with a class. *)
Definition child_of_class (c : string) (g : graphic) : option node :=
  find (has_class c) (g_children g).

(** The points of the line drawn in a chart. *)
Definition path_drawn (g : graphic) : option (list (Q * number)) :=
  match child_of_class "lines" g with
  | Some (Elem _ _ (p :: _)) =>
      match attr_of "d" p with
      | Some (APath _ pts) => Some pts
      | _ => None
      end
  | _ => None
  end.

(** The text of an element. *)
Definition text_of (n : node) : option string :=
  match n with
  | Elem _ _ [ TextNode s ] => Some s
  | _ => None
  end.

(** The wrapper [makeHTML] appends for a key; for a key the dataset does
    not have, the wrapper as the throw leaves it. *)
Definition wrapper_for (graphicData : object Metric) (key : string) : wrapper :=
  match prop graphicData key with
  | Some data =>
      mkWrapper key
        (Full (m_metric data) (m_description data) [] (source_html data))
  | None => mkWrapper key Partial
  end.

(** The metric of a key is one [renderGraphic] can finish: it has an array
    of tick values. *)
Definition has_ticks (graphicData : object Metric) (key : string) : bool :=
  match prop graphicData key with
  | Some m =>
      match m_ticks m with
      | TicksArray _ => true
      | TicksUndefined | TicksNull => false
      end
  | None => false
  end.

(** The nine metrics, [gdp] with an empty array of tick values. *)
Definition bare_data : object Metric :=
  map (fun key =>
         (key,
          sample_metric key
            (if String.eqb key "gdp" then TicksArray [] else five_ticks)))
    DISPLAY_ORDER.

(** A dataset without the metric [trade]. *)
Definition partial_data : object Metric :=
  filter (fun kv => negb (String.eqb (fst kv) "trade")) sample_data.

(** A metric whose minimum and maximum are the same. *)
Definition flat_metric : Metric :=
  mkMetric "flat" "description" "source" "http://example.org" "2020-01-01"
    [ mkPoint (Date 2009 0 1) 3; mkPoint (Date 2010 0 1) 3 ]
    3 3 (TicksArray [3]%Q) false "Flat".

(** * Properties *)

(** * Properties *)

(** ** Lists written at one position *)

Lemma nth_error_update_nth {A : Type} (i j : nat) (f : A -> A) (l : list A) :
  nth_error (update_nth i f l) j =
  if Nat.eqb i j then option_map f (nth_error l j) else nth_error l j.
Proof.
  revert i j. induction l as [|x l IH]; intros i j; cbn [update_nth].
  - destruct i, j; cbn; try reflexivity; now destruct (Nat.eqb i j).
  - destruct i as [|i], j as [|j]; cbn [nth_error Nat.eqb option_map]; try reflexivity.
    apply IH.
Qed.

Lemma update_nth_twice {A : Type} (i : nat) (f g : A -> A) (l : list A) :
  update_nth i f (update_nth i g l) = update_nth i (fun x => f (g x)) l.
Proof.
  revert i. induction l as [|x l IH]; intros i; [now destruct i|].
  destruct i as [|i]; cbn [update_nth]; [reflexivity | now rewrite IH].
Qed.

Lemma update_nth_ext {A : Type} (i : nat) (f g : A -> A) (l : list A) :
  (forall x, f x = g x) -> update_nth i f l = update_nth i g l.
Proof.
  intros H. revert i. induction l as [|x l IH]; intros i; [now destruct i|].
  destruct i as [|i]; cbn [update_nth]; [now rewrite H | now rewrite IH].
Qed.

Lemma update_nth_app {A : Type} (f : A -> A) (l l' : list A) (k : nat) :
  update_nth (List.length l + k) f (l ++ l') = l ++ update_nth k f l'.
Proof. induction l as [|x l IH]; simpl; [reflexivity | now rewrite IH]. Qed.

Lemma update_nth_length {A : Type} (f : A -> A) (l l' : list A) :
  update_nth (List.length l) f (l ++ l') = l ++ update_nth 0 f l'.
Proof. induction l as [|x l IH]; simpl; [reflexivity | now rewrite IH]. Qed.

Lemma map_update_nth {A B : Type} (h : A -> B) (i : nat) (f : A -> A) (l : list A) :
  (forall x, h (f x) = h x) -> map h (update_nth i f l) = map h l.
Proof.
  intros H. revert i. induction l as [|x l IH]; intros i; [now destruct i|].
  destruct i as [|i]; cbn [update_nth map]; [now rewrite H | now rewrite IH].
Qed.

Lemma first_index_update {A : Type} (p : A -> bool) (i : nat) (f : A -> A)
    (l : list A) :
  (forall x, p (f x) = p x) ->
  first_index p (update_nth i f l) = first_index p l.
Proof.
  intros H. revert i. induction l as [|x l IH]; intros i; [now destruct i|].
  destruct i as [|i]; cbn [update_nth first_index].
  - now rewrite H.
  - now rewrite IH.
Qed.

Lemma first_index_ext {A : Type} (p q : A -> bool) (l : list A) :
  (forall x, p x = q x) -> first_index p l = first_index q l.
Proof.
  intros H. induction l as [|x l IH]; cbn [first_index]; [reflexivity|].
  now rewrite H, IH.
Qed.

Lemma first_index_some {A : Type} (p : A -> bool) (l : list A) (i : nat) :
  first_index p l = Some i ->
  exists x, nth_error l i = Some x /\ p x = true
            /\ forall j y, (j < i)%nat -> nth_error l j = Some y -> p y = false.
Proof.
  revert i. induction l as [|x l IH]; intros i; cbn [first_index]; [discriminate|].
  destruct (p x) eqn:Hp.
  - intros [= <-]. exists x. repeat split; [exact Hp|]. intros j y Hj. lia.
  - destruct (first_index p l) as [n|]; [|discriminate].
    intros [= <-]. destruct (IH n eq_refl) as [y [Hy [Hpy Hmin]]].
    exists y. repeat split; [exact Hy | exact Hpy |].
    intros [|j] z Hj; cbn [nth_error].
    + intros [= <-]. exact Hp.
    + apply Hmin. lia.
Qed.

Lemma first_index_none {A : Type} (p : A -> bool) (l : list A) :
  first_index p l = None -> forall x, In x l -> p x = false.
Proof.
  induction l as [|x l IH]; cbn [first_index]; [intros _ ? []|].
  destruct (p x) eqn:Hp; [discriminate|].
  destruct (first_index p l); [discriminate|].
  intros _ y [<-|Hin]; [exact Hp | now apply IH].
Qed.

(** ** Documents *)

Lemma holds_chart_with_charts f (w : wrapper) :
  holds_chart (with_charts f w) = holds_chart w.
Proof. destruct w as [i [|h d c s]]; reflexivity. Qed.

Lemma w_id_with_charts f (w : wrapper) : w_id (with_charts f w) = w_id w.
Proof. destruct w as [i [|h d c s]]; reflexivity. Qed.

Lemma with_charts_twice f g (w : wrapper) :
  with_charts f (with_charts g w) = with_charts (fun c => f (g c)) w.
Proof. destruct w as [i [|h d c s]]; reflexivity. Qed.

Lemma charts_with_charts f (w : wrapper) :
  holds_chart w = true -> charts (with_charts f w) = f (charts w).
Proof. destruct w as [i [|h d c s]]; [discriminate | reflexivity]. Qed.

Lemma matches_with_charts (d : document) (sel : selector) f (w : wrapper) :
  matches d sel (with_charts f w) = matches d sel w.
Proof.
  destruct sel as [key]. unfold matches.
  now rewrite holds_chart_with_charts, w_id_with_charts.
Qed.

Lemma matches_around (d d' : document) (sel : selector) (w : wrapper) :
  around d' = around d -> matches d' sel w = matches d sel w.
Proof. intros H. destruct sel as [key]. unfold matches, enclosing. now rewrite H. Qed.

(** Drawing in a chart container changes the element of no selector. *)
Lemma target_update (sel : selector) (i : nat) f (d : document) :
  target sel (update_chart i f d) = target sel d.
Proof.
  destruct sel as [key]. unfold target. destruct (identifier key); [|reflexivity].
  unfold update_chart. cbn [wrappers].
  rewrite first_index_update by (intros x; apply matches_with_charts).
  apply first_index_ext. intros x. now apply matches_around.
Qed.

(** The element of a selector is a chart container. *)
Lemma target_holds (sel : selector) (d : document) (i : nat) :
  target sel d = Some i ->
  exists w, nth_error (wrappers d) i = Some w /\ holds_chart w = true.
Proof.
  destruct sel as [key]. unfold target. destruct (identifier key); [|discriminate].
  intros H. destruct (first_index_some _ _ _ H) as [w [Hw [Hm _]]].
  exists w. split; [exact Hw|]. unfold matches in Hm.
  now apply andb_true_iff in Hm.
Qed.

Lemma target_identifier (key : string) (d : document) (i : nat) :
  target (ChartOf key) d = Some i -> identifier key = true.
Proof. unfold target. now destruct (identifier key). Qed.

(** With a key that is the id of no element around the wrappers, the
    selector selects in the wrapper of that id. *)
Lemma target_own (key : string) (d : document) (i : nat) :
  ~ In key (enclosing d) ->
  target (ChartOf key) d = Some i ->
  exists w, nth_error (wrappers d) i = Some w /\ w_id w = key.
Proof.
  intros Hout. unfold target. destruct (identifier key); [|discriminate].
  intros H. destruct (first_index_some _ _ _ H) as [w [Hw [Hm _]]].
  exists w. split; [exact Hw|]. unfold matches in Hm.
  apply andb_true_iff in Hm. destruct Hm as [_ Hm].
  apply orb_true_iff in Hm. destruct Hm as [Hm|Hm]; [now apply String.eqb_eq|].
  exfalso. apply Hout. apply existsb_exists in Hm. destruct Hm as [x [Hx He]].
  apply String.eqb_eq in He. now subst x.
Qed.

Lemma charts_at_update (i : nat) f (d : document) (w : wrapper) :
  nth_error (wrappers d) i = Some w -> holds_chart w = true ->
  charts_at i (update_chart i f d) = f (charts_at i d).
Proof.
  intros Hw Hh. unfold charts_at, update_chart. cbn [wrappers].
  rewrite nth_error_update_nth, Nat.eqb_refl, Hw. cbn [option_map].
  now apply charts_with_charts.
Qed.

Lemma charts_at_update_other (i j : nat) f (d : document) :
  i <> j -> charts_at j (update_chart i f d) = charts_at j d.
Proof.
  intros Hne. unfold charts_at, update_chart. cbn [wrappers].
  rewrite nth_error_update_nth.
  destruct (Nat.eqb i j) eqn:E; [apply Nat.eqb_eq in E; contradiction | reflexivity].
Qed.

(** Two writes on one container: the later one sees what the earlier left. *)
Lemma update_chart_twice (i : nat) f g (d : document) :
  update_chart i f (update_chart i g d) = update_chart i (fun c => f (g c)) d.
Proof.
  unfold update_chart. cbn [around wrappers]. f_equal.
  rewrite update_nth_twice. apply update_nth_ext. intros w. apply with_charts_twice.
Qed.

Lemma document_ext (d d' : document) :
  around d = around d' ->
  (forall j, nth_error (wrappers d) j = nth_error (wrappers d') j) ->
  d = d'.
Proof.
  destruct d as [a ws], d' as [a' ws']. cbn [around wrappers].
  intros -> H. f_equal. now apply nth_error_ext.
Qed.

(** ** Steps of the state monad *)

Lemma bind_ok {A B : Type} (c : M A) (k : A -> M B) (s s' : state) (a : A) :
  c s = (Ok a, s') -> bind c k s = k a s'.
Proof. unfold bind. intros ->. reflexivity. Qed.

Lemma bind_throw {A B : Type} (c : M A) (k : A -> M B) (s s' : state) (e : exn) :
  c s = (Throw e, s') -> bind c k s = (Throw e, s').
Proof. unfold bind. intros ->. reflexivity. Qed.

Lemma append_at (i : nat) (n : node) gd mob d tr rb (gr : graphic) (wr : wrapper) :
  nth_error (wrappers d) i = Some wr -> holds_chart wr = true ->
  append (Some (i, O)) n (mkState gd mob (update_chart i (fun _ => [ gr ]) d) tr rb) =
  (Ok (Some (List.length (g_children gr))),
   mkState gd mob
     (update_chart i
        (fun _ => [ mkGraphic (svg_width gr) (svg_height gr) (g_transform gr)
                      (g_children gr ++ [n]) ]) d)
     tr rb).
Proof.
  intros Hw Hh. unfold append. cbn [doc].
  rewrite (charts_at_update i _ d wr Hw Hh). cbn [nth_error].
  unfold with_doc. cbn [doc graphicData isMobile trace resize_bound].
  rewrite update_chart_twice. reflexivity.
Qed.

Lemma write_at (i k : nat) f gd mob d tr rb (gr : graphic) :
  write (Some (i, O)) (Some k) f
    (mkState gd mob (update_chart i (fun _ => [ gr ]) d) tr rb) =
  (Ok tt,
   mkState gd mob
     (update_chart i
        (fun _ => [ mkGraphic (svg_width gr) (svg_height gr) (g_transform gr)
                      (update_nth k f (g_children gr)) ]) d)
     tr rb).
Proof.
  unfold write, set_doc, modify, with_doc.
  cbn [doc graphicData isMobile trace resize_bound].
  rewrite update_chart_twice. reflexivity.
Qed.

Lemma last_tick_array (m : Metric) (a : list Q) (s : state) :
  m_ticks m = TicksArray a -> last_tick m s = (Ok (last_of a), s).
Proof.
  intros H. unfold last_tick, last_of. rewrite H.
  destruct (List.length a); reflexivity.
Qed.

Lemma last_tick_absent (m : Metric) (s : state) :
  m_ticks m = TicksUndefined \/ m_ticks m = TicksNull ->
  last_tick m s = (Throw TicksNoLength, s).
Proof. intros [H|H]; unfold last_tick; rewrite H; reflexivity. Qed.

Lemma d3_select_at (sel : selector) (s : state) (i : nat) :
  target sel (doc s) = Some i -> d3_select sel s = (Ok (Some i), s).
Proof.
  destruct sel as [key]. intros H. unfold d3_select.
  rewrite (target_identifier key _ _ H), H. reflexivity.
Qed.

Lemma d3_select_missing (key : string) (s : state) :
  identifier key = true -> target (ChartOf key) (doc s) = None ->
  d3_select (ChartOf key) s = (Ok None, s).
Proof. intros Hi H. unfold d3_select. rewrite Hi, H. reflexivity. Qed.

Section Calls.

Variable classify : string -> string.
Variable makeTranslate : Q -> Q -> string.
Variable getComputedTextLength : string -> Q.

Lemma shading_at (terms : list Term) (i : nat) xs ch gd mob d tr rb
    (w h : Q) (t : string) (c : list node) (wr : wrapper) :
  nth_error (wrappers d) i = Some wr -> holds_chart wr = true ->
  shading classify terms (Some (i, O)) xs ch
    (mkState gd mob (update_chart i (fun _ => [ mkGraphic w h t c ]) d) tr rb) =
  (Ok tt,
   mkState gd mob
     (update_chart i
        (fun _ => [ mkGraphic w h t (c ++ map (shade classify xs ch) terms) ]) d)
     tr rb).
Proof.
  intros Hw Hh. unfold shading. revert c.
  induction terms as [|term rest IH]; intros c; cbn [forEach map].
  - rewrite app_nil_r. reflexivity.
  - erewrite bind_ok.
    2:{ erewrite bind_ok by (eapply append_at; eassumption). reflexivity. }
    rewrite IH, <- app_assoc. reflexivity.
Qed.

Lemma shading_missing (terms : list Term) xs ch (s : state) :
  shading classify terms None xs ch s = (Ok tt, s).
Proof.
  unfold shading.
  induction terms as [|term rest IH]; cbn [forEach]; [reflexivity|].
  erewrite bind_ok by reflexivity. exact IH.
Qed.

Local Ltac tidy :=
  repeat (progress
            (rewrite <- ?app_assoc, ?length_app, ?update_nth_app, ?update_nth_length;
             cbn [app List.length update_nth add_child set_attrs set_text
                  svg_width svg_height g_transform g_children
                  with_doc graphicData isMobile doc trace resize_bound])).

Local Tactic Notation "run_ok" tactic3(L) :=
  erewrite bind_ok by L; cbv beta; tidy.

(** A call whose selector selects the container at [i] leaves [draw] as the
    one child of that container. *)
Lemma renderGraphicWith_at (terms : list Term) (config : Config) gd mob d tr rb
    (i : nat) :
  target (container config) d = Some i ->
  renderGraphicWith classify makeTranslate getComputedTextLength terms config
    (mkState gd mob d tr rb) =
  (fst (draw classify makeTranslate getComputedTextLength terms mob config),
   mkState gd mob
     (update_chart i
        (fun _ => [ snd (draw classify makeTranslate getComputedTextLength
                           terms mob config) ]) d)
     (tr ++ [CallRenderGraphic (container config)]) rb).
Proof.
  intros Ht. destruct (target_holds _ _ _ Ht) as [wr [Hw Hh]].
  destruct config as [sel w dat]. cbn [container] in Ht.
  unfold renderGraphicWith, draw. cbn [container width data].
  run_ok reflexivity.
  run_ok reflexivity.
  run_ok (apply d3_select_at; exact Ht).
  run_ok reflexivity.
  erewrite bind_ok.
  2:{ unfold append_root, with_doc.
      cbn [doc graphicData isMobile trace resize_bound].
      rewrite (charts_at_update i _ d wr Hw Hh), update_chart_twice.
      cbn [List.length app]. reflexivity. }
  cbv beta.
  destruct dat as [m|].
  2:{ erewrite bind_throw by reflexivity. reflexivity. }
  run_ok reflexivity.
  run_ok (eapply shading_at; eassumption).
  run_ok (eapply append_at; eassumption).
  run_ok (eapply append_at; eassumption).
  run_ok (apply write_at).
  run_ok (apply write_at).
  run_ok (eapply append_at; eassumption).
  run_ok (eapply append_at; eassumption).
  run_ok (eapply append_at; eassumption).
  destruct (m_ticks m) as [| |a] eqn:Hk.
  - erewrite bind_throw by (apply last_tick_absent; auto). cbn [fst snd].
    unfold children_before_label, rects_of, y_group, yAxis_of, with_ticks.
    rewrite Hk. reflexivity.
  - erewrite bind_throw by (apply last_tick_absent; auto). cbn [fst snd].
    unfold children_before_label, rects_of, y_group, yAxis_of, with_ticks.
    rewrite Hk. reflexivity.
  - run_ok (apply last_tick_array; exact Hk).
    run_ok (apply write_at).
    run_ok (apply write_at).
    run_ok reflexivity.
    rewrite write_at. tidy. cbn [fst snd].
    unfold children_done, rects_of, y_group, yAxis_of, with_ticks.
    rewrite Hk. reflexivity.
Qed.

(** A call whose selector selects no element writes nothing and throws. *)
Lemma renderGraphicWith_missing (terms : list Term) (key : string) (w : Q) dat
    gd mob d tr rb :
  identifier key = true ->
  target (ChartOf key) d = None ->
  renderGraphicWith classify makeTranslate getComputedTextLength terms
    (mkConfig (ChartOf key) w dat) (mkState gd mob d tr rb) =
  (Throw (missing_exn (mkConfig (ChartOf key) w dat)),
   mkState gd mob d (tr ++ [CallRenderGraphic (ChartOf key)]) rb).
Proof.
  intros Hi Ht.
  unfold renderGraphicWith, missing_exn. cbn [container width data].
  run_ok reflexivity.
  run_ok reflexivity.
  run_ok (apply d3_select_missing; [exact Hi | exact Ht]).
  run_ok reflexivity.
  run_ok reflexivity.
  destruct dat as [m|].
  2:{ erewrite bind_throw by reflexivity. reflexivity. }
  run_ok reflexivity.
  run_ok (apply shading_missing).
  run_ok reflexivity.
  run_ok reflexivity.
  run_ok reflexivity.
  run_ok reflexivity.
  run_ok reflexivity.
  run_ok reflexivity.
  run_ok reflexivity.
  destruct (m_ticks m) as [| |a] eqn:Hk.
  - erewrite bind_throw by (apply last_tick_absent; auto). reflexivity.
  - erewrite bind_throw by (apply last_tick_absent; auto). reflexivity.
  - run_ok (apply last_tick_array; exact Hk).
    run_ok reflexivity.
    run_ok reflexivity.
    erewrite bind_throw by reflexivity. reflexivity.
Qed.

(** A call whose string is no selector throws at [d3.select], before any
    write. *)
Lemma renderGraphicWith_invalid (terms : list Term) (key : string) (w : Q) dat
    gd mob d tr rb :
  identifier key = false ->
  renderGraphicWith classify makeTranslate getComputedTextLength terms
    (mkConfig (ChartOf key) w dat) (mkState gd mob d tr rb) =
  (Throw (if word key then SyntaxError else ForeignSelector),
   mkState gd mob d (tr ++ [CallRenderGraphic (ChartOf key)]) rb).
Proof.
  intros Hi. unfold renderGraphicWith. cbn [container width data].
  run_ok reflexivity.
  run_ok reflexivity.
  destruct (word key) eqn:Hw;
    (erewrite bind_throw by (unfold d3_select; rewrite Hi, Hw; reflexivity));
    reflexivity.
Qed.

(** One call of the loop of [render]. *)
Lemma renderGraphic_call (gd0 : object Metric) (w : Q) (key : string) gd mob d tr rb :
  renderGraphic classify makeTranslate getComputedTextLength (config_of gd0 w key)
    (mkState gd mob d tr rb) =
  (call_result classify makeTranslate getComputedTextLength gd0 mob w d key,
   mkState gd mob (redraw classify makeTranslate getComputedTextLength gd0 mob w d key)
     (tr ++ [CallRenderGraphic (ChartOf key)]) rb).
Proof.
  unfold renderGraphic, call_result, redraw.
  destruct (target (ChartOf key) d) as [i|] eqn:Ht.
  - rewrite (target_identifier key d i Ht).
    erewrite renderGraphicWith_at by exact Ht. reflexivity.
  - destruct (identifier key) eqn:Hi.
    + unfold config_of. rewrite renderGraphicWith_missing by assumption. reflexivity.
    + unfold config_of. rewrite renderGraphicWith_invalid by assumption.
      now destruct (word key).
Qed.

(** The loop of [render] over the properties of an object. *)
Lemma render_loop (gd0 : object Metric) (w : Q) (l : object Metric) gd mob d tr rb :
  forIn l (fun _ key =>
      renderGraphic classify makeTranslate getComputedTextLength
        (mkConfig (ChartOf key) w (prop gd0 key)))
    (mkState gd mob d tr rb) =
  (loop_result classify makeTranslate getComputedTextLength gd0 mob w (keys l) d,
   mkState gd mob
     (fold_left (redraw classify makeTranslate getComputedTextLength gd0 mob w)
        (calls classify makeTranslate getComputedTextLength gd0 mob w (keys l) d) d)
     (tr ++ map (fun k => CallRenderGraphic (ChartOf k))
              (calls classify makeTranslate getComputedTextLength gd0 mob w (keys l) d))
     rb).
Proof.
  unfold forIn. revert d tr.
  induction l as [|[k v] l IH]; intros d tr; cbn [forEach keys map fst snd].
  - cbn. rewrite app_nil_r. reflexivity.
  - change (mkConfig (ChartOf k) w (prop gd0 k)) with (config_of gd0 w k).
    cbn [loop_result calls].
    destruct (call_result classify makeTranslate getComputedTextLength gd0 mob w d k)
      as [[]|e] eqn:Hr.
    + erewrite bind_ok by (rewrite renderGraphic_call, Hr; reflexivity).
      rewrite IH. cbn [fold_left map]. rewrite <- app_assoc. reflexivity.
    + erewrite bind_throw by (rewrite renderGraphic_call, Hr; reflexivity).
      cbn [fold_left map]. reflexivity.
Qed.

(** A whole render pass. *)
Lemma render_pass (w : Q) gd mob d tr rb :
  let mob' := Qle_bool w MOBILE_BREAKPOINT in
  let called := calls classify makeTranslate getComputedTextLength gd mob' w (keys gd) d in
  let d' := fold_left (redraw classify makeTranslate getComputedTextLength gd mob' w) called d in
  let tr' := tr ++ map (fun k => CallRenderGraphic (ChartOf k)) called in
  render classify makeTranslate getComputedTextLength w (mkState gd mob d tr rb) =
  match loop_result classify makeTranslate getComputedTextLength gd mob' w (keys gd) d with
  | Ok _ => (Ok tt, mkState gd mob' d' (tr' ++ [CallFmResize]) rb)
  | Throw e => (Throw e, mkState gd mob' d' tr' rb)
  end.
Proof.
  intros mob' called d' tr'. unfold render.
  erewrite bind_ok.
  2:{ instantiate (2 := tt). instantiate (1 := mkState gd mob' d tr rb).
      fold mob'. destruct mob'; reflexivity. }
  erewrite bind_ok by reflexivity. cbn [graphicData].
  destruct (loop_result classify makeTranslate getComputedTextLength gd mob' w (keys gd) d)
    as [[]|e] eqn:Hr.
  - erewrite bind_ok by (rewrite render_loop, Hr; reflexivity). reflexivity.
  - erewrite bind_throw by (rewrite render_loop, Hr; reflexivity). reflexivity.
Qed.

(** ** Passes *)

Local Abbreviation Redraw := (redraw classify makeTranslate getComputedTextLength).
Local Abbreviation CallResult := (call_result classify makeTranslate getComputedTextLength).
Local Abbreviation Calls := (calls classify makeTranslate getComputedTextLength).
Local Abbreviation LoopResult := (loop_result classify makeTranslate getComputedTextLength).
Local Abbreviation Draw := (draw classify makeTranslate getComputedTextLength).

Lemma target_redraw gd mob w d key sel :
  target sel (Redraw gd mob w d key) = target sel d.
Proof.
  unfold redraw. destruct (target (ChartOf key) d); [apply target_update | reflexivity].
Qed.

Lemma target_redraws gd mob w (l : list string) d sel :
  target sel (fold_left (Redraw gd mob w) l d) = target sel d.
Proof.
  revert d. induction l as [|k l IH]; intros d; cbn [fold_left]; [reflexivity|].
  now rewrite IH, target_redraw.
Qed.

Lemma around_redraws gd mob w (l : list string) d :
  around (fold_left (Redraw gd mob w) l d) = around d.
Proof.
  revert d. induction l as [|k l IH]; intros d; cbn [fold_left]; [reflexivity|].
  rewrite IH. unfold redraw. now destruct (target (ChartOf k) d).
Qed.

Lemma last_for_same (d d' : document) (j : nat) (l : list string) :
  (forall sel, target sel d' = target sel d) ->
  last_for d' j l = last_for d j l.
Proof.
  intros H. induction l as [|k l IH]; cbn [last_for]; [reflexivity|].
  now rewrite IH, H.
Qed.

(** The result of a call does not depend on the layout, and depends on the
    document only through the element its selector selects. *)
Lemma draw_result (terms : list Term) (mob mob' : bool) (sel : selector)
    (w w' : Q) dat :
  fst (Draw terms mob' (mkConfig sel w' dat)) = fst (Draw terms mob (mkConfig sel w dat)).
Proof.
  unfold draw. cbn [data]. destruct dat as [m|]; [|reflexivity].
  now destruct (m_ticks m).
Qed.

Lemma call_result_same gd mob mob' w w' d d' key :
  target (ChartOf key) d' = target (ChartOf key) d ->
  CallResult gd mob' w' d' key = CallResult gd mob w d key.
Proof.
  intros H. unfold call_result, config_of. rewrite H.
  now rewrite (draw_result TERMS mob mob' (ChartOf key) w w').
Qed.

Lemma calls_same gd mob mob' w w' (l : list string) d d' :
  (forall sel, target sel d' = target sel d) ->
  Calls gd mob' w' l d' = Calls gd mob w l d.
Proof.
  revert d d'. induction l as [|k l IH]; intros d d' H; cbn [calls]; [reflexivity|].
  rewrite (call_result_same gd mob mob' w w' d d' k (H _)).
  destruct (CallResult gd mob w d k); [|reflexivity].
  f_equal. apply IH. intros sel. now rewrite !target_redraw.
Qed.

Lemma loop_result_same gd mob mob' w w' (l : list string) d d' :
  (forall sel, target sel d' = target sel d) ->
  LoopResult gd mob' w' l d' = LoopResult gd mob w l d.
Proof.
  revert d d'. induction l as [|k l IH]; intros d d' H; cbn [loop_result]; [reflexivity|].
  rewrite (call_result_same gd mob mob' w w' d d' k (H _)).
  destruct (CallResult gd mob w d k); [|reflexivity].
  apply IH. intros sel. now rewrite !target_redraw.
Qed.

(** What a sequence of calls leaves in the wrapper at [j]: the drawing of
    the last call that selected its container, when there is one. *)
Lemma redraws_wrappers gd mob w (l : list string) d (j : nat) :
  nth_error (wrappers (fold_left (Redraw gd mob w) l d)) j =
  option_map
    (fun wr =>
       match last_for d j l with
       | Some k => with_charts (fun _ => [ snd (Draw TERMS mob (config_of gd w k)) ]) wr
       | None => wr
       end)
    (nth_error (wrappers d) j).
Proof.
  revert d. induction l as [|k l IH]; intros d; cbn [fold_left last_for].
  - now destruct (nth_error (wrappers d) j).
  - rewrite IH.
    rewrite (last_for_same d (Redraw gd mob w d k) j l)
      by (intros sel; apply target_redraw).
    unfold redraw at 1.
    destruct (target (ChartOf k) d) as [i|] eqn:Ht.
    + unfold update_chart. cbn [wrappers]. rewrite nth_error_update_nth.
      destruct (Nat.eqb i j) eqn:E.
      * destruct (nth_error (wrappers d) j) as [wr|]; [|reflexivity].
        cbn [option_map]. destruct (last_for d j l); [|reflexivity].
        now rewrite with_charts_twice.
      * destruct (nth_error (wrappers d) j) as [wr|]; [|reflexivity].
        now destruct (last_for d j l).
    + destruct (nth_error (wrappers d) j) as [wr|]; [|reflexivity].
      now destruct (last_for d j l).
Qed.

(** A second sequence of calls for the same keys, at any layout, leaves
    nothing of the first. *)
Lemma redraws_over gd mob mob' w w' (l : list string) d :
  fold_left (Redraw gd mob' w') l (fold_left (Redraw gd mob w) l d) =
  fold_left (Redraw gd mob' w') l d.
Proof.
  apply document_ext; [now rewrite !around_redraws|].
  intros j. rewrite !redraws_wrappers.
  rewrite (last_for_same d (fold_left (Redraw gd mob w) l d) j l)
    by (intros sel; apply target_redraws).
  destruct (nth_error (wrappers d) j) as [wr|]; [|reflexivity].
  cbn [option_map]. destruct (last_for d j l); [|reflexivity].
  now rewrite with_charts_twice.
Qed.

(** The children of a container after a sequence of calls. *)
Lemma charts_at_redraws gd mob w (l : list string) d (j : nat) (wr : wrapper) :
  nth_error (wrappers d) j = Some wr -> holds_chart wr = true ->
  charts_at j (fold_left (Redraw gd mob w) l d) =
  match last_for d j l with
  | Some k => [ snd (Draw TERMS mob (config_of gd w k)) ]
  | None => charts_at j d
  end.
Proof.
  intros Hw Hh. unfold charts_at. rewrite redraws_wrappers, Hw. cbn [option_map].
  destruct (last_for d j l); [|reflexivity].
  now rewrite charts_with_charts.
Qed.

Lemma charts_in_redraws gd mob w (l : list string) d (key : string) (j : nat) :
  target (ChartOf key) d = Some j ->
  charts_in (ChartOf key) (fold_left (Redraw gd mob w) l d) =
  match last_for d j l with
  | Some k => [ snd (Draw TERMS mob (config_of gd w k)) ]
  | None => charts_in (ChartOf key) d
  end.
Proof.
  intros Ht. unfold charts_in. rewrite target_redraws, Ht.
  destruct (target_holds _ _ _ Ht) as [wr [Hw Hh]].
  now apply charts_at_redraws with (wr := wr).
Qed.

Lemma last_for_in (d : document) (j : nat) (l : list string) (k : string) :
  last_for d j l = Some k -> In k l /\ target (ChartOf k) d = Some j.
Proof.
  induction l as [|x l IH]; cbn [last_for]; [discriminate|].
  destruct (last_for d j l) as [k'|].
  - intros [= <-]. destruct (IH eq_refl). split; [now right | assumption].
  - destruct (target (ChartOf x) d) as [i|] eqn:Ht; [|discriminate].
    destruct (Nat.eqb i j) eqn:E; [|discriminate].
    apply Nat.eqb_eq in E. subst i. intros [= <-]. split; [now left | exact Ht].
Qed.

Lemma last_for_none (d : document) (j : nat) (l : list string) :
  (forall k, In k l -> target (ChartOf k) d <> Some j) -> last_for d j l = None.
Proof.
  intros H. destruct (last_for d j l) as [k|] eqn:E; [|reflexivity].
  destruct (last_for_in d j l k E) as [Hin Ht]. now destruct (H k Hin).
Qed.

Lemma last_for_some (d : document) (j : nat) (l : list string) (key : string) :
  In key l -> target (ChartOf key) d = Some j ->
  exists k, last_for d j l = Some k.
Proof.
  induction l as [|x l IH]; cbn [last_for In]; [tauto|].
  intros Hin Ht. destruct (last_for d j l) as [k'|] eqn:E; [now exists k'|].
  destruct Hin as [->|Hin].
  - rewrite Ht, Nat.eqb_refl. now exists key.
  - destruct (IH Hin Ht) as [k Hk]. discriminate.
Qed.

(** Keys that are ids of no element around the wrappers select each in the
    wrapper of its id: the last call for a container is then the call of
    its key. *)
Lemma own_targets_differ (d : document) (a b : string) (j : nat) :
  ~ In a (enclosing d) -> ~ In b (enclosing d) ->
  target (ChartOf a) d = Some j -> target (ChartOf b) d = Some j -> a = b.
Proof.
  intros Ha Hb Hta Htb.
  destruct (target_own a d j Ha Hta) as [wa [Hwa Hida]].
  destruct (target_own b d j Hb Htb) as [wb [Hwb Hidb]].
  congruence.
Qed.

Lemma last_for_own (d : document) (j : nat) (l : list string) (key : string) :
  (forall k, In k l -> ~ In k (enclosing d)) ->
  In key l -> target (ChartOf key) d = Some j ->
  last_for d j l = Some key.
Proof.
  intros Hl Hin Ht. destruct (last_for_some d j l key Hin Ht) as [k Hk].
  destruct (last_for_in d j l k Hk) as [Hkin Hkt].
  rewrite Hk. f_equal.
  apply (own_targets_differ d k key j); auto.
Qed.

Lemma last_for_other (d : document) (j : nat) (l : list string) (key : string) :
  (forall k, In k l -> ~ In k (enclosing d)) ->
  ~ In key (enclosing d) ->
  ~ In key l -> target (ChartOf key) d = Some j ->
  last_for d j l = None.
Proof.
  intros Hl Hk Hout Ht. apply last_for_none. intros k Hin Hkt.
  apply Hout. rewrite <- (own_targets_differ d k key j); auto.
Qed.

(** The calls of a pass are the keys up to the first call that throws. *)
Lemma calls_prefix gd mob w (l : list string) d :
  exists n, Calls gd mob w l d = firstn n l.
Proof.
  revert d. induction l as [|k l IH]; intros d; cbn [calls].
  - exists 0%nat. reflexivity.
  - destruct (CallResult gd mob w d k).
    + destruct (IH (Redraw gd mob w d k)) as [n Hn]. exists (S n). cbn. now rewrite Hn.
    + exists 1%nat. reflexivity.
Qed.

Lemma call_completes gd mob w d key :
  CallResult gd mob w d key = Ok tt ->
  exists_in (ChartOf key) d = true
  /\ fst (Draw TERMS mob (config_of gd w key)) = Ok tt.
Proof.
  unfold call_result, exists_in.
  destruct (identifier key); [|destruct (word key); discriminate].
  destruct (target (ChartOf key) d); [now split | discriminate].
Qed.

Lemma loop_completes gd mob w (l : list string) d :
  LoopResult gd mob w l d = Ok tt <->
  forall key, In key l -> CallResult gd mob w d key = Ok tt.
Proof.
  revert d. induction l as [|k l IH]; intros d; cbn [loop_result].
  - split; [intros _ ? [] | reflexivity].
  - split.
    + destruct (CallResult gd mob w d k) as [[]|e] eqn:Hr; [|discriminate].
      intros H key [<-|Hin]; [exact Hr|].
      rewrite <- (call_result_same gd mob mob w w d (Redraw gd mob w d k) key)
        by apply target_redraw.
      revert key Hin. now apply IH.
    + intros H. rewrite (H k) by now left. apply IH. intros key Hin.
      rewrite (call_result_same gd mob mob w w d (Redraw gd mob w d k) key)
        by apply target_redraw.
      apply H. now right.
Qed.

Lemma calls_complete gd mob w (l : list string) d :
  (forall key, In key l -> CallResult gd mob w d key = Ok tt) ->
  Calls gd mob w l d = l.
Proof.
  revert d. induction l as [|k l IH]; intros d H; cbn [calls]; [reflexivity|].
  rewrite (H k) by now left. f_equal. apply IH. intros key Hin.
  rewrite (call_result_same gd mob mob w w d (Redraw gd mob w d k) key)
    by apply target_redraw.
  apply H. now right.
Qed.

Lemma loop_stops gd mob w (before after : list string) key e d :
  (forall k, In k before -> CallResult gd mob w d k = Ok tt) ->
  CallResult gd mob w d key = Throw e ->
  LoopResult gd mob w (before ++ key :: after) d = Throw e /\
  Calls gd mob w (before ++ key :: after) d = before ++ [key].
Proof.
  revert d. induction before as [|k before IH]; intros d Hb Hk; cbn [app loop_result calls].
  - rewrite Hk. now split.
  - rewrite (Hb k) by now left.
    destruct (IH (Redraw gd mob w d k)) as [Hl Hc].
    + intros k' Hin.
      rewrite (call_result_same gd mob mob w w d (Redraw gd mob w d k) k')
        by apply target_redraw.
      apply Hb. now right.
    + rewrite (call_result_same gd mob mob w w d (Redraw gd mob w d k) key)
        by apply target_redraw.
      exact Hk.
    + rewrite Hl, Hc. now split.
Qed.

Lemma prop_in_keys {V : Type} (obj : object V) (key : string) (v : V) :
  prop obj key = Some v -> In key (keys obj).
Proof.
  induction obj as [|[k x] obj IH]; cbn; [discriminate|].
  destruct (String.eqb k key) eqn:E.
  - apply String.eqb_eq in E. now left.
  - intros H. right. now apply IH.
Qed.

Lemma chart_of_redraws_own gd mob w (l : list string) d key :
  (forall k, In k l -> ~ In k (enclosing d)) ->
  In key l -> exists_in (ChartOf key) d = true ->
  chart_of (ChartOf key) (fold_left (Redraw gd mob w) l d) =
  Some (snd (Draw TERMS mob (config_of gd w key))).
Proof.
  intros Hl Hin He. unfold exists_in in He.
  destruct (target (ChartOf key) d) as [j|] eqn:Ht; [|discriminate].
  unfold chart_of. rewrite (charts_in_redraws gd mob w l d key j Ht).
  now rewrite (last_for_own d j l key Hl Hin Ht).
Qed.

Lemma chart_of_redraws_other gd mob w (l : list string) d key :
  (forall k, In k l -> ~ In k (enclosing d)) ->
  ~ In key (enclosing d) -> ~ In key l ->
  chart_of (ChartOf key) (fold_left (Redraw gd mob w) l d) = chart_of (ChartOf key) d.
Proof.
  intros Hl Hk Hout. unfold chart_of.
  destruct (target (ChartOf key) d) as [j|] eqn:Ht.
  - rewrite (charts_in_redraws gd mob w l d key j Ht).
    now rewrite (last_for_other d j l key Hl Hk Hout Ht).
  - unfold charts_in. now rewrite target_redraws, Ht.
Qed.

(** ** Reading what a call drew *)

Local Abbreviation RenderGraphicWith :=
  (renderGraphicWith classify makeTranslate getComputedTextLength).
Local Abbreviation RenderGraphic :=
  (renderGraphic classify makeTranslate getComputedTextLength).
Local Abbreviation Render := (render classify makeTranslate getComputedTextLength).
Local Abbreviation OnResize := (onResize classify makeTranslate getComputedTextLength).

Lemma find_after_rects (c : string) (terms : list Term) xs ch (rest : list node) :
  (forall s, String.eqb ("president " ++ s) c = false) ->
  find (has_class c) (map (shade classify xs ch) terms ++ rest) =
  find (has_class c) rest.
Proof.
  intros Hc. induction terms as [|t terms IH]; cbn [map app find]; [reflexivity|].
  replace (has_class c (shade classify xs ch t)) with false; [exact IH|].
  unfold shade, has_class. cbn [existsb]. rewrite Hc. reflexivity.
Qed.

Lemma x_axis_drawn (terms : list Term) (mob : bool) (config : Config) (m : Metric) :
  data config = Some m ->
  axis_drawn "x axis" (snd (Draw terms mob config)) = Some (xAxis_of (width config)).
Proof.
  intros Hd. unfold draw. rewrite Hd.
  destruct (m_ticks m); cbn [snd]; unfold axis_drawn, root_of; cbn [g_children];
    unfold children_done, children_before_label, rects_of;
    rewrite find_after_rects by reflexivity; reflexivity.
Qed.

Lemma y_axis_drawn (terms : list Term) (mob : bool) (config : Config) (m : Metric) :
  data config = Some m ->
  axis_drawn "y axis" (snd (Draw terms mob config)) =
  Some (yAxis_of mob (width config) m).
Proof.
  intros Hd. unfold draw. rewrite Hd.
  destruct (m_ticks m); cbn [snd]; unfold axis_drawn, root_of; cbn [g_children];
    unfold children_done, children_before_label, rects_of;
    rewrite find_after_rects by reflexivity; reflexivity.
Qed.


(** The children a call leaves in the container its selector selects. *)
Lemma charts_after_call (terms : list Term) (config : Config) (s : state) :
  exists_in (container config) (doc s) = true ->
  charts_in (container config) (doc (snd (RenderGraphicWith terms config s))) =
  [ snd (Draw terms (isMobile s) config) ].
Proof.
  intros He. destruct s as [gd mob d tr rb]. cbn [doc isMobile] in *.
  unfold exists_in in He.
  destruct (target (container config) d) as [i|] eqn:Ht; [|discriminate].
  rewrite (renderGraphicWith_at terms config gd mob d tr rb i Ht). cbn [snd doc].
  unfold charts_in. rewrite target_update, Ht.
  destruct (target_holds _ _ _ Ht) as [wr [Hw Hh]].
  now rewrite (charts_at_update i _ d wr Hw Hh).
Qed.

Lemma chart_after_call (terms : list Term) (config : Config) (s : state) :
  exists_in (container config) (doc s) = true ->
  chart_of (container config) (doc (snd (RenderGraphicWith terms config s))) =
  Some (snd (Draw terms (isMobile s) config)).
Proof. intros He. unfold chart_of. now rewrite charts_after_call. Qed.

Lemma result_of_call (terms : list Term) (config : Config) (s : state) :
  exists_in (container config) (doc s) = true ->
  fst (RenderGraphicWith terms config s) = fst (Draw terms (isMobile s) config).
Proof.
  intros He. destruct s as [gd mob d tr rb]. cbn [doc isMobile] in *.
  unfold exists_in in He.
  destruct (target (container config) d) as [i|] eqn:Ht; [|discriminate].
  now rewrite (renderGraphicWith_at terms config gd mob d tr rb i Ht).
Qed.

Lemma result_without_element (terms : list Term) (config : Config) (s : state) :
  valid (container config) = true ->
  exists_in (container config) (doc s) = false ->
  RenderGraphicWith terms config s =
  (Throw (missing_exn config),
   mkState (graphicData s) (isMobile s) (doc s)
     (trace s ++ [CallRenderGraphic (container config)]) (resize_bound s)).
Proof.
  intros Hv He. destruct s as [gd mob d tr rb], config as [[key] w dat].
  cbn [doc isMobile container graphicData trace resize_bound] in *.
  unfold exists_in in He.
  destruct (target (ChartOf key) d) eqn:Ht; [discriminate|].
  now apply renderGraphicWith_missing.
Qed.

Lemma result_without_selector (terms : list Term) (config : Config) (s : state) :
  valid (container config) = false ->
  RenderGraphicWith terms config s =
  (Throw (if word (key_of (container config)) then SyntaxError else ForeignSelector),
   mkState (graphicData s) (isMobile s) (doc s)
     (trace s ++ [CallRenderGraphic (container config)]) (resize_bound s)).
Proof.
  intros Hv. destruct s as [gd mob d tr rb], config as [[key] w dat].
  cbn [doc isMobile container graphicData trace resize_bound key_of] in *.
  now apply renderGraphicWith_invalid.
Qed.

Lemma exists_in_valid (sel : selector) (d : document) :
  exists_in sel d = true -> valid sel = true.
Proof.
  destruct sel as [key]. unfold exists_in, valid, target. cbn [key_of].
  now destruct (identifier key).
Qed.


(** ** Scales *)

Lemma domain_not_empty :
  Qeq_bool (inject_Z MIN_DATE) (inject_Z MAX_DATE) = false.
Proof. reflexivity. Qed.

Lemma apply_time_xScale (w : Q) (t : date) :
  (apply_time (xScale_of w) t ==
   chartWidth_of w * ((inject_Z t - inject_Z MIN_DATE) / 7671))%Q.
Proof.
  unfold apply_time, xScale_of, interpolate. cbn [t_domain t_range fst snd].
  rewrite domain_not_empty.
  change (inject_Z MAX_DATE) with (18659 # 1).
  change (inject_Z MIN_DATE) with (10988 # 1).
  field.
Qed.




(** ** Calls of [renderGraphic] *)

(** C1. Whatever the metric, its data and [isMobile], the horizontal axis a
    call draws carries the time scale of domain [MIN_DATE, MAX_DATE], which
    are 2000-02-01 and 2021-02-01, and of range [0, chartWidth]; the data of
    the metric does not enter it. *)
Theorem xScale_domain_fixed (terms : list Term) (config : Config) (m : Metric)
    (s : state) :
  data config = Some m ->
  exists_in (container config) (doc s) = true ->
  exists g xAxis,
    chart_of (container config) (doc (snd (RenderGraphicWith terms config s))) = Some g
    /\ axis_drawn "x axis" g = Some xAxis
    /\ a_scale xAxis =
       OfTime (mkTimeScale (0%Q, chartWidth_of (width config)) (MIN_DATE, MAX_DATE))
    /\ civil MIN_DATE = (2000, 2, 1)
    /\ civil MAX_DATE = (2021, 2, 1).
Proof.
  intros Hd He.
  exists (snd (Draw terms (isMobile s) config)), (xAxis_of (width config)).
  split; [now apply chart_after_call|].
  split; [now apply x_axis_drawn with (m := m)|].
  repeat split.
Qed.

(** C3. The format [renderGraphic] gives the vertical axis of a metric with
    tick values returns a value [d <= 0] as it is, and a value [d > 0] with
    ["+"] before it when [show_plus] is set and as it is otherwise; a value
    returned as it is is written as its string. *)
Theorem tick_label_sign (mob : bool) (w : Q) (m : Metric) (a : list Q) (d : Q) :
  m_ticks m = TicksArray a ->
  let format := apply_format (a_tickFormat (yAxis_of mob w m)) in
  ((d <= 0)%Q -> format (TickNum d) = AsIs (TickNum d))
  /\ ((0 < d)%Q -> m_show_plus m = true ->
      format (TickNum d) = Str ("+" ++ NumberToString d))
  /\ ((0 < d)%Q -> m_show_plus m = false -> format (TickNum d) = AsIs (TickNum d))
  /\ label_text (AsIs (TickNum d)) = NumberToString d.
Proof.
  intros Ht format. subst format. unfold yAxis_of, with_ticks. rewrite Ht.
  cbn [tickFormat a_tickFormat apply_format]. unfold sign_format, le_zero.
  repeat split.
  - intros Hle. apply Qle_bool_iff in Hle. now rewrite Hle.
  - intros Hlt Hp. rewrite Hp.
    destruct (Qle_bool d 0) eqn:E; [|reflexivity].
    apply Qle_bool_iff in E. exfalso. exact (Qlt_not_le _ _ Hlt E).
  - intros Hlt Hp. rewrite Hp. now destruct (Qle_bool d 0).
Qed.

(** C4, as the code has it. On a narrow viewport a metric with fewer than 5
    tick values is drawn without any error: the vertical axis gets three
    tick values, the entries 0, 2 and 4 of the list, [undefined] standing
    for each entry the list does not have, which entry 4 always is. *)
Theorem thinning_never_fails (terms : list Term) (config : Config) (m : Metric)
    (a : list Q) (s : state) :
  data config = Some m ->
  m_ticks m = TicksArray a ->
  (List.length a < 5)%nat ->
  isMobile s = true ->
  exists_in (container config) (doc s) = true ->
  fst (RenderGraphicWith terms config s) = Ok tt
  /\ exists g yAxis,
       chart_of (container config) (doc (snd (RenderGraphicWith terms config s))) = Some g
       /\ axis_drawn "y axis" g = Some yAxis
       /\ a_tickValues yAxis =
          Some [ tick_of (index a 0); tick_of (index a 2); TickUndefined ].
Proof.
  intros Hd Ht Hlen Hm He. split.
  - rewrite result_of_call by exact He. unfold draw. now rewrite Hd, Ht.
  - exists (snd (Draw terms (isMobile s) config)), (yAxis_of (isMobile s) (width config) m).
    split; [now apply chart_after_call|].
    split; [now apply y_axis_drawn|].
    unfold yAxis_of, with_ticks. rewrite Ht, Hm.
    cbn [tickFormat tickValues a_tickValues yTickValues map].
    replace (index a 4) with (@None Q); [reflexivity|].
    symmetry. apply nth_error_None. lia.
Qed.


(** C9. For a metric whose data has no [ticks] field (or a [null] one), the
    guard of the axis code leaves the vertical axis as it is, and the call,
    made with a string that is a selector, throws when it reads the length
    of [ticks] to place the label: the chart is left with the label element
    appended and not placed. *)
Theorem missing_ticks_throw (terms : list Term) (config : Config) (m : Metric)
    (s : state) :
  data config = Some m ->
  m_ticks m = TicksUndefined \/ m_ticks m = TicksNull ->
  valid (container config) = true ->
  fst (RenderGraphicWith terms config s) = Throw TicksNoLength
  /\ (forall mob yAxis, with_ticks mob m yAxis = yAxis)
  /\ (exists_in (container config) (doc s) = true ->
      chart_of (container config) (doc (snd (RenderGraphicWith terms config s))) =
      Some (root_of (isMobile s) (width config)
              (children_before_label classify makeTranslate terms (isMobile s)
                 (width config) m))).
Proof.
  intros Hd Ht Hv. split; [|split].
  - destruct (exists_in (container config) (doc s)) eqn:He.
    + rewrite result_of_call by exact He. unfold draw. rewrite Hd.
      now destruct Ht as [Ht|Ht]; rewrite Ht.
    + rewrite result_without_element by assumption. unfold missing_exn. rewrite Hd.
      now destruct Ht as [Ht|Ht]; rewrite Ht.
  - intros mob yAxis. unfold with_ticks. now destruct Ht as [Ht|Ht]; rewrite Ht.
  - intros He. rewrite chart_after_call by exact He. unfold draw. rewrite Hd.
    now destruct Ht as [Ht|Ht]; rewrite Ht.
Qed.

(** ** Render passes *)

Lemma added_events {A : Type} (c : M A) (s : state) (new : list event) :
  trace (snd (c s)) = trace s ++ new -> added c s = new.
Proof.
  intros H. unfold added. rewrite H. clear H.
  induction (trace s) as [|e tr IH]; [reflexivity | exact IH].
Qed.

Lemma call_result_ok gd mob w d key (m : Metric) (a : list Q) :
  exists_in (ChartOf key) d = true ->
  prop gd key = Some m -> m_ticks m = TicksArray a ->
  CallResult gd mob w d key = Ok tt.
Proof.
  intros He Hp Ht. unfold call_result, draw, config_of. cbn [data].
  pose proof (exists_in_valid _ _ He) as Hv. unfold valid in Hv. cbn [key_of] in Hv.
  unfold exists_in in He. rewrite Hv.
  destruct (target (ChartOf key) d); [|discriminate].
  now rewrite Hp, Ht.
Qed.

Lemma call_result_no_ticks gd mob w d key (m : Metric) :
  identifier key = true ->
  prop gd key = Some m ->
  m_ticks m = TicksUndefined \/ m_ticks m = TicksNull ->
  CallResult gd mob w d key = Throw TicksNoLength.
Proof.
  intros Hi Hp Ht. unfold call_result, draw, missing_exn, config_of. cbn [data].
  rewrite Hi, Hp. destruct (target (ChartOf key) d), Ht as [Ht|Ht]; now rewrite Ht.
Qed.

(** The result of a call made at the start of a pass is its result in the
    pass. *)
Lemma call_at_start (w : Q) gd mob d tr rb (key : string) :
  fst (RenderGraphic (config_of gd w key) (mkState gd mob d tr rb)) =
  CallResult gd mob w d key.
Proof. now rewrite renderGraphic_call. Qed.

Lemma makeHTML_loop (l : list string) gd mob d tr rb :
  (forall k, In k l -> prop gd k <> None) ->
  forEach l (fun key =>
      graphicData <- gets graphicData ;;
      match prop graphicData key with
      | Some data =>
          append_wrapper
            (mkWrapper key
               (Full (m_metric data) (m_description data) [] (source_html data)))
      | None =>
          append_wrapper (mkWrapper key Partial) ;;
          throw MetricUndefined
      end) (mkState gd mob d tr rb) =
  (Ok tt,
   mkState gd mob (mkDocument (around d) (wrappers d ++ map (wrapper_for gd) l)) tr rb).
Proof.
  revert d. induction l as [|k l IH]; intros d Hall; cbn [forEach map].
  - rewrite app_nil_r. now destruct d.
  - destruct (prop gd k) as [m|] eqn:Hp; [|exfalso; apply (Hall k); [now left | exact Hp]].
    erewrite bind_ok.
    2:{ erewrite bind_ok by reflexivity. cbn [graphicData]. rewrite Hp. reflexivity. }
    cbv beta. unfold with_doc. cbn [graphicData isMobile doc trace resize_bound].
    rewrite IH by (intros k' Hin; apply Hall; now right).
    cbn [around wrappers]. rewrite <- app_assoc. cbn [app].
    unfold wrapper_for at 2. rewrite Hp. reflexivity.
Qed.

Lemma map_w_id_wrapper_for gd (l : list string) :
  map w_id (map (wrapper_for gd) l) = l.
Proof.
  induction l as [|k l IH]; [reflexivity|]. cbn [map]. rewrite IH. f_equal.
  unfold wrapper_for. now destruct (prop gd k).
Qed.

(** The parts of the state a pass leaves. *)
Lemma render_doc (w : Q) gd mob d tr rb :
  doc (snd (Render w (mkState gd mob d tr rb))) =
  fold_left (Redraw gd (Qle_bool w MOBILE_BREAKPOINT) w)
    (Calls gd (Qle_bool w MOBILE_BREAKPOINT) w (keys gd) d) d.
Proof.
  pose proof (render_pass w gd mob d tr rb) as HP. cbv zeta in HP. rewrite HP.
  now destruct (LoopResult gd (Qle_bool w MOBILE_BREAKPOINT) w (keys gd) d).
Qed.

Lemma pass_result (w : Q) gd mob d tr rb :
  fst (Render w (mkState gd mob d tr rb)) =
  LoopResult gd (Qle_bool w MOBILE_BREAKPOINT) w (keys gd) d.
Proof.
  pose proof (render_pass w gd mob d tr rb) as HP. cbv zeta in HP. rewrite HP.
  now destruct (LoopResult gd (Qle_bool w MOBILE_BREAKPOINT) w (keys gd) d) as [[]|e].
Qed.

Lemma render_events (w : Q) gd mob d tr rb :
  added (Render w) (mkState gd mob d tr rb) =
  map (fun k => CallRenderGraphic (ChartOf k))
    (Calls gd (Qle_bool w MOBILE_BREAKPOINT) w (keys gd) d)
  ++ match LoopResult gd (Qle_bool w MOBILE_BREAKPOINT) w (keys gd) d with
     | Ok _ => [CallFmResize]
     | Throw _ => []
     end.
Proof.
  apply added_events.
  pose proof (render_pass w gd mob d tr rb) as HP. cbv zeta in HP. rewrite HP.
  destruct (LoopResult gd (Qle_bool w MOBILE_BREAKPOINT) w (keys gd) d) as [[]|e];
    cbn [snd trace]; [now rewrite app_assoc | now rewrite app_nil_r].
Qed.

Lemma render_rest (w : Q) gd mob d tr rb :
  let s' := snd (Render w (mkState gd mob d tr rb)) in
  graphicData s' = gd /\ isMobile s' = Qle_bool w MOBILE_BREAKPOINT
  /\ resize_bound s' = rb.
Proof.
  pose proof (render_pass w gd mob d tr rb) as HP. cbv zeta in HP. cbv zeta.
  rewrite HP.
  now destruct (LoopResult gd (Qle_bool w MOBILE_BREAKPOINT) w (keys gd) d).
Qed.

(** C2. In a pass that completes at measured width [w], on a dataset none
    of whose keys is the id of [#charts] or of an element around it, a
    metric with five tick values gets, for [w <= 600], the aspect ratio 2.5,
    an [svg] of height [w / 2.5] and three vertical tick values, and for
    [w > 600] the aspect ratio 5, the height [w / 5] and its five tick
    values. *)
Theorem breakpoint_layout (w : Q) (s : state) (key : string) (m : Metric)
    (a : list Q) :
  prop (graphicData s) key = Some m ->
  m_ticks m = TicksArray a ->
  List.length a = 5%nat ->
  (forall k, In k (keys (graphicData s)) -> ~ In k (enclosing (doc s))) ->
  fst (Render w s) = Ok tt ->
  let s' := snd (Render w s) in
  exists g yAxis ticks,
    chart_of (ChartOf key) (doc s') = Some g
    /\ axis_drawn "y axis" g = Some yAxis
    /\ a_tickValues yAxis = Some ticks
    /\ ((w <= 600)%Q ->
        isMobile s' = true
        /\ (aspectRatio (isMobile s') == 2.5)%Q
        /\ (svg_height g == w / 2.5)%Q
        /\ List.length ticks = 3%nat)
    /\ ((600 < w)%Q ->
        isMobile s' = false
        /\ (aspectRatio (isMobile s') == 5)%Q
        /\ (svg_height g == w / 5)%Q
        /\ List.length ticks = 5%nat).
Proof.
  intros Hp Ht Hlen Hown Hok. cbv zeta.
  destruct s as [gd mob d tr rb]. cbn [graphicData doc] in Hp, Hown.
  pose proof (render_pass w gd mob d tr rb) as HP. cbv zeta in HP.
  rewrite HP in Hok |- *.
  destruct (LoopResult gd (Qle_bool w MOBILE_BREAKPOINT) w (keys gd) d)
    as [[]|e] eqn:Hl; [|discriminate].
  cbn [snd doc isMobile].
  pose proof (proj1 (loop_completes _ _ _ _ _) Hl) as Hall.
  rewrite (calls_complete _ _ _ _ _ Hall).
  pose proof (prop_in_keys gd key m Hp) as Hin.
  destruct (call_completes _ _ _ _ _ (Hall key Hin)) as [He _].
  exists (snd (Draw TERMS (Qle_bool w MOBILE_BREAKPOINT) (config_of gd w key))),
    (yAxis_of (Qle_bool w MOBILE_BREAKPOINT) w m),
    (yTickValues (Qle_bool w MOBILE_BREAKPOINT) a).
  split; [now apply chart_of_redraws_own|].
  split; [now apply y_axis_drawn|].
  split; [unfold yAxis_of, with_ticks; now rewrite Ht|].
  unfold draw, config_of. cbn [data width]. rewrite Hp, Ht. cbn [snd].
  split.
  - intros Hw. apply Qle_bool_iff in Hw. change 600%Q with MOBILE_BREAKPOINT in Hw.
    rewrite Hw. cbn [isMobile].
    split; [reflexivity|]. split; [reflexivity|]. split; [|reflexivity].
    unfold root_of, chartHeight_of, height_of, aspectRatio, margins.
    cbn [svg_height top bottom]. field.
  - intros Hw.
    assert (Hb : Qle_bool w MOBILE_BREAKPOINT = false).
    { destruct (Qle_bool w MOBILE_BREAKPOINT) eqn:E; [|reflexivity].
      apply Qle_bool_iff in E. exfalso. exact (Qlt_not_le _ _ Hw E). }
    rewrite Hb. cbn [isMobile].
    split; [reflexivity|]. split; [reflexivity|]. split.
    + unfold root_of, chartHeight_of, height_of, aspectRatio, margins.
      cbn [svg_height top bottom]. field.
    + unfold yTickValues. now rewrite !length_map.
Qed.

(** C6, as the code has it. When the call for one metric throws, here for a
    metric without [ticks] under a key that makes a selector, the pass ends
    with that exception: the metrics enumerated before it have their
    charts, no call is made for a metric enumerated after it, whose
    container keeps its content, and the parent frame is not told. The
    keys are ids of no element around the wrappers, so that each selects in
    its own wrapper. *)
Theorem render_stops_at_failure (w : Q) (s : state) (before after : list string)
    (key : string) (m : Metric) :
  keys (graphicData s) = before ++ key :: after ->
  (forall k, In k before ->
     exists_in (ChartOf k) (doc s) = true
     /\ exists mk a, prop (graphicData s) k = Some mk /\ m_ticks mk = TicksArray a) ->
  prop (graphicData s) key = Some m ->
  m_ticks m = TicksUndefined \/ m_ticks m = TicksNull ->
  identifier key = true ->
  (forall k, In k (before ++ [key]) -> ~ In k (enclosing (doc s))) ->
  let s' := snd (Render w s) in
  fst (Render w s) = Throw TicksNoLength
  /\ added (Render w) s =
     map (fun k => CallRenderGraphic (ChartOf k)) (before ++ [key])
  /\ (forall k, In k before ->
        chart_of (ChartOf k) (doc s') =
        Some (snd (Draw TERMS (Qle_bool w MOBILE_BREAKPOINT)
                     (config_of (graphicData s) w k))))
  /\ (forall k, ~ In k before -> k <> key -> ~ In k (enclosing (doc s)) ->
        chart_of (ChartOf k) (doc s') = chart_of (ChartOf k) (doc s)).
Proof.
  intros Hk Hb Hp Ht Hi Hown. cbv zeta.
  destruct s as [gd mob d tr rb]. cbn [graphicData doc] in *.
  pose proof (render_pass w gd mob d tr rb) as HP. cbv zeta in HP.
  destruct (loop_stops gd (Qle_bool w MOBILE_BREAKPOINT) w before after key
              TicksNoLength d) as [Hl Hc].
  { intros k Hin. destruct (Hb k Hin) as [He [mk [a [Hpk Htk]]]].
    now apply call_result_ok with (m := mk) (a := a). }
  { now apply call_result_no_ticks with (m := m). }
  rewrite Hk, Hl, Hc in HP. rewrite HP. cbn [fst snd doc].
  split; [reflexivity|]. split; [|split].
  - apply added_events. rewrite HP. reflexivity.
  - intros k Hin. apply chart_of_redraws_own.
    + exact Hown.
    + apply in_or_app. now left.
    + now destruct (Hb k Hin).
  - intros k Hout Hne Hk'. apply chart_of_redraws_other; [exact Hown | exact Hk' |].
    intros Hin. apply in_app_or in Hin. destruct Hin as [Hin|[Hin|[]]]; congruence.
Qed.

(** C7, as the code has it. A render pass calls [renderGraphic] for the keys
    of the dataset in the order the dataset enumerates them, up to the
    first call that throws, whose exception ends the pass, and for all of
    them when every call completes, each call having the result it has at
    the start of the pass; [DISPLAY_ORDER] is the order in which [makeHTML]
    appends the chart wrappers to the page. *)
Theorem render_order (w : Q) (s : state) :
  let start :=
    mkState (graphicData s) (Qle_bool w MOBILE_BREAKPOINT) (doc s) (trace s)
      (resize_bound s) in
  let call := fun k => fst (RenderGraphic (config_of (graphicData s) w k) start) in
  let events := map (fun k => CallRenderGraphic (ChartOf k)) in
  (forall before key after e,
     keys (graphicData s) = before ++ key :: after ->
     (forall k, In k before -> call k = Ok tt) ->
     word key = true ->
     call key = Throw e ->
     fst (Render w s) = Throw e
     /\ added (Render w) s = events (before ++ [key]))
  /\ ((forall k, In k (keys (graphicData s)) -> call k = Ok tt) ->
      fst (Render w s) = Ok tt)
  /\ (fst (Render w s) = Ok tt ->
      (forall k, In k (keys (graphicData s)) -> call k = Ok tt)
      /\ added (Render w) s = events (keys (graphicData s)) ++ [CallFmResize])
  /\ (exists n,
        added (Render w) s =
        events (firstn n (keys (graphicData s)))
        ++ match fst (Render w s) with
           | Ok _ => [CallFmResize]
           | Throw _ => []
           end)
  /\ ((forall k, In k DISPLAY_ORDER -> prop (graphicData s) k <> None) ->
      fst (makeHTML s) = Ok tt
      /\ map w_id (wrappers (doc (snd (makeHTML s)))) =
         map w_id (wrappers (doc s)) ++ DISPLAY_ORDER).
Proof.
  destruct s as [gd mob d tr rb]. intros start call events.
  cbn [graphicData doc trace resize_bound] in *.
  pose proof (render_pass w gd mob d tr rb) as HP. cbv zeta in HP.
  assert (Hcall : forall k, call k = CallResult gd (Qle_bool w MOBILE_BREAKPOINT) w d k).
  { intros k. apply call_at_start. }
  split; [|split; [|split; [|split]]].
  - intros before key after e Hk Hb _ He.
    destruct (loop_stops gd (Qle_bool w MOBILE_BREAKPOINT) w before after key e d)
      as [Hl Hc].
    { intros k Hin. rewrite <- Hcall. now apply Hb. }
    { now rewrite <- Hcall. }
    rewrite Hk, Hl, Hc in HP. split; [now rewrite HP|].
    apply added_events. now rewrite HP.
  - intros Hall. rewrite HP.
    assert (Hl : LoopResult gd (Qle_bool w MOBILE_BREAKPOINT) w (keys gd) d = Ok tt).
    { apply loop_completes. intros k Hin. rewrite <- Hcall. now apply Hall. }
    now rewrite Hl.
  - intros Hok. rewrite HP in Hok.
    destruct (LoopResult gd (Qle_bool w MOBILE_BREAKPOINT) w (keys gd) d)
      as [[]|e] eqn:Hl; [|discriminate].
    pose proof (proj1 (loop_completes _ _ _ _ _) Hl) as Hall.
    split; [intros k Hin; rewrite Hcall; now apply Hall|].
    apply added_events. rewrite HP. cbn [snd trace].
    now rewrite (calls_complete _ _ _ _ _ Hall), app_assoc.
  - destruct (calls_prefix gd (Qle_bool w MOBILE_BREAKPOINT) w (keys gd) d) as [n Hn].
    exists n. apply added_events. rewrite HP. unfold events. rewrite <- Hn.
    destruct (LoopResult gd (Qle_bool w MOBILE_BREAKPOINT) w (keys gd) d) as [[]|e];
      cbn [fst snd trace]; [now rewrite app_assoc | now rewrite app_nil_r].
  - intros Hall. unfold makeHTML.
    rewrite (makeHTML_loop DISPLAY_ORDER gd mob d tr rb Hall).
    cbn [fst snd doc wrappers]. split; [reflexivity|].
    now rewrite map_app, map_w_id_wrapper_for.
Qed.

(** C8. Two calls of [onResize] in a row at one measured width leave the
    document the first call left, and a container a pass has drawn in holds
    one graphic, whatever it held before: the container is emptied before
    the graphic is appended to it, so nothing is drawn twice. The keys of
    the dataset are made of name characters. *)
Theorem resize_idempotent (w : Q) (s : state) :
  Forall (fun k => word k = true) (keys (graphicData s)) ->
  doc (snd (OnResize w (snd (OnResize w s)))) = doc (snd (OnResize w s))
  /\ (forall key,
        In (CallRenderGraphic (ChartOf key)) (added (OnResize w) s) ->
        exists_in (ChartOf key) (doc s) = true ->
        exists g, charts_in (ChartOf key) (doc (snd (OnResize w s))) = [ g ]).
Proof.
  intros _. destruct s as [gd mob d tr rb]. unfold onResize.
  pose proof (render_pass w gd mob d tr rb) as HP. cbv zeta in HP.
  set (mob' := Qle_bool w MOBILE_BREAKPOINT) in *.
  set (called := Calls gd mob' w (keys gd) d) in *.
  set (d' := fold_left (Redraw gd mob' w) called d) in *.
  assert (Hsame : forall sel, target sel d' = target sel d).
  { intros sel. apply target_redraws. }
  assert (Hagain : forall tr1,
            doc (snd (Render w (mkState gd mob' d' tr1 rb))) = d').
  { intros tr1.
    pose proof (render_pass w gd mob' d' tr1 rb) as HQ. cbv zeta in HQ.
    fold mob' in HQ. rewrite (calls_same gd mob' mob' w w (keys gd) d d' Hsame) in HQ.
    fold called in HQ.
    rewrite HQ.
    destruct (LoopResult gd mob' w (keys gd) d'); cbn [snd doc];
      apply redraws_over. }
  split.
  - rewrite HP.
    destruct (LoopResult gd mob' w (keys gd) d); cbn [snd]; rewrite Hagain; reflexivity.
  - intros key Hin He.
    assert (Hcalled : In key called).
    { rewrite (render_events w gd mob d tr rb) in Hin. fold mob' called in Hin.
      apply in_app_or in Hin. destruct Hin as [Hin|Hin].
      - apply in_map_iff in Hin. destruct Hin as [k [[= ->] Hk]]. exact Hk.
      - destruct (LoopResult gd mob' w (keys gd) d); [|destruct Hin].
        destruct Hin as [Hin|[]]. discriminate. }
    cbn [doc] in He. unfold exists_in in He.
    destruct (target (ChartOf key) d) as [j|] eqn:Ht; [|discriminate].
    destruct (last_for_some d j called key Hcalled Ht) as [k Hk].
    exists (snd (Draw TERMS mob' (config_of gd w k))).
    rewrite (render_doc w gd mob d tr rb). fold mob' called.
    now rewrite (charts_in_redraws gd mob' w called d key j Ht), Hk.
Qed.

End Calls.

(** ** The table of terms *)

(** A month index of 12 is January of the following year. *)
Lemma december_overflow (y d : Z) :
  100 <= y -> Date y 12 d = Date (y + 1) 0 d.
Proof.
  intros Hy. unfold Date, MakeDay. cbv zeta.
  destruct ((0 <=? y) && (y <=? 99)) eqn:E1; [lia|].
  destruct ((0 <=? y + 1) && (y + 1 <=? 99)) eqn:E2; [lia|].
  change (12 / 12) with 1. change (12 mod 12) with 0.
  change (0 / 12) with 0. change (0 mod 12) with 0.
  replace (y + 1 + 0) with (y + 1) by lia. reflexivity.
Qed.

(** C10. With the 0-based months of [Date], every term of [TERMS] ends on
    January 31 of the year after the one written; each term starts before it
    ends, each term ends before the next one starts, the first term starts
    at [MIN_DATE], which is 2000-02-01, and the last one ends on 2021-01-31,
    the day before [MAX_DATE]. *)
Theorem terms_dates :
  map (fun t => civil (end_ t)) TERMS =
    [ (2001, 1, 31); (2009, 1, 31); (2017, 1, 31); (2021, 1, 31) ]
  /\ map end_ TERMS =
     [ Date 2001 0 31; Date 2009 0 31; Date 2017 0 31; Date 2021 0 31 ]
  /\ Forall (fun t => start t < end_ t) TERMS
  /\ (forall i a b,
        nth_error TERMS i = Some a -> nth_error TERMS (S i) = Some b ->
        end_ a < start b)
  /\ option_map start (hd_error TERMS) = Some MIN_DATE
  /\ civil MIN_DATE = (2000, 2, 1)
  /\ option_map (fun t => civil (end_ t)) (nth_error TERMS 3) = Some (2021, 1, 31)
  /\ option_map (fun t => end_ t + 1) (nth_error TERMS 3) = Some MAX_DATE
  /\ List.length TERMS = 4%nat.
Proof.
  split; [reflexivity|]. split; [reflexivity|].
  split; [repeat constructor|].
  split; [|repeat split].
  intros i a b Ha Hb.
  destruct i as [|[|[|[|i]]]]; cbn in Ha, Hb;
    try discriminate;
    injection Ha as <-; injection Hb as <-; reflexivity.
Qed.

(** ** The statements on sample pages *)

Lemma keys_outside (l ids : list string) :
  forallb (fun k => negb (existsb (String.eqb k) ids)) l = true ->
  forall k, In k l -> ~ In k ids.
Proof.
  intros H k Hin Hk. rewrite forallb_forall in H. specialize (H k Hin).
  apply negb_true_iff in H.
  assert (Ht : existsb (String.eqb k) ids = true); [|congruence].
  apply existsb_exists. exists k. split; [exact Hk | apply String.eqb_refl].
Qed.

Lemma words_of (l : list string) :
  forallb word l = true -> Forall (fun k => word k = true) l.
Proof. intros H. apply Forall_forall. now apply forallb_forall. Qed.

Lemma xScale_domain_fixed_witness :
  let config := config_of sample_data 940 "gdp" in
  let s := scaffolded sample_data in
  data config = Some (sample_metric "gdp" five_ticks)
  /\ exists_in (container config) (doc s) = true
  /\ exists g xAxis,
       chart_of (container config)
         (doc (snd (renderGraphicWith sample_classify sample_translate sample_length
                      TERMS config s))) = Some g
       /\ axis_drawn "x axis" g = Some xAxis
       /\ a_scale xAxis =
          OfTime (mkTimeScale (0%Q, chartWidth_of (width config)) (MIN_DATE, MAX_DATE))
       /\ civil MIN_DATE = (2000, 2, 1)
       /\ civil MAX_DATE = (2021, 2, 1).
Proof.
  intros config s.
  split; [reflexivity|]. split; [reflexivity|].
  apply (xScale_domain_fixed sample_classify sample_translate sample_length TERMS
           config (sample_metric "gdp" five_ticks) s); reflexivity.
Defined.

Lemma breakpoint_layout_witness :
  let s := scaffolded sample_data in
  let m := sample_metric "gdp" five_ticks in
  let s' := snd (render sample_classify sample_translate sample_length 480 s) in
  prop (graphicData s) "gdp" = Some m
  /\ m_ticks m = five_ticks
  /\ (forall k, In k (keys (graphicData s)) -> ~ In k (enclosing (doc s)))
  /\ fst (render sample_classify sample_translate sample_length 480 s) = Ok tt
  /\ (480 <= 600)%Q
  /\ exists g yAxis ticks,
       chart_of (ChartOf "gdp") (doc s') = Some g
       /\ axis_drawn "y axis" g = Some yAxis
       /\ a_tickValues yAxis = Some ticks
       /\ isMobile s' = true
       /\ (svg_height g == 480 / 2.5)%Q
       /\ List.length ticks = 3%nat.
Proof.
  intros s m s'.
  assert (Hw : (480 <= 600)%Q) by (vm_compute; discriminate).
  assert (Hown : forall k, In k (keys (graphicData s)) -> ~ In k (enclosing (doc s)))
    by (apply keys_outside; vm_compute; reflexivity).
  split; [reflexivity|]. split; [reflexivity|]. split; [exact Hown|].
  split; [vm_compute; reflexivity|]. split; [exact Hw|].
  destruct (breakpoint_layout sample_classify sample_translate sample_length 480 s
              "gdp" m [-4; -2; 0; 2; 4]%Q)
    as [g [yAxis [ticks [Hg [Ha [Ht [Hnarrow _]]]]]]];
    [reflexivity | reflexivity | reflexivity | exact Hown | vm_compute; reflexivity |].
  destruct (Hnarrow Hw) as [Hm [_ [Hh Hl]]].
  exists g, yAxis, ticks. repeat split; assumption.
Defined.

Lemma tick_label_sign_witness :
  let m := sample_metric "gdp" five_ticks in
  let format := apply_format (a_tickFormat (yAxis_of true 480 m)) in
  m_ticks m = five_ticks
  /\ m_show_plus m = true
  /\ label_text (format (TickNum 4)) = "+4"%string
  /\ label_text (format (TickNum (-2))) = "-2"%string
  /\ label_text (format (TickNum 0)) = "0"%string.
Proof.
  intros m format.
  split; [reflexivity|]. split; [reflexivity|].
  destruct (tick_label_sign true 480 m [-4; -2; 0; 2; 4]%Q 4 eq_refl)
    as [_ [Hplus _]].
  destruct (tick_label_sign true 480 m [-4; -2; 0; 2; 4]%Q (-2) eq_refl)
    as [Hminus _].
  destruct (tick_label_sign true 480 m [-4; -2; 0; 2; 4]%Q 0 eq_refl)
    as [Hzero _].
  assert (H4 : (0 < 4)%Q) by reflexivity.
  assert (H2 : (-2 <= 0)%Q) by (vm_compute; discriminate).
  assert (H0 : (0 <= 0)%Q) by (vm_compute; discriminate).
  subst format. cbv zeta in Hplus, Hminus, Hzero.
  rewrite (Hplus H4 eq_refl), (Hminus H2), (Hzero H0).
  repeat split; reflexivity.
Defined.

Lemma thinning_never_fails_witness :
  let config := config_of short_data 480 "gdp" in
  let s := loaded short_data 480 in
  data config = Some (sample_metric "gdp" (TicksArray [1; 2]%Q))
  /\ (List.length [1; 2]%Q < 5)%nat
  /\ isMobile s = true
  /\ exists_in (container config) (doc s) = true
  /\ fst (renderGraphicWith sample_classify sample_translate sample_length TERMS
            config s) = Ok tt
  /\ exists g yAxis,
       chart_of (container config)
         (doc (snd (renderGraphicWith sample_classify sample_translate sample_length
                      TERMS config s))) = Some g
       /\ axis_drawn "y axis" g = Some yAxis
       /\ a_tickValues yAxis = Some [ TickNum 1; TickUndefined; TickUndefined ].
Proof.
  intros config s.
  split; [reflexivity|]. split; [cbn; lia|].
  split; [vm_compute; reflexivity|]. split; [vm_compute; reflexivity|].
  apply (thinning_never_fails sample_classify sample_translate sample_length TERMS
           config (sample_metric "gdp" (TicksArray [1; 2]%Q)) [1; 2]%Q s);
    [reflexivity | reflexivity | cbn; lia | vm_compute; reflexivity
    | vm_compute; reflexivity].
Defined.

(** C4, as stated, fails: on a narrow viewport a metric with two tick values
    is rendered without an error, with two [undefined] tick values. *)
Lemma thinning_fails_loudly_counterexample :
  let s := scaffolded short_data in
  let s' := snd (render sample_classify sample_translate sample_length 480 s) in
  prop (graphicData s) "gdp" = Some (sample_metric "gdp" (TicksArray [1; 2]%Q))
  /\ (480 <= MOBILE_BREAKPOINT)%Q
  /\ fst (render sample_classify sample_translate sample_length 480 s) = Ok tt
  /\ option_map (fun g => option_map a_tickValues (axis_drawn "y axis" g))
       (chart_of (ChartOf "gdp") (doc s')) =
     Some (Some (Some [ TickNum 1; TickUndefined; TickUndefined ])).
Proof.
  intros s s'.
  split; [reflexivity|]. split; [vm_compute; discriminate|].
  split; vm_compute; reflexivity.
Qed.


Lemma render_stops_at_failure_witness :
  let s := scaffolded broken_data in
  let s' := snd (render sample_classify sample_translate sample_length 940 s) in
  keys (graphicData s) =
    [ "gdp"%string ] ++ "unemployment"%string
    :: [ "labor"; "poverty"; "trade"; "stocks"; "wages"; "budget"; "debt" ]%string
  /\ prop (graphicData s) "unemployment" =
     Some (sample_metric "unemployment" TicksUndefined)
  /\ identifier "unemployment" = true
  /\ fst (render sample_classify sample_translate sample_length 940 s) =
     Throw TicksNoLength
  /\ added (render sample_classify sample_translate sample_length 940) s =
     [ CallRenderGraphic (ChartOf "gdp"); CallRenderGraphic (ChartOf "unemployment") ]
  /\ chart_of (ChartOf "debt") (doc s') = chart_of (ChartOf "debt") (doc s).
Proof.
  intros s s'.
  split; [reflexivity|]. split; [reflexivity|]. split; [reflexivity|].
  destruct (render_stops_at_failure sample_classify sample_translate sample_length
              940 s [ "gdp"%string ]
              [ "labor"; "poverty"; "trade"; "stocks"; "wages"; "budget"; "debt" ]%string
              "unemployment" (sample_metric "unemployment" TicksUndefined))
    as [Hthrow [Hcalls [_ Hkept]]].
  - reflexivity.
  - intros k [<-|[]]. split; [reflexivity|].
    exists (sample_metric "gdp" five_ticks), [-4; -2; 0; 2; 4]%Q. split; reflexivity.
  - reflexivity.
  - left. reflexivity.
  - reflexivity.
  - apply keys_outside. vm_compute. reflexivity.
  - split; [exact Hthrow|]. split; [exact Hcalls|].
    apply Hkept;
      [intros [H|[]]; discriminate | discriminate
      | apply (keys_outside [ "debt"%string ]); [vm_compute; reflexivity | now left]].
Defined.

(** C6, as stated, fails: [unemployment] has no [ticks]; its call throws and
    the pass ends there, so that [debt], which renders without error when it
    is called, gets no chart. *)
Lemma failure_isolated_counterexample :
  let s := scaffolded broken_data in
  let s' := snd (render sample_classify sample_translate sample_length 940 s) in
  fst (render sample_classify sample_translate sample_length 940 s) =
    Throw TicksNoLength
  /\ fst (renderGraphic sample_classify sample_translate sample_length
            (config_of broken_data 940 "debt") s) = Ok tt
  /\ exists_in (ChartOf "debt") (doc s') = true
  /\ charts_in (ChartOf "debt") (doc s') = []
  /\ ~ In CallFmResize (trace s').
Proof.
  intros s s'.
  split; [vm_compute; reflexivity|]. split; [vm_compute; reflexivity|].
  split; [vm_compute; reflexivity|]. split; [vm_compute; reflexivity|].
  vm_compute. intros [H|[H|[]]]; discriminate.
Qed.

Lemma render_order_witness :
  let s := scaffolded broken_data in
  let r := scaffolded reversed_data in
  let s0 := snd (set_graphicData reversed_data initial) in
  let R := render sample_classify sample_translate sample_length 940 in
  keys (graphicData s) =
    [ "gdp"%string ] ++ "unemployment"%string
    :: [ "labor"; "poverty"; "trade"; "stocks"; "wages"; "budget"; "debt" ]%string
  /\ fst (R s) = Throw TicksNoLength
  /\ added R s =
     [ CallRenderGraphic (ChartOf "gdp"); CallRenderGraphic (ChartOf "unemployment") ]
  /\ fst (R r) = Ok tt
  /\ added R r =
     map (fun k => CallRenderGraphic (ChartOf k)) (keys reversed_data) ++ [ CallFmResize ]
  /\ keys reversed_data = rev DISPLAY_ORDER
  /\ (forall k, In k DISPLAY_ORDER -> prop (graphicData s0) k <> None)
  /\ fst (makeHTML s0) = Ok tt
  /\ map w_id (wrappers (doc (snd (makeHTML s0)))) = DISPLAY_ORDER.
Proof.
  intros s r s0 R.
  destruct (render_order sample_classify sample_translate sample_length 940 s)
    as [Hstop _].
  destruct (render_order sample_classify sample_translate sample_length 940 r)
    as [_ [Hall [Hcomplete _]]].
  destruct (render_order sample_classify sample_translate sample_length 940 s0)
    as [_ [_ [_ [_ Hpage]]]].
  cbv zeta in Hstop, Hall, Hcomplete.
  destruct (Hstop [ "gdp"%string ] "unemployment"%string
              [ "labor"; "poverty"; "trade"; "stocks"; "wages"; "budget"; "debt" ]%string
              TicksNoLength)
    as [Hthrow Hcalls];
    [reflexivity | intros k [<-|[]]; vm_compute; reflexivity | reflexivity
    | vm_compute; reflexivity |].
  assert (Hok : fst (R r) = Ok tt).
  { apply Hall. intros k Hin. cbn in Hin.
    repeat (destruct Hin as [<-|Hin]; [vm_compute; reflexivity|]).
    destruct Hin. }
  assert (Hkeys : forall k, In k DISPLAY_ORDER -> prop (graphicData s0) k <> None).
  { intros k Hin. cbn in Hin.
    repeat (destruct Hin as [<-|Hin]; [vm_compute; discriminate|]).
    destruct Hin. }
  split; [reflexivity|]. split; [exact Hthrow|]. split; [exact Hcalls|].
  split; [exact Hok|]. split; [exact (proj2 (Hcomplete Hok))|]. split; [reflexivity|].
  split; [exact Hkeys|]. exact (Hpage Hkeys).
Defined.

(** C7, as stated, fails: the calls follow the enumeration of the dataset,
    here the reverse of [DISPLAY_ORDER], and a key that is not in
    [DISPLAY_ORDER] gets its call too. *)
Lemma display_order_counterexample :
  let R := render sample_classify sample_translate sample_length 940 in
  (forall k, In k DISPLAY_ORDER <-> In k (keys reversed_data))
  /\ added R (scaffolded reversed_data) =
     map (fun k => CallRenderGraphic (ChartOf k)) (rev DISPLAY_ORDER) ++ [ CallFmResize ]
  /\ rev DISPLAY_ORDER <> DISPLAY_ORDER
  /\ ~ In "inflation"%string DISPLAY_ORDER
  /\ In (CallRenderGraphic (ChartOf "inflation")) (added R (scaffolded extended_data)).
Proof.
  intros R.
  split.
  { intros k. unfold reversed_data, keys. rewrite map_rev, <- in_rev.
    unfold sample_data. rewrite map_map. cbn [fst]. now rewrite map_id. }
  split; [vm_compute; reflexivity|].
  split; [vm_compute; discriminate|].
  split.
  - vm_compute. intuition discriminate.
  - vm_compute. do 9 right. left. reflexivity.
Qed.

Lemma resize_idempotent_witness :
  let R := onResize sample_classify sample_translate sample_length in
  let s := loaded sample_data 940 in
  Forall (fun k => word k = true) (keys (graphicData s))
  /\ List.length (charts_in (ChartOf "gdp") (doc s)) = 1%nat
  /\ doc (snd (R 480%Q (snd (R 480%Q s)))) = doc (snd (R 480%Q s))
  /\ doc (snd (R 480%Q s)) <> doc s
  /\ exists g, charts_in (ChartOf "gdp") (doc (snd (R 480%Q s))) = [ g ].
Proof.
  intros R s.
  assert (Hw : Forall (fun k => word k = true) (keys (graphicData s)))
    by (apply words_of; vm_compute; reflexivity).
  destruct (resize_idempotent sample_classify sample_translate sample_length 480 s Hw)
    as [Hsame Hone].
  split; [exact Hw|]. split; [vm_compute; reflexivity|]. split; [exact Hsame|].
  split; [vm_compute; discriminate|].
  apply Hone; [vm_compute; now left | vm_compute; reflexivity].
Defined.

Lemma missing_ticks_throw_witness :
  let config := config_of broken_data 940 "unemployment" in
  let m := sample_metric "unemployment" TicksUndefined in
  let s := scaffolded broken_data in
  data config = Some m
  /\ m_ticks m = TicksUndefined
  /\ valid (container config) = true
  /\ fst (renderGraphicWith sample_classify sample_translate sample_length TERMS
            config s) = Throw TicksNoLength
  /\ with_ticks false m (orient "left" (d3_svg_axis (OfLinear (yScale_of false 940 m)))) =
     orient "left" (d3_svg_axis (OfLinear (yScale_of false 940 m))).
Proof.
  intros config m s.
  split; [reflexivity|]. split; [reflexivity|]. split; [reflexivity|].
  destruct (missing_ticks_throw sample_classify sample_translate sample_length TERMS
              config m s) as [Hthrow [Hguard _]];
    [reflexivity | left; reflexivity | reflexivity |].
  split; [exact Hthrow | apply Hguard].
Defined.

(** * Further properties *)

Section More.

Variable classify : string -> string.
Variable makeTranslate : Q -> Q -> string.
Variable getComputedTextLength : string -> Q.

Local Abbreviation RenderGraphicWith :=
  (renderGraphicWith classify makeTranslate getComputedTextLength).
Local Abbreviation RenderGraphic :=
  (renderGraphic classify makeTranslate getComputedTextLength).
Local Abbreviation Render := (render classify makeTranslate getComputedTextLength).
Local Abbreviation OnResize := (onResize classify makeTranslate getComputedTextLength).
Local Abbreviation Init := (init classify makeTranslate getComputedTextLength).
Local Abbreviation Draw := (draw classify makeTranslate getComputedTextLength).
Local Abbreviation Redraw := (redraw classify makeTranslate getComputedTextLength).
Local Abbreviation CallResult := (call_result classify makeTranslate getComputedTextLength).
Local Abbreviation Calls := (calls classify makeTranslate getComputedTextLength).
Local Abbreviation LoopResult := (loop_result classify makeTranslate getComputedTextLength).

(** ** What a call leaves alone *)

Lemma chartless_with_charts f (w : wrapper) : chartless (with_charts f w) = chartless w.
Proof. destruct w as [i [|h d c s]]; reflexivity. Qed.

Lemma chartless_update (i : nat) f (d : document) :
  map chartless (wrappers (update_chart i f d)) = map chartless (wrappers d).
Proof.
  unfold update_chart. cbn [wrappers]. apply map_update_nth.
  intros w. apply chartless_with_charts.
Qed.

Lemma chartless_id (w : wrapper) : w_id (chartless w) = w_id w.
Proof. destruct w as [i [|h d c s]]; reflexivity. Qed.

Lemma ids_of_chartless (ws : list wrapper) : map w_id (map chartless ws) = map w_id ws.
Proof.
  rewrite map_map. apply map_ext. intros w. apply chartless_id.
Qed.

(** The state a call leaves: a write in the container its selector
    selects, or no write at all. *)
Lemma state_after_call (terms : list Term) (config : Config) gd mob d tr rb :
  snd (RenderGraphicWith terms config (mkState gd mob d tr rb)) =
  mkState gd mob
    match target (container config) d with
    | Some i => update_chart i (fun _ => [ snd (Draw terms mob config) ]) d
    | None => d
    end
    (tr ++ [CallRenderGraphic (container config)]) rb.
Proof.
  destruct (target (container config) d) as [i|] eqn:Ht.
  - now rewrite (renderGraphicWith_at classify makeTranslate getComputedTextLength
                   terms config gd mob d tr rb i Ht).
  - destruct (valid (container config)) eqn:Hv.
    + rewrite result_without_element; [reflexivity | exact Hv |].
      unfold exists_in. cbn [doc]. now rewrite Ht.
    + now rewrite result_without_selector.
Qed.

(** X1. A call writes in the chart container its selector selects and
    nowhere else: the wrapper of every other container is as it was, every
    wrapper keeps its id, heading, description and source line, every
    selector selects the element it selected, and the dataset, [isMobile]
    and the resize binding are as before. The key is made of name
    characters. *)
Theorem call_writes_its_container_only (terms : list Term) (config : Config)
    (s : state) :
  word (key_of (container config)) = true ->
  let s' := snd (RenderGraphicWith terms config s) in
  around (doc s') = around (doc s)
  /\ (forall j, target (container config) (doc s) <> Some j ->
        nth_error (wrappers (doc s')) j = nth_error (wrappers (doc s)) j)
  /\ map chartless (wrappers (doc s')) = map chartless (wrappers (doc s))
  /\ (forall sel, target sel (doc s') = target sel (doc s))
  /\ (forall sel,
        target sel (doc s) <> target (container config) (doc s) ->
        charts_in sel (doc s') = charts_in sel (doc s))
  /\ graphicData s' = graphicData s
  /\ isMobile s' = isMobile s
  /\ resize_bound s' = resize_bound s
  /\ trace s' = trace s ++ [CallRenderGraphic (container config)].
Proof.
  intros _. destruct s as [gd mob d tr rb]. cbv zeta.
  rewrite state_after_call. cbn [doc graphicData isMobile resize_bound trace].
  destruct (target (container config) d) as [i|] eqn:Ht.
  - split; [reflexivity|]. split; [|split; [|split; [|split]]];
      try (repeat split; fail).
    + intros j Hne. unfold update_chart. cbn [wrappers].
      rewrite nth_error_update_nth.
      destruct (Nat.eqb i j) eqn:E; [|reflexivity].
      apply Nat.eqb_eq in E. congruence.
    + apply chartless_update.
    + intros sel. apply target_update.
    + intros sel Hne. unfold charts_in. rewrite target_update.
      destruct (target sel d) as [j|]; [|reflexivity].
      apply charts_at_update_other. congruence.
  - repeat split.
Qed.

(** X2. A call made with a string that selects no element writes nothing in
    the document and always throws: at [d3.select], a [SyntaxError], when
    the string is no selector; otherwise at [label[0][0]] when the metric
    has its tick values, at the length of [ticks] or at [config['data']]
    before that. The key is made of name characters. *)
Theorem call_without_container (terms : list Term) (config : Config) (s : state) :
  word (key_of (container config)) = true ->
  exists_in (container config) (doc s) = false ->
  doc (snd (RenderGraphicWith terms config s)) = doc s
  /\ (valid (container config) = false ->
      fst (RenderGraphicWith terms config s) = Throw SyntaxError)
  /\ (valid (container config) = true ->
      fst (RenderGraphicWith terms config s) = Throw (missing_exn config)
      /\ (forall m a, data config = Some m -> m_ticks m = TicksArray a ->
            fst (RenderGraphicWith terms config s) = Throw LabelNull)).
Proof.
  intros Hw He. split; [|split].
  - destruct s as [gd mob d tr rb]. rewrite state_after_call. cbn [doc] in *.
    unfold exists_in in He. now destruct (target (container config) d).
  - intros Hv. rewrite result_without_selector by exact Hv. now rewrite Hw.
  - intros Hv. rewrite result_without_element by assumption. cbn [fst].
    split; [reflexivity|]. intros m a Hd Ht. unfold missing_exn. now rewrite Hd, Ht.
Qed.

(** X3. A call whose configuration has no data throws at
    [config['data']['min']], after it has emptied the container and
    appended the [svg]: the chart that was there is gone and an empty one of
    the size of the new width is left. *)
Theorem call_without_data (terms : list Term) (config : Config) (s : state) :
  data config = None ->
  exists_in (container config) (doc s) = true ->
  fst (RenderGraphicWith terms config s) = Throw DataUndefined
  /\ chart_of (container config) (doc (snd (RenderGraphicWith terms config s))) =
     Some (root_of (isMobile s) (width config) []).
Proof.
  intros Hd He. split.
  - rewrite result_of_call by exact He. unfold draw. now rewrite Hd.
  - rewrite chart_after_call by exact He. unfold draw. now rewrite Hd.
Qed.

(** ** The label *)

Lemma class_after_rects (c : string) (terms : list Term) (mob : bool) (w : Q)
    (rest : list node) (g : graphic) :
  (forall s, String.eqb ("president " ++ s) c = false) ->
  g_children g = rects_of classify terms mob w ++ rest ->
  child_of_class c g = find (has_class c) rest.
Proof.
  intros Hc Hg. unfold child_of_class. rewrite Hg. unfold rects_of.
  now apply find_after_rects.
Qed.

Lemma xScale_at_MIN_DATE (w : Q) : (apply_time (xScale_of w) MIN_DATE == 0)%Q.
Proof. rewrite apply_time_xScale. field. Qed.

Lemma xScale_at_MAX_DATE (w : Q) :
  (apply_time (xScale_of w) MAX_DATE == chartWidth_of w)%Q.
Proof.
  rewrite apply_time_xScale.
  change (inject_Z MAX_DATE) with (18659 # 1).
  change (inject_Z MIN_DATE) with (10988 # 1).
  field.
Qed.

(** X4. In a finished chart the label and its bubble sit at [x = -9]
    whatever the width, the label at the height of the last tick value with
    the text of the metric's label, the bubble 10 wider than the measured
    text. *)
Theorem label_anchor (terms : list Term) (config : Config) (m : Metric)
    (a : list Q) (s : state) :
  data config = Some m ->
  m_ticks m = TicksArray a ->
  exists_in (container config) (doc s) = true ->
  exists g bubble label x,
    chart_of (container config) (doc (snd (RenderGraphicWith terms config s))) = Some g
    /\ child_of_class "label-bubble" g = Some bubble
    /\ child_of_class "label" g = Some label
    /\ attr_of "x" bubble = Some (ANum (Num x))
    /\ attr_of "x" label = Some (ANum (Num x))
    /\ (x == -9)%Q
    /\ attr_of "width" bubble =
       Some (ANum (Num (getComputedTextLength (m_label m) + 10)%Q))
    /\ attr_of "y" label =
       Some (ANum (apply_linear (yScale_of (isMobile s) (width config) m) (last_of a)))
    /\ text_of label = Some (m_label m).
Proof.
  intros Hd Ht He.
  exists (snd (Draw terms (isMobile s) config)).
  unfold draw. rewrite Hd, Ht. cbn [snd].
  eexists. eexists. eexists.
  split; [rewrite chart_after_call by exact He; unfold draw; now rewrite Hd, Ht|].
  split.
  { erewrite class_after_rects; [|reflexivity|reflexivity]. reflexivity. }
  split.
  { erewrite class_after_rects; [|reflexivity|reflexivity]. reflexivity. }
  split; [reflexivity|]. split; [reflexivity|].
  split; [rewrite xScale_at_MIN_DATE; reflexivity|].
  repeat split.
Qed.

(** X5. A metric whose [ticks] is an empty array passes the guard and is
    drawn without error: the vertical axis gets no tick value on a wide
    viewport and three [undefined] ones on a narrow one, and the label is
    placed at [NaN]. *)
Theorem empty_ticks_drawn (terms : list Term) (config : Config) (m : Metric)
    (s : state) :
  data config = Some m ->
  m_ticks m = TicksArray [] ->
  exists_in (container config) (doc s) = true ->
  fst (RenderGraphicWith terms config s) = Ok tt
  /\ exists g yAxis label,
       chart_of (container config) (doc (snd (RenderGraphicWith terms config s))) = Some g
       /\ axis_drawn "y axis" g = Some yAxis
       /\ a_tickValues yAxis =
          Some (if isMobile s then [ TickUndefined; TickUndefined; TickUndefined ]
                else [])
       /\ child_of_class "label" g = Some label
       /\ attr_of "y" label = Some (ANum NaN).
Proof.
  intros Hd Ht He. split.
  - rewrite result_of_call by exact He. unfold draw. now rewrite Hd, Ht.
  - exists (snd (Draw terms (isMobile s) config)),
      (yAxis_of (isMobile s) (width config) m).
    eexists.
    split; [now apply chart_after_call|].
    split; [now apply y_axis_drawn|].
    split.
    { unfold yAxis_of, with_ticks. rewrite Ht. now destruct (isMobile s). }
    unfold draw. rewrite Hd, Ht. cbn [snd].
    split.
    { erewrite class_after_rects; [|reflexivity|reflexivity]. reflexivity. }
    reflexivity.
Qed.

(** ** Scales and geometry *)

Lemma xScale_increasing (w : Q) (t1 t2 : date) :
  (0 < chartWidth_of w)%Q -> t1 < t2 ->
  (apply_time (xScale_of w) t1 < apply_time (xScale_of w) t2)%Q.
Proof.
  intros Hw Hlt. rewrite !apply_time_xScale.
  apply Qmult_lt_l; [exact Hw|].
  change (inject_Z MIN_DATE) with (10988 # 1).
  unfold Qdiv, Qlt, Qmult, Qinv, Qminus, Qplus, Qopp, inject_Z. cbn. lia.
Qed.

Lemma xScale_sorted (w : Q) (l : list date) :
  (0 < chartWidth_of w)%Q ->
  StronglySorted Z.lt l ->
  StronglySorted Qlt (map (apply_time (xScale_of w)) l).
Proof.
  intros Hw Hs. induction Hs as [|t l Hs IH Hall]; cbn [map]; constructor.
  - exact IH.
  - rewrite Forall_forall in *. intros x Hx.
    apply in_map_iff in Hx. destruct Hx as [t' [<- Hin]].
    apply xScale_increasing; [exact Hw | now apply Hall].
Qed.

(** X6. The horizontal scale sends [MIN_DATE] to 0 and [MAX_DATE] to
    [chartWidth]; on a chart of positive width it is strictly increasing and
    does not clamp: a date before [MIN_DATE] lands left of 0 and a date
    after [MAX_DATE] right of [chartWidth]. *)
Theorem xScale_linear (w : Q) :
  (apply_time (xScale_of w) MIN_DATE == 0)%Q
  /\ (apply_time (xScale_of w) MAX_DATE == chartWidth_of w)%Q
  /\ ((0 < chartWidth_of w)%Q ->
      (forall t1 t2, t1 < t2 ->
         (apply_time (xScale_of w) t1 < apply_time (xScale_of w) t2)%Q)
      /\ (forall t, t < MIN_DATE -> (apply_time (xScale_of w) t < 0)%Q)
      /\ (forall t, MAX_DATE < t -> (chartWidth_of w < apply_time (xScale_of w) t)%Q)).
Proof.
  split; [apply xScale_at_MIN_DATE|]. split; [apply xScale_at_MAX_DATE|].
  intros Hw. split; [|split].
  - intros t1 t2. now apply xScale_increasing.
  - intros t Ht. rewrite <- (xScale_at_MIN_DATE w). now apply xScale_increasing.
  - intros t Ht. rewrite <- (xScale_at_MAX_DATE w) at 1. now apply xScale_increasing.
Qed.

(** X7. On a chart of positive width the four shaded bands start at 0, each
    one has its left edge before its right edge, ends before the next one
    starts and the last one ends before [chartWidth]: they never overlap and
    never leave the plot. *)
Theorem bands_disjoint (w : Q) :
  (0 < chartWidth_of w)%Q ->
  let x := apply_time (xScale_of w) in
  (exists t, hd_error TERMS = Some t /\ (x (start t) == 0)%Q)
  /\ Forall (fun t => (0 <= x (start t))%Q /\ (x (start t) < x (end_ t))%Q
                      /\ (x (end_ t) < chartWidth_of w)%Q) TERMS
  /\ (forall i a b,
        nth_error TERMS i = Some a -> nth_error TERMS (S i) = Some b ->
        (x (end_ a) < x (start b))%Q).
Proof.
  intros Hw x.
  assert (Hinc : forall t1 t2, t1 < t2 -> (x t1 < x t2)%Q)
    by (intros; now apply xScale_increasing).
  assert (H0 : (x MIN_DATE == 0)%Q) by apply xScale_at_MIN_DATE.
  assert (H1 : (x MAX_DATE == chartWidth_of w)%Q) by apply xScale_at_MAX_DATE.
  split; [|split].
  - eexists. split; [reflexivity|]. exact H0.
  - repeat constructor; cbn [start end_];
      try (rewrite <- H0; apply Qlt_le_weak, Hinc; reflexivity);
      try (rewrite <- H1; apply Hinc; reflexivity);
      try (apply Hinc; reflexivity).
    rewrite <- H0. apply Qle_refl.
  - intros i a b Ha Hb.
    destruct i as [|[|[|[|i]]]]; cbn in Ha, Hb; try discriminate;
      injection Ha as <-; injection Hb as <-; apply Hinc; reflexivity.
Qed.

Lemma interpolate_proper (d0 d1 r0 r1 x : Q) :
  ~ (d0 == d1)%Q ->
  (interpolate d0 d1 r0 r1 x == r0 + (r1 - r0) * ((x - d0) / (d1 - d0)))%Q.
Proof.
  intros Hne. unfold interpolate.
  destruct (Qeq_bool d0 d1) eqn:E.
  - apply Qeq_bool_iff in E. contradiction.
  - ring.
Qed.

Lemma yScale_value (mob : bool) (w : Q) (m : Metric) (v : Q) :
  (m_min m < m_max m)%Q ->
  (interpolate (m_min m) (m_max m) (chartHeight_of mob w) 0 v ==
   chartHeight_of mob w * ((m_max m - v) / (m_max m - m_min m)))%Q.
Proof.
  intros Hlt.
  assert (Hne : ~ (m_min m == m_max m)%Q).
  { intros E. rewrite E in Hlt. exact (Qlt_irrefl _ Hlt). }
  rewrite interpolate_proper by exact Hne.
  field. intros E. apply Hne. symmetry. 
  setoid_replace (m_max m) with (m_max m - m_min m + m_min m)%Q by ring.
  rewrite E. ring.
Qed.

(** X8. For a metric with [min < max] on a chart of positive height, the
    vertical scale is inverted: [min] is at [chartHeight], [max] at 0, a
    larger value is higher on the screen; [undefined] goes to [NaN]. *)
Theorem yScale_inverted (mob : bool) (w : Q) (m : Metric) :
  (m_min m < m_max m)%Q ->
  (0 < chartHeight_of mob w)%Q ->
  let y := fun v => interpolate (m_min m) (m_max m) (chartHeight_of mob w) 0 v in
  (forall v, apply_linear (yScale_of mob w m) (Some v) = Num (y v))
  /\ apply_linear (yScale_of mob w m) None = NaN
  /\ (y (m_min m) == chartHeight_of mob w)%Q
  /\ (y (m_max m) == 0)%Q
  /\ (forall v1 v2, (v1 < v2)%Q -> (y v2 < y v1)%Q).
Proof.
  intros Hlt Hh y.
  assert (Hd : (0 < m_max m - m_min m)%Q).
  { apply Qlt_minus_iff in Hlt. setoid_replace (m_max m - m_min m)%Q
      with (m_max m + - m_min m)%Q by ring. exact Hlt. }
  assert (Hne : ~ (m_max m - m_min m == 0)%Q).
  { intros E. rewrite E in Hd. exact (Qlt_irrefl _ Hd). }
  split; [reflexivity|]. split; [reflexivity|]. subst y. cbv beta.
  split; [|split].
  - rewrite yScale_value by exact Hlt. field. exact Hne.
  - rewrite yScale_value by exact Hlt. field. exact Hne.
  - intros v1 v2 Hv. rewrite !yScale_value by exact Hlt.
    apply Qmult_lt_l; [exact Hh|].
    unfold Qdiv. apply Qmult_lt_compat_r; [now apply Qinv_lt_0_compat|].
    apply Qplus_lt_r. now apply Qopp_lt_compat.
Qed.

(** X9. A metric whose [min] and [max] are equal is drawn all the same:
    the vertical scale sends every value to [chartHeight], so the line is
    flat on the bottom edge whatever its values. *)
Theorem flat_domain (terms : list Term) (config : Config) (m : Metric) (s : state) :
  data config = Some m ->
  (m_min m == m_max m)%Q ->
  exists_in (container config) (doc s) = true ->
  (forall v, apply_linear (yScale_of (isMobile s) (width config) m) (Some v) =
             Num (chartHeight_of (isMobile s) (width config)))
  /\ exists g pts,
       chart_of (container config) (doc (snd (RenderGraphicWith terms config s))) = Some g
       /\ path_drawn g = Some pts
       /\ map snd pts =
          map (fun _ => Num (chartHeight_of (isMobile s) (width config))) (m_data m).
Proof.
  intros Hd Heq He.
  assert (Hflat : forall v,
            apply_linear (yScale_of (isMobile s) (width config) m) (Some v) =
            Num (chartHeight_of (isMobile s) (width config))).
  { intros v. unfold apply_linear, yScale_of, interpolate. cbn [l_domain l_range fst snd].
    apply Qeq_bool_iff in Heq. now rewrite Heq. }
  split; [exact Hflat|].
  exists (snd (Draw terms (isMobile s) config)). eexists.
  split; [now apply chart_after_call|].
  unfold draw. rewrite Hd.
  split.
  - destruct (m_ticks m); cbn [snd]; unfold path_drawn;
      (erewrite class_after_rects; [|reflexivity|reflexivity]); reflexivity.
  - rewrite map_map. apply map_ext. intros d. cbn [snd]. apply Hflat.
Qed.

(** X10. The line of a chart has one point for each point of the data, in
    the order of the data, at the scaled date and value; for data in
    strictly increasing date order on a chart of positive width its
    x-coordinates are strictly increasing. *)
Theorem line_follows_data (terms : list Term) (config : Config) (m : Metric)
    (s : state) :
  data config = Some m ->
  exists_in (container config) (doc s) = true ->
  exists g pts,
    chart_of (container config) (doc (snd (RenderGraphicWith terms config s))) = Some g
    /\ path_drawn g = Some pts
    /\ pts =
       map (fun d =>
              (apply_time (xScale_of (width config)) (p_date d),
               apply_linear (yScale_of (isMobile s) (width config) m)
                 (Some (p_value d))))
         (m_data m)
    /\ List.length pts = List.length (m_data m)
    /\ ((0 < chartWidth_of (width config))%Q ->
        StronglySorted Z.lt (map p_date (m_data m)) ->
        StronglySorted Qlt (map fst pts)).
Proof.
  intros Hd He.
  exists (snd (Draw terms (isMobile s) config)). eexists.
  split; [now apply chart_after_call|].
  unfold draw. rewrite Hd.
  split.
  { destruct (m_ticks m); cbn [snd]; unfold path_drawn;
      (erewrite class_after_rects; [|reflexivity|reflexivity]); reflexivity. }
  split; [reflexivity|]. split; [apply length_map|].
  intros Hw Hs. rewrite map_map. cbn [fst].
  rewrite <- (map_map p_date (apply_time (xScale_of (width config)))).
  now apply xScale_sorted.
Qed.

(** X11. The horizontal axis is the same in every chart, narrow or wide:
    six tick values, labelled with the years 2000, 2004, ..., 2020, the
    first one at 0 and, on a chart of positive width, at strictly increasing
    positions that stay left of [chartWidth]. *)
Theorem x_axis_ticks (terms : list Term) (config : Config) (m : Metric) (s : state) :
  data config = Some m ->
  exists_in (container config) (doc s) = true ->
  exists g xAxis,
    chart_of (container config) (doc (snd (RenderGraphicWith terms config s))) = Some g
    /\ axis_drawn "x axis" g = Some xAxis
    /\ a_tickValues xAxis = Some (map TickDate TICK_VALUES)
    /\ map label_text (tick_labels xAxis) =
       [ "2000"; "2004"; "2008"; "2012"; "2016"; "2020" ]%string
    /\ ((0 < chartWidth_of (width config))%Q ->
        StronglySorted Qlt (map (apply_time (xScale_of (width config))) TICK_VALUES)
        /\ Forall (fun t => (0 <= apply_time (xScale_of (width config)) t)%Q
                            /\ (apply_time (xScale_of (width config)) t
                                < chartWidth_of (width config))%Q)
             TICK_VALUES).
Proof.
  intros Hd He.
  exists (snd (Draw terms (isMobile s) config)), (xAxis_of (width config)).
  split; [now apply chart_after_call|].
  split; [now apply x_axis_drawn with (m := m)|].
  split; [reflexivity|]. split; [reflexivity|].
  intros Hw. split.
  - apply xScale_sorted; [exact Hw|].
    repeat constructor.
  - rewrite Forall_forall. intros t Hin. split.
    + rewrite <- (xScale_at_MIN_DATE (width config)).
      cbn in Hin. repeat (destruct Hin as [<-|Hin]; [|]);
        try (apply Qle_refl);
        try (apply Qlt_le_weak, xScale_increasing; [exact Hw | reflexivity]).
      destruct Hin.
    + rewrite <- (xScale_at_MAX_DATE (width config)) at 1.
      apply xScale_increasing; [exact Hw|].
      cbn in Hin. repeat (destruct Hin as [<-|Hin]; [reflexivity|]). destruct Hin.
Qed.

Lemma Qlt_0_minus (a b : Q) : (0 < b - a)%Q <-> (a < b)%Q.
Proof. rewrite (Qlt_minus_iff a b). reflexivity. Qed.

Lemma Qpos_scale (x c : Q) : (0 < c)%Q -> ((0 < x * c)%Q <-> (0 < x)%Q).
Proof.
  intros Hc. split; intros H.
  - assert (Hne : ~ (c == 0)%Q).
    { intros E. rewrite E in Hc. exact (Qlt_irrefl _ Hc). }
    setoid_replace x with (x * c * / c)%Q by (field; exact Hne).
    apply Qmult_lt_0_compat; [exact H | now apply Qinv_lt_0_compat].
  - now apply Qmult_lt_0_compat.
Qed.

Lemma with_ticks_scale (mob : bool) (m : Metric) (yAxis : axis) :
  a_scale (with_ticks mob m yAxis) = a_scale yAxis.
Proof. unfold with_ticks. now destruct (m_ticks m). Qed.

(** X12. A call draws for any width, with no guard on small ones: the
    [svg] is as wide as the width and [width / aspectRatio] high, the
    horizontal scale ranges over [width - 70] and the vertical one over
    [width / aspectRatio - 40], which are not positive for a width up to 70
    and, on a narrow viewport, up to 100. *)
Theorem chart_dimensions (terms : list Term) (config : Config) (m : Metric)
    (s : state) :
  data config = Some m ->
  exists_in (container config) (doc s) = true ->
  let w := width config in
  exists g xAxis yAxis cw ch,
    chart_of (container config) (doc (snd (RenderGraphicWith terms config s))) = Some g
    /\ (svg_width g == w)%Q
    /\ (svg_height g == w / aspectRatio (isMobile s))%Q
    /\ axis_drawn "x axis" g = Some xAxis
    /\ axis_drawn "y axis" g = Some yAxis
    /\ a_scale xAxis = OfTime (mkTimeScale (0%Q, cw) (MIN_DATE, MAX_DATE))
    /\ a_scale yAxis = OfLinear (mkLinearScale (ch, 0%Q) (m_min m, m_max m))
    /\ (cw == w - 70)%Q
    /\ (ch == w / aspectRatio (isMobile s) - 40)%Q
    /\ ((0 < cw)%Q <-> (70 < w)%Q)
    /\ (isMobile s = true -> ((0 < ch)%Q <-> (100 < w)%Q))
    /\ (isMobile s = false -> ((0 < ch)%Q <-> (200 < w)%Q)).
Proof.
  intros Hd He. cbv zeta.
  assert (Hx : axis_drawn "x axis" (snd (Draw terms (isMobile s) config)) =
               Some (xAxis_of (width config)))
    by now apply x_axis_drawn with (m := m).
  assert (Hy : axis_drawn "y axis" (snd (Draw terms (isMobile s) config)) =
               Some (yAxis_of (isMobile s) (width config) m))
    by now apply y_axis_drawn.
  assert (Hroot : exists children,
            snd (Draw terms (isMobile s) config) =
            root_of (isMobile s) (width config) children).
  { unfold draw. rewrite Hd. destruct (m_ticks m); eexists; reflexivity. }
  destruct Hroot as [children Hroot].
  remember (width config) as w eqn:Hw.
  exists (snd (Draw terms (isMobile s) config)), (xAxis_of w),
    (yAxis_of (isMobile s) w m), (chartWidth_of w), (chartHeight_of (isMobile s) w).
  split; [now apply chart_after_call|].
  assert (Hcw : (chartWidth_of w == w - 70)%Q).
  { unfold chartWidth_of, margins. cbn [left right]. ring. }
  assert (Hch : (chartHeight_of (isMobile s) w == w / aspectRatio (isMobile s) - 40)%Q).
  { unfold chartHeight_of, height_of, margins. cbn [top bottom].
    generalize (w / aspectRatio (isMobile s))%Q. intros h. ring. }
  split.
  { rewrite Hroot. unfold root_of. cbn [svg_width].
    unfold chartWidth_of, margins. cbn [left right]. ring. }
  split.
  { rewrite Hroot. unfold root_of. cbn [svg_height].
    unfold chartHeight_of, height_of, margins. cbn [top bottom].
    generalize (w / aspectRatio (isMobile s))%Q. intros h. ring. }
  split; [exact Hx|].
  split; [exact Hy|].
  split; [reflexivity|].
  split; [unfold yAxis_of; now rewrite with_ticks_scale|].
  split; [exact Hcw|]. split; [exact Hch|].
  split; [|split].
  - rewrite Hcw. apply Qlt_0_minus.
  - intros Hm. rewrite Hch, Hm. unfold aspectRatio.
    setoid_replace (w / (2.5 / 1) - 40)%Q with ((w - 100) * (2 # 5))%Q by field.
    rewrite Qpos_scale by reflexivity. apply Qlt_0_minus.
  - intros Hm. rewrite Hch, Hm. unfold aspectRatio.
    setoid_replace (w / (5 / 1) - 40)%Q with ((w - 200) * (1 # 5))%Q by field.
    rewrite Qpos_scale by reflexivity. apply Qlt_0_minus.
Qed.

(** X13. On a narrow viewport a list of five or more tick values is thinned
    to its entries 0, 2 and 4, none of them [undefined]; on a wide one the
    axis gets the whole list. The label is placed from the whole list in
    both, so that with exactly five tick values it sits at the last tick
    drawn. *)
Theorem thinning_of_long_lists (terms : list Term) (config : Config) (m : Metric)
    (a : list Q) (s : state) :
  data config = Some m ->
  m_ticks m = TicksArray a ->
  (5 <= List.length a)%nat ->
  exists_in (container config) (doc s) = true ->
  exists g yAxis,
    chart_of (container config) (doc (snd (RenderGraphicWith terms config s))) = Some g
    /\ axis_drawn "y axis" g = Some yAxis
    /\ (isMobile s = true ->
        a_tickValues yAxis =
        Some [ TickNum (nth 0 a 0%Q); TickNum (nth 2 a 0%Q); TickNum (nth 4 a 0%Q) ])
    /\ (isMobile s = false -> a_tickValues yAxis = Some (map TickNum a))
    /\ (List.length a = 5%nat -> last_of a = Some (nth 4 a 0%Q)).
Proof.
  intros Hd Ht Hlen He.
  exists (snd (Draw terms (isMobile s) config)), (yAxis_of (isMobile s) (width config) m).
  split; [now apply chart_after_call|].
  split; [now apply y_axis_drawn|].
  unfold yAxis_of, with_ticks. rewrite Ht.
  cbn [tickFormat tickValues a_tickValues].
  split; [|split].
  - intros ->. unfold yTickValues, index. cbn [map].
    rewrite !(nth_error_nth' a 0%Q) by lia. reflexivity.
  - intros ->. unfold yTickValues. rewrite map_map. reflexivity.
  - intros H5. unfold last_of, index. rewrite H5.
    apply nth_error_nth'. lia.
Qed.

(** ** Passes *)

Lemma key_has_metric {V : Type} (obj : object V) (key : string) :
  In key (keys obj) -> exists v, prop obj key = Some v.
Proof.
  induction obj as [|[k x] obj IH]; cbn; [tauto|].
  destruct (String.eqb k key) eqn:E; [now exists x|].
  intros [->|Hin]; [|now apply IH].
  now rewrite String.eqb_refl in E.
Qed.

(** The result of the call for a key of the dataset made of name
    characters. *)
Lemma call_result_of_key gd mob w d key :
  In key (keys gd) -> word key = true ->
  CallResult gd mob w d key =
  if identifier key then
    if has_ticks gd key then
      if exists_in (ChartOf key) d then Ok tt else Throw LabelNull
    else Throw TicksNoLength
  else Throw SyntaxError.
Proof.
  intros Hin Hw. destruct (key_has_metric gd key Hin) as [m Hp].
  unfold call_result, exists_in, draw, missing_exn, has_ticks, config_of. cbn [data].
  rewrite Hp, Hw. destruct (identifier key); [|reflexivity].
  destruct (target (ChartOf key) d), (m_ticks m); reflexivity.
Qed.

Lemma loop_result_throws gd mob w (l : list string) d e :
  LoopResult gd mob w l d = Throw e ->
  exists key, In key l /\ CallResult gd mob w d key = Throw e.
Proof.
  revert d. induction l as [|k l IH]; intros d; cbn [loop_result]; [discriminate|].
  destruct (CallResult gd mob w d k) as [[]|e'] eqn:Hr.
  - intros H. destruct (IH _ H) as [key [Hin Hc]].
    exists key. split; [now right|].
    rewrite <- Hc. symmetry.
    apply (call_result_same classify makeTranslate getComputedTextLength).
    apply target_redraw.
  - intros H. injection H as <-. exists k. split; [now left | exact Hr].
Qed.

Lemma has_ticks_result gd mob w (key : string) :
  has_ticks gd key = true -> fst (Draw TERMS mob (config_of gd w key)) = Ok tt.
Proof.
  unfold has_ticks, draw, config_of. cbn [data].
  destruct (prop gd key) as [m|]; [|discriminate]. now destruct (m_ticks m).
Qed.

Lemma call_result_fine gd mob w d key :
  exists_in (ChartOf key) d = true -> has_ticks gd key = true ->
  CallResult gd mob w d key = Ok tt.
Proof.
  intros He Ht. unfold call_result.
  pose proof (exists_in_valid _ _ He) as Hv. unfold valid in Hv. cbn [key_of] in Hv.
  rewrite Hv. unfold exists_in in He.
  destruct (target (ChartOf key) d); [|discriminate].
  now apply has_ticks_result.
Qed.

(** X14. A render pass completes when every key of the dataset selects a
    chart container and has a metric with an array of tick values. The
    first key for which this fails, when it is made of name characters,
    decides the exception of the pass: a [SyntaxError] at [d3.select] when
    it makes no selector, the [TypeError] at the length of [ticks] when
    [ticks] is [undefined] or [null], and the one at [label[0][0]] when the
    metric has its array of tick values and the selector selects no
    element. *)
Theorem render_result (w : Q) (s : state) :
  let fine := fun k =>
    exists_in (ChartOf k) (doc s) = true /\ has_ticks (graphicData s) k = true in
  ((forall key, In key (keys (graphicData s)) -> fine key) ->
   fst (Render w s) = Ok tt)
  /\ (forall before key after,
        keys (graphicData s) = before ++ key :: after ->
        (forall k, In k before -> fine k) ->
        word key = true ->
        (identifier key = false -> fst (Render w s) = Throw SyntaxError)
        /\ (identifier key = true ->
            (exists m, prop (graphicData s) key = Some m
                       /\ (m_ticks m = TicksUndefined \/ m_ticks m = TicksNull)) ->
            fst (Render w s) = Throw TicksNoLength)
        /\ (identifier key = true ->
            has_ticks (graphicData s) key = true ->
            exists_in (ChartOf key) (doc s) = false ->
            fst (Render w s) = Throw LabelNull)).
Proof.
  destruct s as [gd mob d tr rb]. intros fine. subst fine.
  cbn [graphicData doc]. rewrite pass_result.
  set (mob' := Qle_bool w MOBILE_BREAKPOINT) in *.
  split.
  - intros Hall. apply loop_completes. intros key Hin.
    destruct (Hall key Hin). now apply call_result_fine.
  - intros before key after Hk Hb Hw.
    assert (Hin : In key (keys gd)) by (rewrite Hk; apply in_elt).
    assert (Hstop : forall e, CallResult gd mob' w d key = Throw e ->
                              LoopResult gd mob' w (keys gd) d = Throw e).
    { intros e He. rewrite Hk.
      apply (loop_stops classify makeTranslate getComputedTextLength);
        [|exact He].
      intros k Hkb. destruct (Hb k Hkb). now apply call_result_fine. }
    pose proof (call_result_of_key gd mob' w d key Hin Hw) as Hc.
    split; [|split].
    + intros Hi. apply Hstop. now rewrite Hc, Hi.
    + intros Hi [m [Hp Ht]]. apply Hstop. rewrite Hc, Hi.
      unfold has_ticks. rewrite Hp. now destruct Ht as [Ht|Ht]; rewrite Ht.
    + intros Hi Ht He. apply Hstop. now rewrite Hc, Hi, Ht, He.
Qed.

Lemma chartless_redraws gd mob w (l : list string) d :
  map chartless (wrappers (fold_left (Redraw gd mob w) l d)) =
  map chartless (wrappers d).
Proof.
  revert d. induction l as [|k l IH]; intros d; cbn [fold_left]; [reflexivity|].
  rewrite IH. unfold redraw.
  destruct (target (ChartOf k) d); [apply chartless_update | reflexivity].
Qed.

Lemma calls_are_keys gd mob w (l : list string) d key :
  In key (Calls gd mob w l d) -> In key l.
Proof.
  destruct (calls_prefix classify makeTranslate getComputedTextLength gd mob w l d)
    as [n ->].
  revert n. induction l as [|k l IH]; intros [|n]; cbn; try tauto.
  intros [->|Hin]; [now left | right; now apply (IH n)].
Qed.

(** X15. A render pass, whether it completes or throws, sets [isMobile] by
    the measured width alone and leaves the dataset and the resize binding
    as they were; with keys made of name characters it leaves every wrapper
    with its heading and text, and every container that no key of the
    dataset selects, as they were: with keys that are ids of no element
    around the wrappers, the chart of every key that is not in the dataset;
    on an empty dataset it only tells the parent frame. *)
Theorem render_frame (w : Q) (s : state) :
  let s' := snd (Render w s) in
  (isMobile s' = true <-> (w <= 600)%Q)
  /\ graphicData s' = graphicData s
  /\ resize_bound s' = resize_bound s
  /\ (Forall (fun k => word k = true) (keys (graphicData s)) ->
      around (doc s') = around (doc s)
      /\ map chartless (wrappers (doc s')) = map chartless (wrappers (doc s))
      /\ (forall sel,
            (forall k, In k (keys (graphicData s)) ->
               target (ChartOf k) (doc s) = None
               \/ target (ChartOf k) (doc s) <> target sel (doc s)) ->
            chart_of sel (doc s') = chart_of sel (doc s))
      /\ (forall key,
            ~ In key (keys (graphicData s)) ->
            ~ In key (enclosing (doc s)) ->
            (forall k, In k (keys (graphicData s)) -> ~ In k (enclosing (doc s))) ->
            chart_of (ChartOf key) (doc s') = chart_of (ChartOf key) (doc s)))
  /\ (graphicData s = [] ->
      fst (Render w s) = Ok tt /\ doc s' = doc s
      /\ trace s' = trace s ++ [CallFmResize]).
Proof.
  destruct s as [gd mob d tr rb]. cbv zeta. cbn [graphicData doc resize_bound trace].
  destruct (render_rest classify makeTranslate getComputedTextLength w gd mob d tr rb)
    as [Hgd [Hmob Hrb]].
  rewrite render_doc.
  set (mob' := Qle_bool w MOBILE_BREAKPOINT) in *.
  split; [rewrite Hmob; apply Qle_bool_iff|].
  split; [exact Hgd|]. split; [exact Hrb|].
  split; [intros _; split; [|split; [|split]]|].
  - apply around_redraws.
  - apply chartless_redraws.
  - intros sel Hsel. unfold chart_of, charts_in. rewrite target_redraws.
    destruct (target sel d) as [j|] eqn:Ht; [|reflexivity].
    destruct (target_holds _ _ _ Ht) as [wr [Hw Hh]].
    rewrite (charts_at_redraws classify makeTranslate getComputedTextLength
               gd mob' w _ d j wr Hw Hh).
    rewrite last_for_none; [reflexivity|].
    intros k Hin Hk. apply calls_are_keys in Hin.
    destruct (Hsel k Hin) as [Hn|Hn]; congruence.
  - intros key Hout Hkey Hown. apply chart_of_redraws_other; [|exact Hkey|].
    + intros k Hin. apply Hown. now apply calls_are_keys in Hin.
    + intros Hin. apply Hout. now apply calls_are_keys in Hin.
  - intros ->.
    pose proof (render_pass classify makeTranslate getComputedTextLength
                  w [] mob d tr rb) as HP.
    cbv zeta in HP. rewrite HP. cbn. now rewrite app_nil_r.
Qed.

(** X16. After two calls of [onResize] at two measured widths, the
    document, [isMobile] and the result are those of the call at the second
    width alone: each container the first pass drew in is emptied by the
    second, and nothing of the first pass is left. The keys of the dataset
    are made of name characters. *)
Theorem last_resize_wins (w1 w2 : Q) (s : state) :
  Forall (fun k => word k = true) (keys (graphicData s)) ->
  let once := OnResize w2 s in
  let twice := OnResize w2 (snd (OnResize w1 s)) in
  doc (snd twice) = doc (snd once)
  /\ isMobile (snd twice) = isMobile (snd once)
  /\ fst twice = fst once.
Proof.
  intros _. destruct s as [gd mob d tr rb]. unfold onResize. cbv zeta.
  destruct (render_rest classify makeTranslate getComputedTextLength w1 gd mob d tr rb)
    as [Hgd [Hmob Hrb]].
  pose proof (render_doc classify makeTranslate getComputedTextLength w1 gd mob d tr rb)
    as Hdoc.
  destruct (snd (Render w1 (mkState gd mob d tr rb))) as [gd1 mob1 d1 tr1 rb1].
  cbn [graphicData isMobile resize_bound doc] in Hgd, Hmob, Hrb, Hdoc. subst gd1 rb1 d1.
  set (m1 := Qle_bool w1 MOBILE_BREAKPOINT) in *.
  set (m2 := Qle_bool w2 MOBILE_BREAKPOINT) in *.
  set (d1 := fold_left (Redraw gd m1 w1) (Calls gd m1 w1 (keys gd) d) d).
  assert (Hsame : forall sel, target sel d1 = target sel d)
    by (intros sel; apply target_redraws).
  split; [|split].
  - rewrite !render_doc. fold m2.
    rewrite (calls_same classify makeTranslate getComputedTextLength
               gd m2 m2 w2 w2 (keys gd) d d1 Hsame).
    unfold d1.
    rewrite (calls_same classify makeTranslate getComputedTextLength
               gd m2 m1 w2 w1 (keys gd) d d) by reflexivity.
    apply redraws_over.
  - destruct (render_rest classify makeTranslate getComputedTextLength
                w2 gd mob1 d1 tr1 rb) as [_ [-> _]].
    destruct (render_rest classify makeTranslate getComputedTextLength
                w2 gd mob d tr rb) as [_ [-> _]].
    reflexivity.
  - rewrite !pass_result. fold m2.
    now apply loop_result_same.
Qed.

(** X20. In a pass that completes, a chart container holds the drawing of
    the last key of the dataset whose selector selects it, whatever the
    wrapper it is in: a key that is the id of [#charts] or of an element
    around it is drawn in the first chart container of the page, over the
    chart of that wrapper's own key when it comes after it. *)
Theorem container_holds_last_drawing (w : Q) (s : state)
    (before after : list string) (key : string) (j : nat) :
  keys (graphicData s) = before ++ key :: after ->
  target (ChartOf key) (doc s) = Some j ->
  (forall k, In k after -> target (ChartOf k) (doc s) <> Some j) ->
  fst (Render w s) = Ok tt ->
  let s' := snd (Render w s) in
  (forall sel, target sel (doc s) = Some j ->
     charts_in sel (doc s') =
     [ snd (Draw TERMS (isMobile s') (config_of (graphicData s) w key)) ])
  /\ (In key (enclosing (doc s)) ->
      first_index holds_chart (wrappers (doc s)) = Some j).
Proof.
  intros Hk Ht Hafter Hok. cbv zeta.
  destruct s as [gd mob d tr rb]. cbn [graphicData doc] in *.
  destruct (render_rest classify makeTranslate getComputedTextLength w gd mob d tr rb)
    as [_ [Hmob _]].
  rewrite Hmob, render_doc. rewrite pass_result in Hok.
  set (mob' := Qle_bool w MOBILE_BREAKPOINT) in *.
  pose proof (proj1 (loop_completes classify makeTranslate getComputedTextLength
                       _ _ _ _ _) Hok) as Hall.
  rewrite (calls_complete classify makeTranslate getComputedTextLength _ _ _ _ _ Hall).
  split.
  - intros sel Hsel. unfold charts_in. rewrite target_redraws, Hsel.
    destruct (target_holds _ _ _ Hsel) as [wr [Hw Hh]].
    rewrite (charts_at_redraws classify makeTranslate getComputedTextLength
               gd mob' w _ d j wr Hw Hh).
    replace (last_for d j (keys gd)) with (Some key); [reflexivity|].
    symmetry. rewrite Hk. clear Hk Hall Hok.
    induction before as [|x before IH]; cbn [app last_for].
    + rewrite (last_for_none d j after Hafter), Ht, Nat.eqb_refl. reflexivity.
    + now rewrite IH.
  - intros Hin. unfold target in Ht.
    destruct (identifier key); [|discriminate].
    rewrite <- Ht. apply first_index_ext. intros wr. unfold matches.
    replace (existsb (String.eqb key) (enclosing d)) with true;
      [now rewrite orb_true_r, andb_true_r|].
    symmetry. apply existsb_exists. exists key. split; [exact Hin|].
    apply String.eqb_refl.
Qed.

(** ** Loading the page *)

Local Abbreviation append_wrappers l :=
  (forEach l (fun key =>
     graphicData <- gets graphicData ;;
     match prop graphicData key with
     | Some data =>
         append_wrapper
           (mkWrapper key
              (Full (m_metric data) (m_description data) [] (source_html data)))
     | None =>
         append_wrapper (mkWrapper key Partial) ;;
         throw MetricUndefined
     end)).

Lemma makeHTML_stops (before after : list string) (key : string) gd mob d tr rb :
  (forall k, In k before -> prop gd k <> None) ->
  prop gd key = None ->
  append_wrappers (before ++ key :: after) (mkState gd mob d tr rb) =
  (Throw MetricUndefined,
   mkState gd mob
     (mkDocument (around d) (wrappers d ++ map (wrapper_for gd) (before ++ [key])))
     tr rb).
Proof.
  revert d. induction before as [|k before IH]; intros d Hall Hk; cbn [app forEach map].
  - erewrite bind_throw.
    2:{ erewrite bind_ok by reflexivity. cbn [graphicData]. rewrite Hk.
        erewrite bind_ok by reflexivity. reflexivity. }
    unfold with_doc, wrapper_for. cbn [graphicData isMobile doc trace resize_bound].
    now rewrite Hk.
  - destruct (prop gd k) as [m|] eqn:Hp;
      [|exfalso; apply (Hall k); [now left | exact Hp]].
    erewrite bind_ok.
    2:{ erewrite bind_ok by reflexivity. cbn [graphicData]. rewrite Hp. reflexivity. }
    cbv beta. unfold with_doc. cbn [graphicData isMobile doc trace resize_bound].
    rewrite IH by (try (intros k' Hin; apply Hall; now right); exact Hk).
    cbn [around wrappers]. rewrite <- app_assoc. cbn [app].
    unfold wrapper_for at 2. rewrite Hp. reflexivity.
Qed.

Lemma first_index_absent {A : Type} (p : A -> bool) (l : list A) :
  (forall x, In x l -> p x = false) -> first_index p l = None.
Proof.
  induction l as [|x l IH]; intros H; cbn [first_index]; [reflexivity|].
  rewrite (H x) by now left. rewrite IH; [reflexivity|].
  intros y Hy. apply H. now right.
Qed.

Lemma first_index_present {A : Type} (p : A -> bool) (l : list A) (x : A) :
  In x l -> p x = true -> exists i, first_index p l = Some i.
Proof.
  intros Hin Hp. destruct (first_index p l) as [i|] eqn:E; [now exists i|].
  pose proof (first_index_none p l E x Hin). congruence.
Qed.

(** The wrappers [makeHTML] makes, in a page where #charts was empty. *)
Lemma wrapper_for_present gd (ids l : list string) (key : string) :
  In key l -> prop gd key <> None -> identifier key = true ->
  exists_in (ChartOf key) (mkDocument ids (map (wrapper_for gd) l)) = true.
Proof.
  intros Hin Hp Hi. unfold exists_in, target. rewrite Hi. cbn [wrappers].
  destruct (first_index_present
              (matches (mkDocument ids (map (wrapper_for gd) l)) (ChartOf key))
              (map (wrapper_for gd) l) (wrapper_for gd key)) as [i ->];
    [now apply in_map | | reflexivity].
  unfold matches, wrapper_for, holds_chart.
  destruct (prop gd key); [|contradiction].
  cbn [w_body w_id]. now rewrite String.eqb_refl.
Qed.

Lemma wrapper_for_absent gd (ids l : list string) (key : string) :
  ~ In key l -> ~ In key ("charts"%string :: ids) ->
  target (ChartOf key) (mkDocument ids (map (wrapper_for gd) l)) = None.
Proof.
  intros Hout Hids. unfold target. destruct (identifier key); [|reflexivity].
  cbn [wrappers]. apply first_index_absent. intros wr Hin.
  apply in_map_iff in Hin. destruct Hin as [k [<- Hk]].
  unfold matches. apply andb_false_iff. right. apply orb_false_iff. split.
  - apply String.eqb_neq. intros E.
    assert (Hid : w_id (wrapper_for gd k) = k)
      by (unfold wrapper_for; now destruct (prop gd k)).
    rewrite Hid in E. subst k. contradiction.
  - destruct (existsb (String.eqb key) (enclosing (mkDocument ids (map (wrapper_for gd) l))))
      eqn:E; [|reflexivity].
    apply existsb_exists in E. destruct E as [x [Hx He]].
    apply String.eqb_eq in He. subst x. contradiction.
Qed.

Lemma has_ticks_present gd (key : string) :
  has_ticks gd key = true -> prop gd key <> None.
Proof. unfold has_ticks. now destruct (prop gd key). Qed.

Lemma ids_after_redraws gd mob w (l : list string) d :
  map w_id (wrappers (fold_left (Redraw gd mob w) l d)) = map w_id (wrappers d).
Proof.
  now rewrite <- ids_of_chartless, chartless_redraws, ids_of_chartless.
Qed.

Lemma display_order_identifiers (key : string) :
  In key DISPLAY_ORDER -> identifier key = true /\ key <> "charts"%string.
Proof.
  intros Hin. cbn in Hin.
  repeat (destruct Hin as [<-|Hin]; [split; [reflexivity | discriminate]|]).
  destruct Hin.
Qed.

(** X17. When the dataset lacks a key of [DISPLAY_ORDER], [init] throws in
    [makeHTML] at the first such key: the keys before it have their
    wrappers, its own wrapper is left with an empty heading and no chart
    container, no wrapper follows, nothing is rendered, the parent frame is
    not told and the resize handler is not bound. *)
Theorem init_missing_metric (data : object Metric) (w : Q) (s : state)
    (before after : list string) (key : string) :
  DISPLAY_ORDER = before ++ key :: after ->
  (forall k, In k before -> prop data k <> None) ->
  prop data key = None ->
  let s' := snd (Init data w s) in
  fst (Init data w s) = Throw MetricUndefined
  /\ around (doc s') = around (doc s)
  /\ wrappers (doc s') =
     wrappers (doc s) ++ map (wrapper_for data) before ++ [ mkWrapper key Partial ]
  /\ Forall (fun wr => exists h d t, w_body wr = Full h d [] t)
       (map (wrapper_for data) before)
  /\ graphicData s' = data
  /\ trace s' = trace s
  /\ isMobile s' = isMobile s
  /\ resize_bound s' = resize_bound s.
Proof.
  intros Hsplit Hb Hk. cbv zeta. destruct s as [gd mob d tr rb].
  unfold init.
  erewrite bind_ok by reflexivity.
  cbn [graphicData isMobile doc trace resize_bound].
  erewrite bind_throw.
  2:{ unfold makeHTML. rewrite Hsplit. apply makeHTML_stops; assumption. }
  cbn [fst snd doc graphicData trace isMobile resize_bound around wrappers].
  split; [reflexivity|]. split; [reflexivity|]. split.
  { rewrite map_app. cbn [map]. unfold wrapper_for at 2. now rewrite Hk. }
  split; [|repeat split].
  rewrite Forall_forall. intros wr Hin. apply in_map_iff in Hin.
  destruct Hin as [k [<- Hin]]. unfold wrapper_for.
  destruct (prop data k) as [m|] eqn:Hp; [|exfalso; now apply (Hb k)].
  now eexists _, _, _.
Qed.

(** X18. On a dataset that has the keys of [DISPLAY_ORDER] and no other,
    each with an array of tick values, [init] completes from a page where
    [#charts] is empty and no element around it has the id of a chart
    wrapper: nine wrappers in [DISPLAY_ORDER], one chart drawn in each for
    the measured width, one call per key in the order of the dataset, the
    parent frame told once and the resize handler bound. *)
Theorem init_complete (data : object Metric) (w : Q) (ids : list string) :
  (forall key, In key DISPLAY_ORDER -> has_ticks data key = true) ->
  (forall key, In key (keys data) -> In key DISPLAY_ORDER) ->
  (forall key, In key DISPLAY_ORDER -> ~ In key ids) ->
  let s' := snd (Init data w (page ids)) in
  fst (Init data w (page ids)) = Ok tt
  /\ graphicData s' = data
  /\ resize_bound s' = true
  /\ (isMobile s' = true <-> (w <= 600)%Q)
  /\ around (doc s') = ids
  /\ map w_id (wrappers (doc s')) = DISPLAY_ORDER
  /\ (forall key, In key DISPLAY_ORDER ->
        chart_of (ChartOf key) (doc s') =
        Some (snd (Draw TERMS (isMobile s') (config_of data w key)))
        /\ fst (Draw TERMS (isMobile s') (config_of data w key)) = Ok tt)
  /\ trace s' =
     map (fun k => CallRenderGraphic (ChartOf k)) (keys data) ++ [ CallFmResize ].
Proof.
  intros Hall Hkeys Hids. cbv zeta. unfold init, page.
  erewrite bind_ok by reflexivity.
  cbn [graphicData isMobile doc trace resize_bound].
  erewrite bind_ok.
  2:{ unfold makeHTML. apply makeHTML_loop.
      intros k Hin. apply has_ticks_present. now apply Hall. }
  cbn [app around wrappers].
  set (d := mkDocument ids (map (wrapper_for data) DISPLAY_ORDER)).
  set (mob := Qle_bool w MOBILE_BREAKPOINT).
  assert (Hfine : forall key, In key (keys data) -> CallResult data mob w d key = Ok tt).
  { intros key Hin. apply call_result_fine.
    - apply wrapper_for_present; [now apply Hkeys | |].
      + apply has_ticks_present. apply Hall. now apply Hkeys.
      + now apply display_order_identifiers, Hkeys.
    - apply Hall. now apply Hkeys. }
  assert (Hloop : LoopResult data mob w (keys data) d = Ok tt)
    by now apply loop_completes.
  pose proof (calls_complete classify makeTranslate getComputedTextLength
                _ _ _ _ _ Hfine) as Hcalls.
  assert (Hown : forall k, In k (keys data) -> ~ In k (enclosing d)).
  { intros k Hin [E|E].
    - destruct (display_order_identifiers k (Hkeys k Hin)) as [_ Hne]. congruence.
    - now apply (Hids k (Hkeys k Hin)). }
  erewrite bind_ok.
  2:{ rewrite (render_pass classify makeTranslate getComputedTextLength w data false
                 d [] false).
      fold mob. rewrite Hloop, Hcalls. reflexivity. }
  cbn [fst snd doc graphicData trace isMobile resize_bound bind_resize modify app].
  split; [reflexivity|]. split; [reflexivity|]. split; [reflexivity|].
  split; [apply Qle_bool_iff|].
  split; [now rewrite around_redraws|].
  split; [rewrite ids_after_redraws; apply map_w_id_wrapper_for|].
  split; [|reflexivity].
  intros key Hin.
  assert (Hk : In key (keys data)).
  { pose proof (has_ticks_present data key (Hall key Hin)) as Hp.
    destruct (prop data key) as [m|] eqn:E; [|contradiction].
    now apply prop_in_keys with (v := m). }
  destruct (call_completes classify makeTranslate getComputedTextLength
              _ _ _ _ _ (Hfine key Hk)) as [He Hd].
  split; [now apply chart_of_redraws_own | exact Hd].
Qed.

(** X19. A key of the dataset that is not in [DISPLAY_ORDER], nor the id of
    [#charts] or of an element around it, stops [init]: [makeHTML] builds
    the nine wrappers, the first render pass throws, at that key or before
    it, no chart is drawn for the key, and the resize handler is never
    bound nor the parent frame told. The keys of the dataset are made of
    name characters. *)
Theorem init_extra_key (data : object Metric) (w : Q) (ids : list string)
    (key : string) :
  (forall k, In k DISPLAY_ORDER -> prop data k <> None) ->
  Forall (fun k => word k = true) (keys data) ->
  In key (keys data) ->
  ~ In key DISPLAY_ORDER ->
  ~ In key ("charts"%string :: ids) ->
  let s' := snd (Init data w (page ids)) in
  (exists e,
     fst (Init data w (page ids)) = Throw e
     /\ (e = SyntaxError \/ e = TicksNoLength \/ e = LabelNull))
  /\ map w_id (wrappers (doc s')) = DISPLAY_ORDER
  /\ exists_in (ChartOf key) (doc s') = false
  /\ resize_bound s' = false
  /\ ~ In CallFmResize (trace s').
Proof.
  intros Hall Hwords Hin Hout Hids. cbv zeta. unfold init, page.
  erewrite bind_ok by reflexivity.
  cbn [graphicData isMobile doc trace resize_bound].
  erewrite bind_ok by (unfold makeHTML; apply makeHTML_loop; exact Hall).
  cbn [app around wrappers].
  set (d := mkDocument ids (map (wrapper_for data) DISPLAY_ORDER)).
  set (mob := Qle_bool w MOBILE_BREAKPOINT).
  assert (Hmissing : target (ChartOf key) d = None)
    by now apply wrapper_for_absent.
  destruct (LoopResult data mob w (keys data) d) as [[]|e] eqn:Hloop.
  { pose proof (proj1 (loop_completes classify makeTranslate getComputedTextLength
                         _ _ _ _ _) Hloop key Hin) as Hc.
    destruct (call_completes classify makeTranslate getComputedTextLength
                _ _ _ _ _ Hc) as [He _].
    unfold exists_in in He. now rewrite Hmissing in He. }
  destruct (loop_result_throws _ _ _ _ _ _ Hloop) as [k [Hk Hc]].
  rewrite Forall_forall in Hwords.
  rewrite call_result_of_key in Hc by (try exact Hk; now apply Hwords).
  erewrite bind_throw.
  2:{ rewrite (render_pass classify makeTranslate getComputedTextLength w data false
                 d [] false).
      fold mob. rewrite Hloop. reflexivity. }
  cbn [fst snd doc graphicData trace isMobile resize_bound app].
  split.
  { exists e. split; [reflexivity|].
    destruct (identifier k); [|injection Hc as <-; now left].
    destruct (has_ticks data k); [|injection Hc as <-; right; now left].
    destruct (exists_in (ChartOf k) d); [discriminate|].
    injection Hc as <-. right. now right. }
  split; [rewrite ids_after_redraws; apply map_w_id_wrapper_for|].
  split.
  { unfold exists_in. now rewrite target_redraws, Hmissing. }
  split; [reflexivity|].
  intros Hfm. apply in_map_iff in Hfm. destruct Hfm as [x [Hx _]]. discriminate.
Qed.

(** X21. A call for a key that is the id of [#charts] or of an element
    around it, [charts] itself for one, selects the first chart container
    of the page, whatever the id of its wrapper, and draws there. *)
Theorem enclosing_key_selects_first (terms : list Term) (config : Config)
    (s : state) (key : string) (j : nat) :
  container config = ChartOf key ->
  identifier key = true ->
  In key (enclosing (doc s)) ->
  first_index holds_chart (wrappers (doc s)) = Some j ->
  target (container config) (doc s) = Some j
  /\ fst (RenderGraphicWith terms config s) = fst (Draw terms (isMobile s) config)
  /\ charts_at j (doc (snd (RenderGraphicWith terms config s))) =
     [ snd (Draw terms (isMobile s) config) ]
  /\ identifier "charts" = true
  /\ In "charts"%string (enclosing (doc s)).
Proof.
  intros Hc Hi Hin Hfirst.
  assert (Ht : target (container config) (doc s) = Some j).
  { rewrite Hc. unfold target. rewrite Hi, <- Hfirst.
    apply first_index_ext. intros wr. unfold matches.
    replace (existsb (String.eqb key) (enclosing (doc s))) with true;
      [now rewrite orb_true_r, andb_true_r|].
    symmetry. apply existsb_exists. exists key. split; [exact Hin|].
    apply String.eqb_refl. }
  assert (He : exists_in (container config) (doc s) = true)
    by (unfold exists_in; now rewrite Ht).
  split; [exact Ht|]. split; [now apply result_of_call|].
  split; [|split; [reflexivity | now left]].
  pose proof (charts_after_call classify makeTranslate getComputedTextLength
                terms config s He) as Hch.
  unfold charts_in in Hch.
  destruct s as [gd mob d tr rb]. cbn [doc isMobile] in *.
  rewrite state_after_call in Hch |- *. cbn [doc] in Hch |- *.
  rewrite Ht in Hch |- *. now rewrite target_update, Ht in Hch.
Qed.

End More.

(** ** The further statements on sample pages *)

Lemma call_writes_its_container_only_witness :
  let config := config_of sample_data 940 "gdp" in
  let s := loaded sample_data 940 in
  let s' := snd (renderGraphicWith sample_classify sample_translate sample_length
                   TERMS config s) in
  word (key_of (container config)) = true
  /\ target (ChartOf "debt") (doc s) <> target (container config) (doc s)
  /\ charts_in (ChartOf "debt") (doc s') = charts_in (ChartOf "debt") (doc s)
  /\ List.length (charts_in (ChartOf "debt") (doc s)) = 1%nat
  /\ nth_error (wrappers (doc s')) 8 = nth_error (wrappers (doc s)) 8
  /\ map chartless (wrappers (doc s')) = map chartless (wrappers (doc s)).
Proof.
  intros config s s'.
  assert (Hw : word (key_of (container config)) = true) by reflexivity.
  assert (Hne : target (ChartOf "debt") (doc s) <> target (container config) (doc s))
    by (vm_compute; discriminate).
  destruct (call_writes_its_container_only sample_classify sample_translate
              sample_length TERMS config s Hw) as [_ [Hwr [Hless [_ [Hother _]]]]].
  split; [exact Hw|]. split; [exact Hne|]. split; [exact (Hother _ Hne)|].
  split; [vm_compute; reflexivity|].
  split; [apply Hwr; vm_compute; discriminate | exact Hless].
Defined.

Lemma call_without_container_witness :
  let config := config_of extended_data 940 "inflation" in
  let s := scaffolded extended_data in
  let numbered := config_of numbered_data 940 "401k" in
  let t := scaffolded numbered_data in
  exists_in (container config) (doc s) = false
  /\ valid (container config) = true
  /\ data config = Some (sample_metric "inflation" five_ticks)
  /\ doc (snd (renderGraphicWith sample_classify sample_translate sample_length
                 TERMS config s)) = doc s
  /\ fst (renderGraphicWith sample_classify sample_translate sample_length
            TERMS config s) = Throw LabelNull
  /\ word "401k" = true
  /\ valid (container numbered) = false
  /\ doc (snd (renderGraphicWith sample_classify sample_translate sample_length
                 TERMS numbered t)) = doc t
  /\ fst (renderGraphicWith sample_classify sample_translate sample_length
            TERMS numbered t) = Throw SyntaxError.
Proof.
  intros config s numbered t.
  assert (He : exists_in (container config) (doc s) = false) by reflexivity.
  destruct (call_without_container sample_classify sample_translate sample_length
              TERMS config s eq_refl He) as [Hdoc [_ Hvalid]].
  destruct (Hvalid eq_refl) as [_ Hlabel].
  destruct (call_without_container sample_classify sample_translate sample_length
              TERMS numbered t eq_refl eq_refl) as [Hdoc' [Hsyntax _]].
  split; [exact He|]. split; [reflexivity|]. split; [reflexivity|]. split; [exact Hdoc|].
  split.
  { apply (Hlabel (sample_metric "inflation" five_ticks) [-4; -2; 0; 2; 4]%Q);
      reflexivity. }
  split; [reflexivity|]. split; [reflexivity|]. split; [exact Hdoc'|].
  now apply Hsyntax.
Defined.

Lemma call_without_data_witness :
  let config := mkConfig (ChartOf "gdp") 940 None in
  let s := loaded sample_data 940 in
  data config = None
  /\ exists_in (container config) (doc s) = true
  /\ option_map (fun g => List.length (g_children g))
       (chart_of (container config) (doc s)) = Some 9%nat
  /\ fst (renderGraphicWith sample_classify sample_translate sample_length
            TERMS config s) = Throw DataUndefined
  /\ chart_of (container config)
       (doc (snd (renderGraphicWith sample_classify sample_translate sample_length
                    TERMS config s))) =
     Some (root_of (isMobile s) 940 []).
Proof.
  intros config s.
  split; [reflexivity|]. split; [vm_compute; reflexivity|].
  split; [vm_compute; reflexivity|].
  apply (call_without_data sample_classify sample_translate sample_length TERMS
           config s); [reflexivity | vm_compute; reflexivity].
Defined.

Lemma label_anchor_witness :
  let config := config_of sample_data 940 "gdp" in
  let m := sample_metric "gdp" five_ticks in
  let s := scaffolded sample_data in
  data config = Some m
  /\ m_ticks m = five_ticks
  /\ exists_in (container config) (doc s) = true
  /\ exists g bubble label x,
       chart_of (container config)
         (doc (snd (renderGraphicWith sample_classify sample_translate sample_length
                      TERMS config s))) = Some g
       /\ child_of_class "label-bubble" g = Some bubble
       /\ child_of_class "label" g = Some label
       /\ attr_of "x" bubble = Some (ANum (Num x))
       /\ attr_of "x" label = Some (ANum (Num x))
       /\ (x == -9)%Q
       /\ attr_of "width" bubble = Some (ANum (Num (sample_length (m_label m) + 10)%Q))
       /\ attr_of "y" label =
          Some (ANum (apply_linear (yScale_of (isMobile s) (width config) m)
                        (last_of [-4; -2; 0; 2; 4]%Q)))
       /\ text_of label = Some (m_label m).
Proof.
  intros config m s.
  split; [reflexivity|]. split; [reflexivity|]. split; [reflexivity|].
  apply (label_anchor sample_classify sample_translate sample_length TERMS config m
           [-4; -2; 0; 2; 4]%Q s); reflexivity.
Defined.

Lemma empty_ticks_drawn_witness :
  let config := config_of bare_data 940 "gdp" in
  let m := sample_metric "gdp" (TicksArray []) in
  let s := scaffolded bare_data in
  data config = Some m
  /\ exists_in (container config) (doc s) = true
  /\ isMobile s = false
  /\ fst (renderGraphicWith sample_classify sample_translate sample_length
            TERMS config s) = Ok tt
  /\ exists g yAxis label,
       chart_of (container config)
         (doc (snd (renderGraphicWith sample_classify sample_translate sample_length
                      TERMS config s))) = Some g
       /\ axis_drawn "y axis" g = Some yAxis
       /\ a_tickValues yAxis = Some []
       /\ child_of_class "label" g = Some label
       /\ attr_of "y" label = Some (ANum NaN).
Proof.
  intros config m s.
  split; [reflexivity|]. split; [reflexivity|]. split; [reflexivity|].
  apply (empty_ticks_drawn sample_classify sample_translate sample_length TERMS
           config m s); reflexivity.
Defined.

Lemma xScale_linear_witness :
  (0 < chartWidth_of 940)%Q
  /\ Date 1999 0 1 < MIN_DATE
  /\ (apply_time (xScale_of 940) (Date 1999 0 1) < 0)%Q
  /\ (apply_time (xScale_of 940) (Date 2009 0 1)
      < apply_time (xScale_of 940) (Date 2010 0 1))%Q.
Proof.
  assert (Hw : (0 < chartWidth_of 940)%Q) by reflexivity.
  destruct (xScale_linear 940) as [_ [_ Hpos]].
  destruct (Hpos Hw) as [Hinc [Hleft _]].
  split; [exact Hw|]. split; [reflexivity|].
  split; [apply Hleft; reflexivity | apply Hinc; reflexivity].
Defined.

Lemma bands_disjoint_witness :
  let x := apply_time (xScale_of 940) in
  (0 < chartWidth_of 940)%Q
  /\ Forall (fun t => (0 <= x (start t))%Q /\ (x (start t) < x (end_ t))%Q
                      /\ (x (end_ t) < chartWidth_of 940)%Q) TERMS.
Proof.
  intros x.
  assert (Hw : (0 < chartWidth_of 940)%Q) by reflexivity.
  split; [exact Hw|].
  exact (proj1 (proj2 (bands_disjoint 940 Hw))).
Defined.

Lemma yScale_inverted_witness :
  let m := sample_metric "gdp" five_ticks in
  let y := fun v => interpolate (m_min m) (m_max m) (chartHeight_of false 940) 0 v in
  (m_min m < m_max m)%Q
  /\ (0 < chartHeight_of false 940)%Q
  /\ (y (m_min m) == chartHeight_of false 940)%Q
  /\ (y (m_max m) == 0)%Q
  /\ (y 2 < y (-2))%Q.
Proof.
  intros m y.
  assert (Hlt : (m_min m < m_max m)%Q) by reflexivity.
  assert (Hh : (0 < chartHeight_of false 940)%Q) by reflexivity.
  destruct (yScale_inverted false 940 m Hlt Hh) as [_ [_ [Hmin [Hmax Hdec]]]].
  split; [exact Hlt|]. split; [exact Hh|]. split; [exact Hmin|].
  split; [exact Hmax|]. apply Hdec. reflexivity.
Defined.

Lemma flat_domain_witness :
  let config := mkConfig (ChartOf "gdp") 940 (Some flat_metric) in
  let s := scaffolded sample_data in
  data config = Some flat_metric
  /\ (m_min flat_metric == m_max flat_metric)%Q
  /\ exists_in (container config) (doc s) = true
  /\ apply_linear (yScale_of (isMobile s) (width config) flat_metric) (Some 7%Q) =
     Num (chartHeight_of (isMobile s) (width config)).
Proof.
  intros config s.
  assert (Heq : (m_min flat_metric == m_max flat_metric)%Q) by reflexivity.
  split; [reflexivity|]. split; [exact Heq|]. split; [reflexivity|].
  apply (flat_domain sample_classify sample_translate sample_length TERMS config
           flat_metric s eq_refl Heq eq_refl).
Defined.

Lemma line_follows_data_witness :
  let config := config_of sample_data 940 "gdp" in
  let m := sample_metric "gdp" five_ticks in
  let s := scaffolded sample_data in
  data config = Some m
  /\ exists_in (container config) (doc s) = true
  /\ (0 < chartWidth_of (width config))%Q
  /\ StronglySorted Z.lt (map p_date (m_data m))
  /\ exists g pts,
       chart_of (container config)
         (doc (snd (renderGraphicWith sample_classify sample_translate sample_length
                      TERMS config s))) = Some g
       /\ path_drawn g = Some pts
       /\ List.length pts = 2%nat
       /\ StronglySorted Qlt (map fst pts).
Proof.
  intros config m s.
  assert (Hw : (0 < chartWidth_of (width config))%Q) by reflexivity.
  assert (Hs : StronglySorted Z.lt (map p_date (m_data m))).
  { repeat constructor. }
  split; [reflexivity|]. split; [reflexivity|]. split; [exact Hw|]. split; [exact Hs|].
  destruct (line_follows_data sample_classify sample_translate sample_length TERMS
              config m s eq_refl eq_refl)
    as [g [pts [Hg [Hp [_ [Hlen Hsorted]]]]]].
  exists g, pts. repeat split; try assumption. now apply Hsorted.
Defined.

Lemma x_axis_ticks_witness :
  let config := config_of sample_data 480 "gdp" in
  let s := loaded sample_data 480 in
  data config = Some (sample_metric "gdp" five_ticks)
  /\ exists_in (container config) (doc s) = true
  /\ isMobile s = true
  /\ exists g xAxis,
       chart_of (container config)
         (doc (snd (renderGraphicWith sample_classify sample_translate sample_length
                      TERMS config s))) = Some g
       /\ axis_drawn "x axis" g = Some xAxis
       /\ map label_text (tick_labels xAxis) =
          [ "2000"; "2004"; "2008"; "2012"; "2016"; "2020" ]%string.
Proof.
  intros config s.
  split; [reflexivity|]. split; [vm_compute; reflexivity|].
  split; [vm_compute; reflexivity|].
  destruct (x_axis_ticks sample_classify sample_translate sample_length TERMS config
              (sample_metric "gdp" five_ticks) s)
    as [g [xAxis [Hg [Ha [_ [Hl _]]]]]]; [reflexivity | vm_compute; reflexivity |].
  exists g, xAxis. repeat split; assumption.
Defined.

Lemma chart_dimensions_witness :
  let config := config_of sample_data 90 "gdp" in
  let s := loaded sample_data 90 in
  data config = Some (sample_metric "gdp" five_ticks)
  /\ exists_in (container config) (doc s) = true
  /\ isMobile s = true
  /\ exists g ch,
       chart_of (container config)
         (doc (snd (renderGraphicWith sample_classify sample_translate sample_length
                      TERMS config s))) = Some g
       /\ (svg_width g == 90)%Q
       /\ (ch == 90 / aspectRatio true - 40)%Q
       /\ ~ (0 < ch)%Q.
Proof.
  intros config s.
  assert (Hm : isMobile s = true) by (vm_compute; reflexivity).
  split; [reflexivity|]. split; [vm_compute; reflexivity|]. split; [exact Hm|].
  destruct (chart_dimensions sample_classify sample_translate sample_length TERMS
              config (sample_metric "gdp" five_ticks) s)
    as [g [xAxis [yAxis [cw [ch [Hg [Hsw [_ [_ [_ [_ [_ [_ [Hch [_ [Hnarrow _]]]]]]]]]]]]]]]];
    [reflexivity | vm_compute; reflexivity |].
  exists g, ch. split; [exact Hg|]. split; [exact Hsw|].
  split; [rewrite Hm in Hch; exact Hch|].
  intros Hpos. apply (Hnarrow Hm) in Hpos. vm_compute in Hpos. discriminate.
Defined.

Lemma thinning_of_long_lists_witness :
  let config := config_of sample_data 480 "gdp" in
  let m := sample_metric "gdp" five_ticks in
  let s := loaded sample_data 480 in
  data config = Some m
  /\ (5 <= List.length [-4; -2; 0; 2; 4]%Q)%nat
  /\ exists_in (container config) (doc s) = true
  /\ isMobile s = true
  /\ exists g yAxis,
       chart_of (container config)
         (doc (snd (renderGraphicWith sample_classify sample_translate sample_length
                      TERMS config s))) = Some g
       /\ axis_drawn "y axis" g = Some yAxis
       /\ a_tickValues yAxis = Some [ TickNum (-4); TickNum 0; TickNum 4 ]
       /\ last_of [-4; -2; 0; 2; 4]%Q = Some 4%Q.
Proof.
  intros config m s.
  assert (Hm : isMobile s = true) by (vm_compute; reflexivity).
  split; [reflexivity|]. split; [cbn; lia|].
  split; [vm_compute; reflexivity|]. split; [exact Hm|].
  destruct (thinning_of_long_lists sample_classify sample_translate sample_length
              TERMS config m [-4; -2; 0; 2; 4]%Q s)
    as [g [yAxis [Hg [Ha [Hnarrow [_ Hlast]]]]]];
    [reflexivity | reflexivity | cbn; lia | vm_compute; reflexivity |].
  exists g, yAxis. split; [exact Hg|]. split; [exact Ha|].
  split; [exact (Hnarrow Hm) | exact (Hlast eq_refl)].
Defined.

Lemma render_result_witness :
  let s := scaffolded sample_data in
  let R := render sample_classify sample_translate sample_length 940 in
  (forall key, In key (keys (graphicData s)) ->
     exists_in (ChartOf key) (doc s) = true /\ has_ticks (graphicData s) key = true)
  /\ fst (R s) = Ok tt
  /\ keys numbered_data = DISPLAY_ORDER ++ [ "401k"%string ]
  /\ identifier "401k" = false
  /\ fst (R (scaffolded numbered_data)) = Throw SyntaxError
  /\ keys extended_data = DISPLAY_ORDER ++ [ "inflation"%string ]
  /\ exists_in (ChartOf "inflation") (doc (scaffolded extended_data)) = false
  /\ fst (R (scaffolded extended_data)) = Throw LabelNull.
Proof.
  intros s R.
  assert (Hfine : forall key, In key (keys (graphicData s)) ->
            exists_in (ChartOf key) (doc s) = true
            /\ has_ticks (graphicData s) key = true).
  { intros key Hin. cbn in Hin.
    repeat (destruct Hin as [<-|Hin]; [split; reflexivity|]). destruct Hin. }
  split; [exact Hfine|].
  destruct (render_result sample_classify sample_translate sample_length 940 s)
    as [Hok _].
  split; [now apply Hok|].
  destruct (render_result sample_classify sample_translate sample_length 940
              (scaffolded numbered_data)) as [_ Hnum].
  destruct (Hnum DISPLAY_ORDER "401k"%string []) as [Hsyntax _];
    [reflexivity | | reflexivity |].
  { intros key Hin. cbn in Hin.
    repeat (destruct Hin as [<-|Hin]; [split; reflexivity|]). destruct Hin. }
  destruct (render_result sample_classify sample_translate sample_length 940
              (scaffolded extended_data)) as [_ Hext].
  destruct (Hext DISPLAY_ORDER "inflation"%string []) as [_ [_ Hlabel]];
    [reflexivity | | reflexivity |].
  { intros key Hin. cbn in Hin.
    repeat (destruct Hin as [<-|Hin]; [split; reflexivity|]). destruct Hin. }
  split; [reflexivity|]. split; [reflexivity|]. split; [now apply Hsyntax|].
  split; [reflexivity|]. split; [reflexivity|].
  apply Hlabel; reflexivity.
Defined.

Lemma render_frame_witness :
  let s := scaffolded broken_data in
  let s' := snd (render sample_classify sample_translate sample_length 480 s) in
  (480 <= 600)%Q
  /\ isMobile s' = true
  /\ Forall (fun k => word k = true) (keys (graphicData s))
  /\ map chartless (wrappers (doc s')) = map chartless (wrappers (doc s))
  /\ ~ In "inflation"%string (keys (graphicData s))
  /\ chart_of (ChartOf "inflation") (doc s') = chart_of (ChartOf "inflation") (doc s)
  /\ fst (render sample_classify sample_translate sample_length 480 initial) = Ok tt.
Proof.
  intros s s'.
  assert (Hw : (480 <= 600)%Q) by (vm_compute; discriminate).
  assert (Hwords : Forall (fun k => word k = true) (keys (graphicData s)))
    by (apply words_of; vm_compute; reflexivity).
  assert (Hout : ~ In "inflation"%string (keys (graphicData s))).
  { apply (keys_outside [ "inflation"%string ] (keys (graphicData s)));
      [vm_compute; reflexivity | now left]. }
  destruct (render_frame sample_classify sample_translate sample_length 480 s)
    as [Hmob [_ [_ [Hdom _]]]].
  destruct (Hdom Hwords) as [_ [Hless [_ Hkept]]].
  destruct (render_frame sample_classify sample_translate sample_length 480 initial)
    as [_ [_ [_ [_ Hempty]]]].
  split; [exact Hw|]. split; [now apply Hmob|]. split; [exact Hwords|].
  split; [exact Hless|]. split; [exact Hout|]. split.
  - apply Hkept; [exact Hout | |].
    + apply (keys_outside [ "inflation"%string ]); [vm_compute; reflexivity | now left].
    + apply keys_outside. vm_compute. reflexivity.
  - now apply Hempty.
Defined.

Lemma last_resize_wins_witness :
  let R := onResize sample_classify sample_translate sample_length in
  let s := scaffolded sample_data in
  Forall (fun k => word k = true) (keys (graphicData s))
  /\ doc (snd (R 480%Q (snd (R 940%Q s)))) = doc (snd (R 480%Q s))
  /\ doc (snd (R 480%Q s)) <> doc (snd (R 940%Q s))
  /\ isMobile (snd (R 480%Q (snd (R 940%Q s)))) = true.
Proof.
  intros R s.
  assert (Hw : Forall (fun k => word k = true) (keys (graphicData s)))
    by (apply words_of; vm_compute; reflexivity).
  destruct (last_resize_wins sample_classify sample_translate sample_length 940 480 s Hw)
    as [Hdoc [Hmob _]].
  split; [exact Hw|]. split; [exact Hdoc|]. split; [vm_compute; discriminate|].
  unfold R. rewrite Hmob. vm_compute. reflexivity.
Defined.

Lemma container_holds_last_drawing_witness :
  let s := scaffolded aliased_data in
  let s' := snd (render sample_classify sample_translate sample_length 940 s) in
  keys (graphicData s) = DISPLAY_ORDER ++ "charts"%string :: []
  /\ target (ChartOf "charts") (doc s) = Some 0%nat
  /\ target (ChartOf "gdp") (doc s) = Some 0%nat
  /\ fst (render sample_classify sample_translate sample_length 940 s) = Ok tt
  /\ charts_in (ChartOf "gdp") (doc s') =
     [ snd (draw sample_classify sample_translate sample_length TERMS false
              (config_of aliased_data 940 "charts")) ]
  /\ option_map (fun g => option_map a_tickValues (axis_drawn "y axis" g))
       (chart_of (ChartOf "gdp") (doc s')) =
     Some (Some (Some [ TickNum 1; TickNum 2; TickNum 3 ])).
Proof.
  intros s s'.
  assert (Hok : fst (render sample_classify sample_translate sample_length 940 s) = Ok tt)
    by (vm_compute; reflexivity).
  destruct (container_holds_last_drawing sample_classify sample_translate sample_length
              940 s DISPLAY_ORDER [] "charts" 0)
    as [Hlast _];
    [reflexivity | reflexivity | intros k [] | exact Hok |].
  split; [reflexivity|]. split; [reflexivity|]. split; [reflexivity|].
  split; [exact Hok|]. split; [exact (Hlast (ChartOf "gdp") eq_refl)|].
  vm_compute. reflexivity.
Defined.

Lemma init_missing_metric_witness :
  let s' := snd (init sample_classify sample_translate sample_length partial_data 940
                   initial) in
  DISPLAY_ORDER =
    [ "gdp"%string; "unemployment"%string; "labor"%string; "poverty"%string ]
    ++ "trade"%string :: [ "stocks"%string; "wages"%string; "budget"%string; "debt"%string ]
  /\ prop partial_data "trade" = None
  /\ fst (init sample_classify sample_translate sample_length partial_data 940 initial) =
     Throw MetricUndefined
  /\ map w_id (wrappers (doc s')) =
     [ "gdp"; "unemployment"; "labor"; "poverty"; "trade" ]%string
  /\ trace s' = []
  /\ resize_bound s' = false.
Proof.
  intros s'.
  split; [reflexivity|]. split; [reflexivity|].
  destruct (init_missing_metric sample_classify sample_translate sample_length
              partial_data 940 initial
              [ "gdp"%string; "unemployment"%string; "labor"%string; "poverty"%string ]
              [ "stocks"%string; "wages"%string; "budget"%string; "debt"%string ]
              "trade")
    as [Hthrow [_ [Hdoc [_ [_ [Htrace [_ Hbound]]]]]]].
  - reflexivity.
  - intros k Hin. cbn in Hin.
    repeat (destruct Hin as [<-|Hin]; [vm_compute; discriminate|]). destruct Hin.
  - reflexivity.
  - split; [exact Hthrow|]. subst s'.
    split; [rewrite Hdoc; reflexivity|]. split; [exact Htrace | exact Hbound].
Defined.

Lemma init_complete_witness :
  let ids := [ "interactive-content"%string ] in
  let s' := snd (init sample_classify sample_translate sample_length reversed_data 940
                   (page ids)) in
  (forall key, In key DISPLAY_ORDER -> has_ticks reversed_data key = true)
  /\ (forall key, In key (keys reversed_data) -> In key DISPLAY_ORDER)
  /\ (forall key, In key DISPLAY_ORDER -> ~ In key ids)
  /\ fst (init sample_classify sample_translate sample_length reversed_data 940
            (page ids)) = Ok tt
  /\ resize_bound s' = true
  /\ map w_id (wrappers (doc s')) = DISPLAY_ORDER
  /\ trace s' =
     map (fun k => CallRenderGraphic (ChartOf k)) (rev DISPLAY_ORDER) ++ [ CallFmResize ].
Proof.
  intros ids s'.
  assert (H1 : forall key, In key DISPLAY_ORDER -> has_ticks reversed_data key = true).
  { intros key Hin. cbn in Hin.
    repeat (destruct Hin as [<-|Hin]; [reflexivity|]). destruct Hin. }
  assert (H2 : forall key, In key (keys reversed_data) -> In key DISPLAY_ORDER).
  { intros key Hin. cbn in Hin.
    repeat (destruct Hin as [<-|Hin]; [cbn; tauto|]). destruct Hin. }
  assert (H3 : forall key, In key DISPLAY_ORDER -> ~ In key ids)
    by (apply keys_outside; vm_compute; reflexivity).
  destruct (init_complete sample_classify sample_translate sample_length
              reversed_data 940 ids H1 H2 H3)
    as [Hok [_ [Hbound [_ [_ [Hids [_ Htrace]]]]]]].
  split; [exact H1|]. split; [exact H2|]. split; [exact H3|]. split; [exact Hok|].
  split; [exact Hbound|]. split; [exact Hids | exact Htrace].
Defined.

Lemma init_extra_key_witness :
  let ids := [ "interactive-content"%string ] in
  let s' := snd (init sample_classify sample_translate sample_length extended_data 940
                   (page ids)) in
  Forall (fun k => word k = true) (keys extended_data)
  /\ In "inflation"%string (keys extended_data)
  /\ ~ In "inflation"%string DISPLAY_ORDER
  /\ ~ In "inflation"%string ("charts"%string :: ids)
  /\ fst (init sample_classify sample_translate sample_length extended_data 940
            (page ids)) = Throw LabelNull
  /\ exists_in (ChartOf "inflation") (doc s') = false
  /\ resize_bound s' = false
  /\ ~ In CallFmResize (trace s').
Proof.
  intros ids s'.
  assert (H1 : forall k, In k DISPLAY_ORDER -> prop extended_data k <> None).
  { intros k Hin. cbn in Hin.
    repeat (destruct Hin as [<-|Hin]; [vm_compute; discriminate|]). destruct Hin. }
  assert (Hw : Forall (fun k => word k = true) (keys extended_data))
    by (apply words_of; vm_compute; reflexivity).
  assert (H2 : In "inflation"%string (keys extended_data)).
  { cbn. tauto. }
  assert (H3 : ~ In "inflation"%string DISPLAY_ORDER).
  { cbn. intuition discriminate. }
  assert (H4 : ~ In "inflation"%string ("charts"%string :: ids)).
  { cbn. intuition discriminate. }
  destruct (init_extra_key sample_classify sample_translate sample_length
              extended_data 940 ids "inflation" H1 Hw H2 H3 H4)
    as [_ [_ [Hnone [Hbound Hquiet]]]].
  split; [exact Hw|]. split; [exact H2|]. split; [exact H3|]. split; [exact H4|].
  split; [vm_compute; reflexivity|]. split; [exact Hnone|].
  split; [exact Hbound | exact Hquiet].
Defined.

Lemma enclosing_key_selects_first_witness :
  let config := config_of aliased_data 940 "charts" in
  let s := scaffolded aliased_data in
  let s' := snd (renderGraphicWith sample_classify sample_translate sample_length
                   TERMS config s) in
  identifier "charts" = true
  /\ In "charts"%string (enclosing (doc s))
  /\ first_index holds_chart (wrappers (doc s)) = Some 0%nat
  /\ option_map w_id (nth_error (wrappers (doc s)) 0) = Some "gdp"%string
  /\ target (container config) (doc s) = Some 0%nat
  /\ fst (renderGraphicWith sample_classify sample_translate sample_length
            TERMS config s) = Ok tt
  /\ charts_at 0 (doc s') =
     [ snd (draw sample_classify sample_translate sample_length TERMS false config) ].
Proof.
  intros config s s'.
  assert (Hin : In "charts"%string (enclosing (doc s))) by now left.
  destruct (enclosing_key_selects_first sample_classify sample_translate sample_length
              TERMS config s "charts" 0 eq_refl eq_refl Hin eq_refl)
    as [Ht [Hr [Hc _]]].
  split; [reflexivity|]. split; [exact Hin|]. split; [reflexivity|].
  split; [reflexivity|]. split; [exact Ht|].
  split; [rewrite Hr; reflexivity | exact Hc].
Defined.
